(** * EyeTracker.js: calibration engine and gaze-event segmenter

    A shallow embedding of [src/EyeTracker.js].  JavaScript numbers are
    read as real numbers (exact arithmetic, no NaN, no rounding), objects
    as records, arrays as lists ([push] appends at the end), [null] and
    [undefined] as [None].  Methods that mutate [this] take the object and
    return the updated one.  The one place where the code can raise (a
    [TypeError] when indexing a [null] point) is kept as a [None] result. *)

From Stdlib Require Import Reals Lra Lia List Bool Arith Sorted.
Import ListNotations.

Local Open Scope R_scope.

(** ** Numbers, truthiness and comparisons *)

(** [if (x)] on a number: [0] is falsy, everything else truthy. *)
Definition truthy (x : R) : bool :=
  if Req_dec_T x 0 then false else true.

(** [if (v)] on a value that is a number or [null]. *)
Definition truthy_num (v : option R) : bool :=
  match v with
  | Some x => truthy x
  | None => false
  end.

(** [if (v)] on a value that is an object (array, record) or [null]. *)
Definition truthy_obj {A : Type} (v : option A) : bool :=
  match v with
  | Some _ => true
  | None => false
  end.

(** Arithmetic on a number-or-[null]: [null] converts to [0]. *)
Definition to_number (v : option R) : R :=
  match v with
  | Some x => x
  | None => 0
  end.

(** [x > y], [x >= y] and [x <= y] as the tests the code branches on. *)
Definition num_gt (x y : R) : bool := if Rlt_dec y x then true else false.
Definition num_ge (x y : R) : bool := if Rle_dec y x then true else false.
Definition num_le (x y : R) : bool := if Rle_dec x y then true else false.

Definition Point : Type := (R * R)%type.

(** [euclideanDistance(p1, p2)] *)
Definition euclideanDistance (p1 p2 : Point) : R :=
  sqrt ((fst p2 - fst p1) ^ 2 + (snd p2 - snd p1) ^ 2).

(** [xs.reduce((sum, v) => sum + f(v), 0)] *)
Definition reduce_sum {A : Type} (f : A -> R) (xs : list A) : R :=
  fold_left (fun sum v => sum + f v) xs 0.

(** [calculateCentroid(points)] *)
Definition calculateCentroid (points : list Point) : Point :=
  match points with
  | [] => (0, 0)
  | _ =>
      let sumX := reduce_sum fst points in
      let sumY := reduce_sum snd points in
      (sumX / INR (length points), sumY / INR (length points))
  end.

(** ** The objects stored in the segmenter's lists *)

Module GazeSample.
Record t : Type := mk { point : Point; timestamp : R }.
End GazeSample.

Module FixationEvent.
Record t : Type := mk { point : Point; duration : R; start : R; end_ : R }.
End FixationEvent.

Module SaccadeEvent.
Record t : Type := mk { start : Point; end_ : Point; distance : R; duration : R }.
End SaccadeEvent.

Module Metrics.
Record t : Type := mk {
  gazeDuration : R;
  dwellTime : R;
  saccadeLength : R;
  distractorSaccades : R;
  fixationCount : nat;
  refixationRatio : R
}.
End Metrics.

(** ** class EyeFeatureExtractor *)

Module EyeFeatureExtractor.

Record t : Type := mk {
  fixationRadius : R;
  fixationDuration : R;
  saccadeThreshold : R;
  gazeHistory : list GazeSample.t;
  fixations : list FixationEvent.t;
  saccades : list SaccadeEvent.t;
  lastGazePoint : option Point;
  lastGazeTimestamp : option R;
  lastFixationStart : option R;
  lastFixationPoint : option Point
}.

(** [constructor()] *)
Definition new : t :=
  mk 50 100 30 [] [] [] None None None None.

(** [reset()] *)
Definition reset (s : t) : t :=
  mk (fixationRadius s) (fixationDuration s) (saccadeThreshold s)
     [] [] [] None None None None.

(** Field updates written once. *)
Definition push_gazeHistory (s : t) (g : GazeSample.t) : t :=
  mk (fixationRadius s) (fixationDuration s) (saccadeThreshold s)
     (gazeHistory s ++ [g]) (fixations s) (saccades s)
     (lastGazePoint s) (lastGazeTimestamp s)
     (lastFixationStart s) (lastFixationPoint s).

Definition push_fixations (s : t) (f : FixationEvent.t) : t :=
  mk (fixationRadius s) (fixationDuration s) (saccadeThreshold s)
     (gazeHistory s) (fixations s ++ [f]) (saccades s)
     (lastGazePoint s) (lastGazeTimestamp s)
     (lastFixationStart s) (lastFixationPoint s).

Definition push_saccades (s : t) (e : SaccadeEvent.t) : t :=
  mk (fixationRadius s) (fixationDuration s) (saccadeThreshold s)
     (gazeHistory s) (fixations s) (saccades s ++ [e])
     (lastGazePoint s) (lastGazeTimestamp s)
     (lastFixationStart s) (lastFixationPoint s).

Definition set_lastGaze (s : t) (p : option Point) (ts : option R) : t :=
  mk (fixationRadius s) (fixationDuration s) (saccadeThreshold s)
     (gazeHistory s) (fixations s) (saccades s)
     p ts
     (lastFixationStart s) (lastFixationPoint s).

Definition set_lastFixationStart (s : t) (ts : option R) : t :=
  mk (fixationRadius s) (fixationDuration s) (saccadeThreshold s)
     (gazeHistory s) (fixations s) (saccades s)
     (lastGazePoint s) (lastGazeTimestamp s)
     ts (lastFixationPoint s).

Definition set_lastFixationPoint (s : t) (p : option Point) : t :=
  mk (fixationRadius s) (fixationDuration s) (saccadeThreshold s)
     (gazeHistory s) (fixations s) (saccades s)
     (lastGazePoint s) (lastGazeTimestamp s)
     (lastFixationStart s) p.

(** [endFixation(point, timestamp)] *)
Definition endFixation (s : t) (point : Point) (timestamp : R) : t :=
  let s1 :=
    if truthy_num (lastFixationStart s) then
      let duration := timestamp - to_number (lastFixationStart s) in
      if num_ge duration (fixationDuration s) then
        push_fixations s
          (FixationEvent.mk point duration
             (to_number (lastFixationStart s)) timestamp)
      else s
    else s in
  set_lastFixationPoint (set_lastFixationStart s1 None) None.

(** The body of [if (this.lastGazePoint) { ... }] in [processGaze], with
    [lastPoint] the non-null [this.lastGazePoint].  [None] is the
    [TypeError] of [euclideanDistance(this.lastFixationPoint, gazePoint)]
    on a [null] [lastFixationPoint]. *)
Definition processGaze_step (s : t) (lastPoint gazePoint : Point)
    (timestamp : R) : option t :=
  let distance := euclideanDistance lastPoint gazePoint in
  if num_gt distance (saccadeThreshold s) then
    let s1 :=
      push_saccades s
        (SaccadeEvent.mk lastPoint gazePoint distance
           (timestamp - to_number (lastGazeTimestamp s))) in
    let s2 :=
      if truthy_num (lastFixationStart s1) then
        endFixation s1 lastPoint (to_number (lastGazeTimestamp s1))
      else s1 in
    Some (set_lastFixationPoint (set_lastFixationStart s2 None) None)
  else
    if negb (truthy_num (lastFixationStart s)) then
      Some (set_lastFixationPoint
              (set_lastFixationStart s (Some timestamp)) (Some gazePoint))
    else if num_ge (timestamp - to_number (lastFixationStart s))
                   (fixationDuration s) then
      match lastFixationPoint s with
      | None => None
      | Some fp =>
          if num_le (euclideanDistance fp gazePoint) (fixationRadius s) then
            Some (set_lastFixationPoint s
                    (Some ((fst fp + fst gazePoint) / 2,
                           (snd fp + snd gazePoint) / 2)))
          else
            let s1 := endFixation s fp timestamp in
            Some (set_lastFixationPoint
                    (set_lastFixationStart s1 (Some timestamp))
                    (Some gazePoint))
      end
    else Some s.

(** [processGaze(gazePoint, timestamp)] *)
Definition processGaze (s : t) (gazePoint : Point) (timestamp : R)
    : option t :=
  let s0 := push_gazeHistory s (GazeSample.mk gazePoint timestamp) in
  let r :=
    match lastGazePoint s0 with
    | Some lastPoint => processGaze_step s0 lastPoint gazePoint timestamp
    | None => Some s0
    end in
  match r with
  | Some s1 => Some (set_lastGaze s1 (Some gazePoint) (Some timestamp))
  | None => None
  end.

(** The end-of-stream flush at the top of [getMetrics()]. *)
Definition flush (s : t) : t :=
  match lastGazePoint s with
  | Some p =>
      if truthy_num (lastFixationStart s) && truthy_num (lastGazeTimestamp s)
      then endFixation s p (to_number (lastGazeTimestamp s))
      else s
  | None => s
  end.

(** The aggregates computed by [getMetrics()] once the flush is done. *)
Definition aggregate (s : t) : Metrics.t :=
  let totalGazeDuration :=
    match gazeHistory s with
    | first :: _ :: _ =>
        GazeSample.timestamp (last (gazeHistory s) first)
        - GazeSample.timestamp first
    | _ => 0
    end in
  let fixationCount := length (fixations s) in
  let totalSaccades := length (saccades s) in
  let dwellTime := reduce_sum FixationEvent.duration (fixations s) in
  let refixationRatio :=
    if (0 <? fixationCount)%nat
    then (INR fixationCount - 1) / INR fixationCount
    else 0 in
  let distractorSaccades := 0 in
  let saccadeLength :=
    if (0 <? totalSaccades)%nat
    then reduce_sum SaccadeEvent.distance (saccades s) / INR totalSaccades
    else 0 in
  Metrics.mk totalGazeDuration dwellTime saccadeLength distractorSaccades
             fixationCount refixationRatio.

(** [getMetrics()]: the returned record and the object after the call. *)
Definition getMetrics (s : t) : Metrics.t * t :=
  let s1 := flush s in
  (aggregate s1, s1).

(** A client of the segmenter: any interleaving of its methods. *)
Inductive call : Type :=
| ProcessGaze (gazePoint : Point) (timestamp : R)
| EndFixation (point : Point) (timestamp : R)
| GetMetrics
| Reset.

Definition do_call (s : t) (c : call) : option t :=
  match c with
  | ProcessGaze p ts => processGaze s p ts
  | EndFixation p ts => Some (endFixation s p ts)
  | GetMetrics => Some (snd (getMetrics s))
  | Reset => Some (reset s)
  end.

Fixpoint run (s : t) (cs : list call) : option t :=
  match cs with
  | [] => Some s
  | c :: cs' =>
      match do_call s c with
      | Some s' => run s' cs'
      | None => None
      end
  end.

(** Scenario B: three gaze samples into a fresh segmenter, then
    [getMetrics()]. *)
Definition scenario_B (t0 : R) : option (Metrics.t * t) :=
  match run new [ProcessGaze (0, 0) t0;
                 ProcessGaze (5, 5) (t0 + 50);
                 ProcessGaze (8, 8) (t0 + 120)] with
  | Some s => Some (getMetrics s)
  | None => None
  end.

End EyeFeatureExtractor.

(** ** Landmarks, calibration samples and the fitted model *)

Module Landmark.
Record t : Type := mk { x : R; y : R; z : R }.
End Landmark.

(** The detector's landmark array; an entry may be missing or [null]. *)
Definition Landmarks : Type := list (option Landmark.t).

(** [landmarks[i]]: [None] when the index is out of range or holds no
    object, which is what the code's [!landmark] tests see. *)
Definition landmark_at (landmarks : Landmarks) (i : nat)
    : option Landmark.t :=
  match nth_error landmarks i with
  | Some v => v
  | None => None
  end.

Module CalibrationSample.
Record t : Type := mk { features : list R; gaze : Point; target : Point }.
End CalibrationSample.

Module Model.
Record t : Type := mk { offsetX : R; offsetY : R }.
End Model.

(** ** class Calibrator *)

Module Calibrator.

Record t : Type := mk {
  screenWidth : R;
  screenHeight : R;
  calibrationPoints : list Point;
  gazeData : list CalibrationSample.t;
  model : option Model.t;
  isCalibrating : bool;
  currentCalibrationIndex : nat;
  calibrationTargets : list Point;
  samplesPerPoint : nat;
  currentSamples : nat
}.

Definition numRows : nat := 5.
Definition numCols : nat := 5.

(** [_generateCalibrationTargets()]: the outer loop runs over rows, the
    inner one over columns, each pushing one target. *)
Definition _generateCalibrationTargets (screenWidth screenHeight : R)
    : list Point :=
  let xStep := screenWidth / (INR numCols + 1) in
  let yStep := screenHeight / (INR numRows + 1) in
  flat_map
    (fun r => map (fun c => ((INR c + 1) * xStep, (INR r + 1) * yStep))
                  (seq 0 numCols))
    (seq 0 numRows).

(** [constructor(screenWidth, screenHeight)] *)
Definition new (screenWidth screenHeight : R) : t :=
  mk screenWidth screenHeight [] [] None false 0
     (_generateCalibrationTargets screenWidth screenHeight) 30 0.

(** [startCalibration()] *)
Definition startCalibration (c : t) : t :=
  mk (screenWidth c) (screenHeight c) (calibrationPoints c)
     [] None true 0 (calibrationTargets c) (samplesPerPoint c) 0.

(** [_extractFeatures(landmarks)] *)
Definition _extractFeatures (landmarks : Landmarks) : list R :=
  match landmark_at landmarks 33, landmark_at landmarks 133,
        landmark_at landmarks 362, landmark_at landmarks 263,
        landmark_at landmarks 468, landmark_at landmarks 473 with
  | Some leftEyeOuterCorner, Some leftEyeInnerCorner,
    Some rightEyeOuterCorner, Some rightEyeInnerCorner,
    Some leftIrisCenter, Some rightIrisCenter =>
      [ Landmark.x leftIrisCenter - Landmark.x leftEyeOuterCorner;
        Landmark.y leftIrisCenter - Landmark.y leftEyeOuterCorner;
        Landmark.x rightIrisCenter - Landmark.x rightEyeOuterCorner;
        Landmark.y rightIrisCenter - Landmark.y rightEyeOuterCorner;
        euclideanDistance
          (Landmark.x leftEyeOuterCorner, Landmark.y leftEyeOuterCorner)
          (Landmark.x leftEyeInnerCorner, Landmark.y leftEyeInnerCorner);
        euclideanDistance
          (Landmark.x rightEyeOuterCorner, Landmark.y rightEyeOuterCorner)
          (Landmark.x rightEyeInnerCorner, Landmark.y rightEyeInnerCorner);
        Landmark.x leftIrisCenter;
        Landmark.y leftIrisCenter;
        Landmark.x rightIrisCenter;
        Landmark.y rightIrisCenter ]
  | _, _, _, _, _, _ => repeat 0 10
  end.

Definition set_model (c : t) (m : option Model.t) : t :=
  mk (screenWidth c) (screenHeight c) (calibrationPoints c)
     (gazeData c) m (isCalibrating c) (currentCalibrationIndex c)
     (calibrationTargets c) (samplesPerPoint c) (currentSamples c).

Definition set_isCalibrating (c : t) (b : bool) : t :=
  mk (screenWidth c) (screenHeight c) (calibrationPoints c)
     (gazeData c) (model c) b (currentCalibrationIndex c)
     (calibrationTargets c) (samplesPerPoint c) (currentSamples c).

Definition push_gazeData (c : t) (d : CalibrationSample.t) : t :=
  mk (screenWidth c) (screenHeight c) (calibrationPoints c)
     (gazeData c ++ [d]) (model c) (isCalibrating c)
     (currentCalibrationIndex c)
     (calibrationTargets c) (samplesPerPoint c) (currentSamples c).

Definition set_progress (c : t) (index samples : nat) : t :=
  mk (screenWidth c) (screenHeight c) (calibrationPoints c)
     (gazeData c) (model c) (isCalibrating c) index
     (calibrationTargets c) (samplesPerPoint c) samples.

(** [_trainModel()]: the loop adds one offset per sample to each sum. *)
Definition _trainModel (c : t) : t :=
  match gazeData c with
  | [] => set_model c None
  | _ =>
      let sumOffsetX :=
        fold_left
          (fun sum d => sum + (fst (CalibrationSample.target d)
                               - fst (CalibrationSample.gaze d)))
          (gazeData c) 0 in
      let sumOffsetY :=
        fold_left
          (fun sum d => sum + (snd (CalibrationSample.target d)
                               - snd (CalibrationSample.gaze d)))
          (gazeData c) 0 in
      set_model c
        (Some (Model.mk (sumOffsetX / INR (length (gazeData c)))
                        (sumOffsetY / INR (length (gazeData c)))))
  end.

(** [finishCalibration()] *)
Definition finishCalibration (c : t) : t :=
  _trainModel (set_isCalibrating c false).

(** The advance shared by [addGazeSample] and
    [moveToNextCalibrationPoint]: next target, counter back to zero,
    finish when the targets are exhausted. *)
Definition advance (c : t) : t :=
  let c1 := set_progress c (currentCalibrationIndex c + 1) 0 in
  if (length (calibrationTargets c1) <=? currentCalibrationIndex c1)%nat
  then finishCalibration c1
  else c1.

(** [addGazeSample(faceLandmarks, screenGazePoint)] *)
Definition addGazeSample (c : t) (faceLandmarks : Landmarks)
    (screenGazePoint : Point) : t :=
  if negb (isCalibrating c) then c
  else
    match nth_error (calibrationTargets c) (currentCalibrationIndex c) with
    | None => c
    | Some targetPoint =>
        let features := _extractFeatures faceLandmarks in
        let c1 :=
          push_gazeData c
            (CalibrationSample.mk features screenGazePoint targetPoint) in
        let c2 :=
          set_progress c1 (currentCalibrationIndex c1)
                       (currentSamples c1 + 1) in
        if (samplesPerPoint c2 <=? currentSamples c2)%nat
        then advance c2
        else c2
    end.

(** [moveToNextCalibrationPoint()] *)
Definition moveToNextCalibrationPoint (c : t) : t :=
  if isCalibrating c
     && (currentCalibrationIndex c <? length (calibrationTargets c))%nat
  then advance c
  else c.

(** [predictGaze(faceLandmarks)] *)
Definition predictGaze (c : t) (faceLandmarks : Landmarks)
    : option Point :=
  match model c with
  | None => None
  | Some m =>
      let features := _extractFeatures faceLandmarks in
      let predictedX := nth 6 features 0 + Model.offsetX m in
      let predictedY := nth 7 features 0 + Model.offsetY m in
      let clampedX := Rmax 0 (Rmin (screenWidth c) predictedX) in
      let clampedY := Rmax 0 (Rmin (screenHeight c) predictedY) in
      Some (clampedX, clampedY)
  end.

(** [getCurrentCalibrationPoint()] *)
Definition getCurrentCalibrationPoint (c : t) : option Point :=
  nth_error (calibrationTargets c) (currentCalibrationIndex c).

(** [getCalibrationProgress()] *)
Definition getCalibrationProgress (c : t) : R :=
  if negb (isCalibrating c) then 1
  else
    let totalSamplesNeeded :=
      INR (length (calibrationTargets c)) * INR (samplesPerPoint c) in
    let collectedSamples :=
      INR (currentCalibrationIndex c) * INR (samplesPerPoint c)
      + INR (currentSamples c) in
    collectedSamples / totalSamplesNeeded.

(** One calibration run as a client drives it. *)
Inductive call : Type :=
| AddGazeSample (faceLandmarks : Landmarks) (screenGazePoint : Point)
| MoveToNextCalibrationPoint.

Definition do_call (c : t) (k : call) : t :=
  match k with
  | AddGazeSample l g => addGazeSample c l g
  | MoveToNextCalibrationPoint => moveToNextCalibrationPoint c
  end.

Definition run (c : t) (ks : list call) : t := fold_left do_call ks c.

(** Scenario A: every frame reports a gaze that is the current target
    moved by [(-5, -5)]; [frames] gives the landmarks of each frame. *)
Definition biased_sample (c : t) (faceLandmarks : Landmarks) : t :=
  match getCurrentCalibrationPoint c with
  | Some target =>
      addGazeSample c faceLandmarks (fst target - 5, snd target - 5)
  | None => c
  end.

Definition scenario_A (screenWidth screenHeight : R)
    (frames : list Landmarks) : t :=
  fold_left biased_sample frames
            (startCalibration (new screenWidth screenHeight)).

End Calibrator.

(** ** class EyeTracker *)

Module FrameResult.
Record t : Type := mk {
  gaze : Point;
  isCalibrating : bool;
  currentCalibPoint : option Point;
  calibrationProgress : R;
  features : Metrics.t
}.
End FrameResult.

Module EyeTracker.

Record t : Type := mk {
  screenWidth : R;
  screenHeight : R;
  calibrator : Calibrator.t;
  featureExtractor : EyeFeatureExtractor.t;
  isCalibrating : bool;
  gaze : Point;
  currentCalibPoint : option Point;
  calibrationProgress : R
}.

(** [constructor(screenWidth, screenHeight)] *)
Definition new (screenWidth screenHeight : R) : t :=
  mk screenWidth screenHeight
     (Calibrator.new screenWidth screenHeight)
     EyeFeatureExtractor.new
     false (screenWidth / 2, screenHeight / 2) None 0.

(** [startCalibration()] *)
Definition startCalibration (e : t) : t :=
  let c := Calibrator.startCalibration (calibrator e) in
  mk (screenWidth e) (screenHeight e) c
     (EyeFeatureExtractor.reset (featureExtractor e))
     true (gaze e)
     (Calibrator.getCurrentCalibrationPoint c)
     (Calibrator.getCalibrationProgress c).

(** [moveToNextCalibrationPoint()] *)
Definition moveToNextCalibrationPoint (e : t) : t :=
  let c := Calibrator.moveToNextCalibrationPoint (calibrator e) in
  mk (screenWidth e) (screenHeight e) c (featureExtractor e)
     (isCalibrating e) (gaze e)
     (if negb (isCalibrating e) then None
      else Calibrator.getCurrentCalibrationPoint c)
     (Calibrator.getCalibrationProgress c).

(** The [if (this.isCalibrating) { ... }] block of [processLandmarks]. *)
Definition calibrate_frame (e : t) (landmarks : Landmarks)
    (rawGazePoint : Point) : t :=
  if isCalibrating e then
    let c := Calibrator.addGazeSample (calibrator e) landmarks
                                      rawGazePoint in
    mk (screenWidth e) (screenHeight e) c (featureExtractor e)
       (if negb (Calibrator.isCalibrating c) then false
        else isCalibrating e)
       (gaze e)
       (Calibrator.getCurrentCalibrationPoint c)
       (Calibrator.getCalibrationProgress c)
  else e.

Definition set_gaze (e : t) (g : Point) : t :=
  mk (screenWidth e) (screenHeight e) (calibrator e) (featureExtractor e)
     (isCalibrating e) g (currentCalibPoint e) (calibrationProgress e).

Definition set_featureExtractor (e : t) (s : EyeFeatureExtractor.t) : t :=
  mk (screenWidth e) (screenHeight e) (calibrator e) s
     (isCalibrating e) (gaze e) (currentCalibPoint e)
     (calibrationProgress e).

(** The point handed to the segmenter: the raw one, replaced by the
    prediction when a model is present. *)
Definition predicted_gaze (e : t) (landmarks : Landmarks)
    (rawGazePoint : Point) : option Point :=
  if truthy_obj (Calibrator.model (calibrator e))
  then Calibrator.predictGaze (calibrator e) landmarks
  else Some rawGazePoint.

(** [[screenGazeX, screenGazeY]] as computed from the two iris centres. *)
Definition raw_gaze_point (e : t) (leftIrisCenter rightIrisCenter : Landmark.t)
    : Point :=
  let rawGazeX := (Landmark.x leftIrisCenter + Landmark.x rightIrisCenter) / 2 in
  let rawGazeY := (Landmark.y leftIrisCenter + Landmark.y rightIrisCenter) / 2 in
  (rawGazeX * screenWidth e, rawGazeY * screenHeight e).

(** The [return { ... }] of [processLandmarks]: [getMetrics()] runs on
    the segmenter while the result is built. *)
Definition frame_result (e : t) : FrameResult.t * t :=
  let (metrics, s) := EyeFeatureExtractor.getMetrics (featureExtractor e) in
  (FrameResult.mk (gaze e) (isCalibrating e) (currentCalibPoint e)
                  (calibrationProgress e) metrics,
   set_featureExtractor e s).

(** [processLandmarks(landmarks, timestamp)]: the returned value ([None]
    for [null]) and the tracker after the call; the outer [None] is a
    raised exception. *)
Definition processLandmarks (e : t) (landmarks : Landmarks) (timestamp : R)
    : option (option FrameResult.t * t) :=
  match landmark_at landmarks 468, landmark_at landmarks 473 with
  | Some leftIrisCenter, Some rightIrisCenter =>
      let rawGazePoint := raw_gaze_point e leftIrisCenter rightIrisCenter in
      let e1 := calibrate_frame e landmarks rawGazePoint in
      match predicted_gaze e1 landmarks rawGazePoint with
      | Some predictedGaze =>
          let e2 := set_gaze e1 predictedGaze in
          match EyeFeatureExtractor.processGaze (featureExtractor e2)
                  (gaze e2) timestamp with
          | Some s =>
              let (result, e3) := frame_result (set_featureExtractor e2 s) in
              Some (Some result, e3)
          | None => None
          end
      | None =>
          let (result, e3) := frame_result e1 in
          Some (Some result, e3)
      end
  | _, _ => Some (None, e)
  end.

(** A client of the tracker: any interleaving of its methods. *)
Inductive call : Type :=
| StartCalibration
| MoveToNextCalibrationPoint
| ProcessLandmarks (landmarks : Landmarks) (timestamp : R).

(** One call: the value [processLandmarks] returned, if that was the
    call and it returned an object, and the tracker afterwards. *)
Definition do_call (e : t) (k : call)
    : option (option FrameResult.t * t) :=
  match k with
  | StartCalibration => Some (None, startCalibration e)
  | MoveToNextCalibrationPoint => Some (None, moveToNextCalibrationPoint e)
  | ProcessLandmarks l ts => processLandmarks e l ts
  end.

(** A session: the results returned so far, oldest first, and the
    tracker at the end. *)
Fixpoint run (e : t) (ks : list call)
    : option (list FrameResult.t * t) :=
  match ks with
  | [] => Some ([], e)
  | k :: ks' =>
      match do_call e k with
      | Some (r, e') =>
          match run e' ks' with
          | Some (rs, e'') =>
              Some (match r with Some v => v :: rs | None => rs end, e'')
          | None => None
          end
      | None => None
      end
  end.

End EyeTracker.

(** * Vocabulary of the properties *)

(** The feature vector returned when a landmark is missing. *)
Definition zero_features : list R := [0; 0; 0; 0; 0; 0; 0; 0; 0; 0].

(** The six landmark indices the feature vector is built from. *)
Definition required_landmarks : list nat := [33; 133; 362; 263; 468; 473]%nat.

(** A full landmark array for examples: landmark [i] sits at
    [(i/1000, i/500, 0)]. *)
Definition sample_landmarks : Landmarks :=
  map (fun i => Some (Landmark.mk (INR i / 1000) (INR i / 500) 0))
      (seq 0 478).

(** A point of the open rectangle [(0,W) x (0,H)]. *)
Definition strictly_inside (W H : R) (p : Point) : Prop :=
  0 < fst p < W /\ 0 < snd p < H.

(** A point of the closed rectangle [[0,W] x [0,H]]. *)
Definition inside_screen (W H : R) (p : Point) : Prop :=
  0 <= fst p <= W /\ 0 <= snd p <= H.

(** The fit in the spec's words: the mean of a list of offsets. *)
Definition mean (xs : list R) : R :=
  fold_right Rplus 0 xs / INR (length xs).

(** The per-axis offsets of one sample: target minus observed gaze. *)
Definition offset_x (d : CalibrationSample.t) : R :=
  fst (CalibrationSample.target d) - fst (CalibrationSample.gaze d).

Definition offset_y (d : CalibrationSample.t) : R :=
  snd (CalibrationSample.target d) - snd (CalibrationSample.gaze d).

(** A sample whose observed gaze is its target moved by [(-5, -5)]. *)
Definition biased (d : CalibrationSample.t) : Prop :=
  CalibrationSample.gaze d
  = (fst (CalibrationSample.target d) - 5,
     snd (CalibrationSample.target d) - 5).

(** The targets of a full run's samples: every target 30 times, in grid
    order. *)
Definition thirty_each (targets : list Point) : list Point :=
  flat_map (fun target => repeat target 30) targets.

(** The calibrator [k] frames into scenario A. *)
Record scenario_A_state (W H : R) (k : nat) (c : Calibrator.t) : Prop := {
  sA_width : Calibrator.screenWidth c = W;
  sA_height : Calibrator.screenHeight c = H;
  sA_grid :
    Calibrator.calibrationTargets c
    = Calibrator._generateCalibrationTargets W H;
  sA_targets : length (Calibrator.calibrationTargets c) = 25%nat;
  sA_sample_targets :
    map CalibrationSample.target (Calibrator.gazeData c)
    = firstn (Nat.min k 750) (thirty_each (Calibrator.calibrationTargets c));
  sA_spp : Calibrator.samplesPerPoint c = 30%nat;
  sA_biased : Forall biased (Calibrator.gazeData c);
  sA_count : length (Calibrator.gazeData c) = Nat.min k 750;
  sA_running :
    (k < 750)%nat ->
    Calibrator.isCalibrating c = true
    /\ (Calibrator.currentCalibrationIndex c * 30
        + Calibrator.currentSamples c = k)%nat
    /\ (Calibrator.currentSamples c < 30)%nat;
  sA_done :
    (750 <= k)%nat ->
    Calibrator.isCalibrating c = false
    /\ Calibrator.model c = Some (Model.mk 5 5)
}.

(** Samples counted so far in the run: full targets plus the current one. *)
Definition collected (c : Calibrator.t) : nat :=
  Calibrator.currentCalibrationIndex c * Calibrator.samplesPerPoint c
  + Calibrator.currentSamples c.

(** What holds of a calibrator built by [new] throughout a run. *)
Record run_wf (c : Calibrator.t) : Prop := {
  wf_targets : length (Calibrator.calibrationTargets c) = 25%nat;
  wf_spp : Calibrator.samplesPerPoint c = 30%nat;
  wf_running :
    Calibrator.isCalibrating c = true ->
    (Calibrator.currentCalibrationIndex c < 25)%nat
    /\ (Calibrator.currentSamples c < 30)%nat
}.

(** One calibration run on a fresh calibrator: [startCalibration()], then
    the calls [ks]. *)
Definition calibration_run (W H : R) (ks : list Calibrator.call)
    : Calibrator.t :=
  Calibrator.run (Calibrator.startCalibration (Calibrator.new W H)) ks.

(** What holds of a segmenter built by [new] after any calls. *)
Record seg_inv (s : EyeFeatureExtractor.t) : Prop := {
  inv_fixationDuration : EyeFeatureExtractor.fixationDuration s = 100;
  inv_saccadeThreshold : EyeFeatureExtractor.saccadeThreshold s = 30;
  inv_durations :
    Forall (fun f => FixationEvent.duration f >= 100)
           (EyeFeatureExtractor.fixations s);
  inv_distances :
    Forall (fun e => SaccadeEvent.distance e > 30)
           (EyeFeatureExtractor.saccades s);
  inv_candidate :
    truthy_num (EyeFeatureExtractor.lastFixationStart s) = true ->
    EyeFeatureExtractor.lastFixationPoint s <> None
}.

(** The segmenter between two frames of the tracker: no fixation recorded
    and no candidate open. *)
Record quiet (s : EyeFeatureExtractor.t) : Prop := {
  q_fixationDuration : EyeFeatureExtractor.fixationDuration s = 100;
  q_fixations : EyeFeatureExtractor.fixations s = [];
  q_candidate : truthy_num (EyeFeatureExtractor.lastFixationStart s) = false
}.

(** The three fixation metrics of a returned frame. *)
Definition no_fixation_metrics (m : Metrics.t) : Prop :=
  Metrics.fixationCount m = 0%nat
  /\ Metrics.dwellTime m = 0
  /\ Metrics.refixationRatio m = 0.

(** The point [processLandmarks] hands to the segmenter: the prediction
    when the calibrator has a model, the raw point otherwise. *)
Definition fed_point (c : Calibrator.t) (landmarks : Landmarks)
    (rawGazePoint : Point) : Point :=
  match Calibrator.predictGaze c landmarks with
  | Some predicted => predicted
  | None => rawGazePoint
  end.

(** A session in which the segmenter does emit both kinds of event: the
    gaze rests at the origin from 1010 to 1200 and then jumps by 100. *)
Definition resting_then_jump : list EyeFeatureExtractor.call :=
  [EyeFeatureExtractor.ProcessGaze (0, 0) 1000;
   EyeFeatureExtractor.ProcessGaze (0, 0) 1010;
   EyeFeatureExtractor.ProcessGaze (0, 0) 1200;
   EyeFeatureExtractor.ProcessGaze (100, 0) 1210].

(** ** Vocabulary of the further properties *)

(** The sum of a list of numbers. *)
Definition total (xs : list R) : R := fold_right Rplus 0 xs.

(** The [processGaze] calls that feed a list of timestamped points, in
    order. *)
Definition feed (samples : list (Point * R))
    : list EyeFeatureExtractor.call :=
  map (fun sample => EyeFeatureExtractor.ProcessGaze (fst sample) (snd sample))
      samples.

(** The history entries of a list of timestamped points. *)
Definition history_of (samples : list (Point * R)) : list GazeSample.t :=
  map (fun sample => GazeSample.mk (fst sample) (snd sample)) samples.

(** A fixation record whose fields agree with each other. *)
Definition consistent_fixation (f : FixationEvent.t) : Prop :=
  FixationEvent.duration f = FixationEvent.end_ f - FixationEvent.start f
  /\ FixationEvent.start f <> 0.

(** What holds of a calibrator throughout a calibration run on a screen
    of [W] by [H]: the configuration is the constructor's, no model exists
    while calibrating, and a run that has stopped stands past the last
    target. *)
Record run_inv (W H : R) (c : Calibrator.t) : Prop := {
  ri_width : Calibrator.screenWidth c = W;
  ri_height : Calibrator.screenHeight c = H;
  ri_points : Calibrator.calibrationPoints c = [];
  ri_grid :
    Calibrator.calibrationTargets c
    = Calibrator._generateCalibrationTargets W H;
  ri_spp : Calibrator.samplesPerPoint c = 30%nat;
  ri_from_grid :
    Forall (fun d => In (CalibrationSample.target d)
                        (Calibrator.calibrationTargets c))
           (Calibrator.gazeData c);
  ri_running :
    Calibrator.isCalibrating c = true ->
    (Calibrator.currentCalibrationIndex c < 25)%nat
    /\ (Calibrator.currentSamples c < 30)%nat
    /\ Calibrator.model c = None
    /\ (length (Calibrator.gazeData c)
        <= Calibrator.currentCalibrationIndex c * 30
           + Calibrator.currentSamples c)%nat;
  ri_idle :
    Calibrator.isCalibrating c = false ->
    Calibrator.currentCalibrationIndex c = 25%nat
    /\ (length (Calibrator.gazeData c) <= 750)%nat
    /\ (Calibrator.model c = None <-> Calibrator.gazeData c = [])
}.

(** The [addGazeSample] calls that submit a list of frames, each a
    landmark array with the observed gaze point. *)
Definition submit (frames : list (Landmarks * Point))
    : list Calibrator.call :=
  map (fun frame => Calibrator.AddGazeSample (fst frame) (snd frame)) frames.

(** The sample [addGazeSample] builds from a frame and a target. *)
Definition sample_of (target : Point) (frame : Landmarks * Point)
    : CalibrationSample.t :=
  CalibrationSample.mk (Calibrator._extractFeatures (fst frame)) (snd frame)
                       target.

(** The samples a full run retains from a list of frames: frame [k] goes
    with target [k / 30], and frames past the last target are dropped. *)
Definition retained (targets : list Point) (frames : list (Landmarks * Point))
    : list CalibrationSample.t :=
  map (fun pair => sample_of (fst pair) (snd pair))
      (combine (thirty_each targets) frames).

(** The calibrator after [startCalibration()] and the frames [frames],
    [length frames] of them. *)
Record submit_state (W H : R) (frames : list (Landmarks * Point))
    (c : Calibrator.t) : Prop := {
  ss_grid :
    Calibrator.calibrationTargets c
    = Calibrator._generateCalibrationTargets W H;
  ss_spp : Calibrator.samplesPerPoint c = 30%nat;
  ss_retained :
    Calibrator.gazeData c = retained (Calibrator.calibrationTargets c) frames;
  ss_running :
    (length frames < 750)%nat ->
    Calibrator.isCalibrating c = true
    /\ (Calibrator.currentCalibrationIndex c * 30
        + Calibrator.currentSamples c = length frames)%nat
    /\ (Calibrator.currentSamples c < 30)%nat;
  ss_done :
    (750 <= length frames)%nat ->
    Calibrator.isCalibrating c = false
    /\ Calibrator.model c
       = Some (Model.mk (mean (map offset_x (Calibrator.gazeData c)))
                        (mean (map offset_y (Calibrator.gazeData c))))
}.

(** The calibrator after [startCalibration()] and [n] forced advances. *)
Record advance_state (n : nat) (c : Calibrator.t) : Prop := {
  as_targets : length (Calibrator.calibrationTargets c) = 25%nat;
  as_empty : Calibrator.gazeData c = [];
  as_no_model : Calibrator.model c = None;
  as_running :
    (n < 25)%nat ->
    Calibrator.isCalibrating c = true
    /\ Calibrator.currentCalibrationIndex c = n
    /\ Calibrator.currentSamples c = 0%nat;
  as_done : (25 <= n)%nat -> Calibrator.isCalibrating c = false
}.

(** A landmark in the detector's normalized frame. *)
Definition normalized (l : Landmark.t) : Prop :=
  0 <= Landmark.x l <= 1 /\ 0 <= Landmark.y l <= 1.

(** What holds of a tracker for a screen of [W] by [H] after any session:
    it and its calibrator keep the screen, the segmenter is quiet between
    frames, and the tracker never reports idle while its calibrator is
    calibrating. *)
Record tracker_inv (W H : R) (e : EyeTracker.t) : Prop := {
  ti_width : EyeTracker.screenWidth e = W;
  ti_height : EyeTracker.screenHeight e = H;
  ti_calibrator_width :
    Calibrator.screenWidth (EyeTracker.calibrator e) = W;
  ti_calibrator_height :
    Calibrator.screenHeight (EyeTracker.calibrator e) = H;
  ti_quiet : quiet (EyeTracker.featureExtractor e);
  ti_flag :
    Calibrator.isCalibrating (EyeTracker.calibrator e) = true ->
    EyeTracker.isCalibrating e = true
}.

(** A tracker whose calibration fields mirror its calibrator. *)
Record synced (e : EyeTracker.t) : Prop := {
  sy_flag :
    EyeTracker.isCalibrating e
    = Calibrator.isCalibrating (EyeTracker.calibrator e);
  sy_progress :
    EyeTracker.isCalibrating e = true ->
    EyeTracker.calibrationProgress e
    = Calibrator.getCalibrationProgress (EyeTracker.calibrator e)
}.

(** Both iris centres are present. *)
Definition has_irises (landmarks : Landmarks) : Prop :=
  landmark_at landmarks 468 <> None /\ landmark_at landmarks 473 <> None.

(** The raw screen point [processLandmarks] computes for a frame on a
    screen of [W] by [H]. *)
Definition observed_gaze (W H : R) (landmarks : Landmarks) : Point :=
  match landmark_at landmarks 468, landmark_at landmarks 473 with
  | Some leftIris, Some rightIris =>
      ((Landmark.x leftIris + Landmark.x rightIris) / 2 * W,
       (Landmark.y leftIris + Landmark.y rightIris) / 2 * H)
  | _, _ => (0, 0)
  end.

(** The frames of a tracker session as the calibrator receives them. *)
Definition observed (W H : R) (frames : list (Landmarks * R))
    : list (Landmarks * Point) :=
  map (fun frame => (fst frame, observed_gaze W H (fst frame))) frames.

(** The [processLandmarks] calls of a list of frames. *)
Definition frames_calls (frames : list (Landmarks * R))
    : list EyeTracker.call :=
  map (fun frame => EyeTracker.ProcessLandmarks (fst frame) (snd frame))
      frames.

(** * Properties *)

(** ** The tests the code branches on *)

Lemma num_gt_true (x y : R) : num_gt x y = true <-> x > y.
Proof.
  unfold num_gt. destruct (Rlt_dec y x) as [H | H].
  - split; [intros _; exact H | reflexivity].
  - split; [discriminate | intros H'; contradiction].
Qed.

Lemma num_gt_false (x y : R) : num_gt x y = false <-> x <= y.
Proof.
  unfold num_gt. destruct (Rlt_dec y x) as [H | H].
  - split; [discriminate | intros H'; lra].
  - split; [intros _; lra | reflexivity].
Qed.

Lemma num_ge_true (x y : R) : num_ge x y = true <-> x >= y.
Proof.
  unfold num_ge. destruct (Rle_dec y x) as [H | H].
  - split; [intros _; lra | reflexivity].
  - split; [discriminate | intros H'; lra].
Qed.

Lemma num_ge_false (x y : R) : num_ge x y = false <-> x < y.
Proof.
  unfold num_ge. destruct (Rle_dec y x) as [H | H].
  - split; [discriminate | intros H'; lra].
  - split; [intros _; lra | reflexivity].
Qed.

Lemma num_le_true (x y : R) : num_le x y = true <-> x <= y.
Proof.
  unfold num_le. destruct (Rle_dec x y) as [H | H].
  - split; [intros _; exact H | reflexivity].
  - split; [discriminate | intros H'; contradiction].
Qed.

Lemma truthy_true (x : R) : truthy x = true <-> x <> 0.
Proof.
  unfold truthy. destruct (Req_dec_T x 0) as [H | H].
  - split; [discriminate | intros H'; contradiction].
  - split; [intros _; exact H | reflexivity].
Qed.

Lemma truthy_false (x : R) : truthy x = false <-> x = 0.
Proof.
  unfold truthy. destruct (Req_dec_T x 0) as [H | H].
  - split; [intros _; exact H | reflexivity].
  - split; [discriminate | intros H'; contradiction].
Qed.

(** A distance is at most [d] as soon as the squared distance is at most
    [d * d]. *)
Lemma euclideanDistance_le (p1 p2 : Point) (d : R) :
  0 <= d ->
  (fst p2 - fst p1) ^ 2 + (snd p2 - snd p1) ^ 2 <= d * d ->
  euclideanDistance p1 p2 <= d.
Proof.
  intros Hd Hsq. unfold euclideanDistance.
  rewrite <- (sqrt_square d Hd).
  apply sqrt_le_1_alt. exact Hsq.
Qed.

(** A distance exceeds [d] as soon as the squared distance exceeds
    [d * d]. *)
Lemma euclideanDistance_gt (p1 p2 : Point) (d : R) :
  0 <= d ->
  d * d < (fst p2 - fst p1) ^ 2 + (snd p2 - snd p1) ^ 2 ->
  euclideanDistance p1 p2 > d.
Proof.
  intros Hd Hsq. unfold euclideanDistance.
  rewrite <- (sqrt_square d Hd) at 1.
  apply sqrt_lt_1_alt. split; [nra | exact Hsq].
Qed.

(** ** Feature extraction *)

Lemma extractFeatures_length (landmarks : Landmarks) :
  length (Calibrator._extractFeatures landmarks) = 10%nat.
Proof.
  unfold Calibrator._extractFeatures.
  destruct (landmark_at landmarks 33), (landmark_at landmarks 133),
    (landmark_at landmarks 362), (landmark_at landmarks 263),
    (landmark_at landmarks 468), (landmark_at landmarks 473);
    reflexivity.
Qed.

(** C10: when one of the landmarks 33, 133, 362, 263, 468, 473 is absent,
    [_extractFeatures] returns the zero vector of length 10; when all six
    are present it returns, in this order, the left and right
    iris-to-outer-corner offsets (x then y), the left and right eye widths
    (outer to inner corner) and the left and right iris centres.  The
    function is total: no input makes it raise. *)
Theorem extractFeatures_soft_failure (landmarks : Landmarks) :
  (Exists (fun i => landmark_at landmarks i = None) required_landmarks ->
   Calibrator._extractFeatures landmarks = zero_features)
  /\
  (forall leftOuter leftInner rightOuter rightInner leftIris rightIris,
     landmark_at landmarks 33 = Some leftOuter ->
     landmark_at landmarks 133 = Some leftInner ->
     landmark_at landmarks 362 = Some rightOuter ->
     landmark_at landmarks 263 = Some rightInner ->
     landmark_at landmarks 468 = Some leftIris ->
     landmark_at landmarks 473 = Some rightIris ->
     Calibrator._extractFeatures landmarks =
       [ Landmark.x leftIris - Landmark.x leftOuter;
         Landmark.y leftIris - Landmark.y leftOuter;
         Landmark.x rightIris - Landmark.x rightOuter;
         Landmark.y rightIris - Landmark.y rightOuter;
         euclideanDistance (Landmark.x leftOuter, Landmark.y leftOuter)
                           (Landmark.x leftInner, Landmark.y leftInner);
         euclideanDistance (Landmark.x rightOuter, Landmark.y rightOuter)
                           (Landmark.x rightInner, Landmark.y rightInner);
         Landmark.x leftIris; Landmark.y leftIris;
         Landmark.x rightIris; Landmark.y rightIris ]).
Proof.
  split.
  - intros Habsent. unfold Calibrator._extractFeatures.
    unfold required_landmarks in Habsent.
    repeat (apply Exists_cons in Habsent; destruct Habsent as [-> | Habsent];
            [repeat match goal with
                    | |- context [match landmark_at landmarks ?i with _ => _ end] =>
                        destruct (landmark_at landmarks i)
                    end; reflexivity | ]).
    inversion Habsent.
  - intros lo li ro ri lc rc H1 H2 H3 H4 H5 H6.
    unfold Calibrator._extractFeatures.
    rewrite H1, H2, H3, H4, H5, H6. reflexivity.
Qed.

Lemma extractFeatures_soft_failure_witness :
  Calibrator._extractFeatures [] = zero_features
  /\ nth 6 (Calibrator._extractFeatures sample_landmarks) 0 = INR 468 / 1000.
Proof.
  split.
  - apply (proj1 (extractFeatures_soft_failure [])).
    apply Exists_cons_hd. reflexivity.
  - rewrite (proj2 (extractFeatures_soft_failure sample_landmarks)
               (Landmark.mk (INR 33 / 1000) (INR 33 / 500) 0)
               (Landmark.mk (INR 133 / 1000) (INR 133 / 500) 0)
               (Landmark.mk (INR 362 / 1000) (INR 362 / 500) 0)
               (Landmark.mk (INR 263 / 1000) (INR 263 / 500) 0)
               (Landmark.mk (INR 468 / 1000) (INR 468 / 500) 0)
               (Landmark.mk (INR 473 / 1000) (INR 473 / 500) 0)
               eq_refl eq_refl eq_refl eq_refl eq_refl eq_refl).
    reflexivity.
Defined.

(** ** Calibrator: grid, empty fit, clamping *)

Lemma generateCalibrationTargets_length (W H : R) :
  length (Calibrator._generateCalibrationTargets W H)
  = (Calibrator.numRows * Calibrator.numCols)%nat.
Proof. reflexivity. Qed.

Lemma generateCalibrationTargets_nth (W H : R) (r c : nat) :
  (r < 5)%nat -> (c < 5)%nat ->
  nth_error (Calibrator._generateCalibrationTargets W H) (r * 5 + c)
  = Some ((INR c + 1) * W / 6, (INR r + 1) * H / 6).
Proof.
  intros Hr Hc.
  assert (Hcases : forall n, (n < 5)%nat ->
            n = 0%nat \/ n = 1%nat \/ n = 2%nat \/ n = 3%nat \/ n = 4%nat)
    by (intros n Hn; lia).
  destruct (Hcases r Hr) as [-> | [-> | [-> | [-> | ->]]]];
    destruct (Hcases c Hc) as [-> | [-> | [-> | [-> | ->]]]];
    cbn [Calibrator._generateCalibrationTargets Calibrator.numCols
         Calibrator.numRows flat_map map seq app nth_error Nat.mul Nat.add];
    f_equal; f_equal; simpl INR; field.
Qed.

(** C9, as the code has it: for positive screen dimensions the grid has
    [numRows * numCols = 25] targets, target [(r, c)] (row-major) is
    [((c+1)*W/6, (r+1)*H/6)], and every target is strictly inside
    [(0,W) x (0,H)]. *)
Theorem calibration_grid (W H : R) :
  0 < W -> 0 < H ->
  length (Calibrator.calibrationTargets (Calibrator.new W H)) = 25%nat
  /\ (forall r c, (r < 5)%nat -> (c < 5)%nat ->
        nth_error (Calibrator.calibrationTargets (Calibrator.new W H))
                  (r * 5 + c)
        = Some ((INR c + 1) * W / 6, (INR r + 1) * H / 6))
  /\ Forall (strictly_inside W H)
            (Calibrator.calibrationTargets (Calibrator.new W H)).
Proof.
  intros HW HH. split; [reflexivity | split].
  - intros r c Hr Hc. apply generateCalibrationTargets_nth; assumption.
  - cbn [Calibrator.new Calibrator.calibrationTargets
         Calibrator._generateCalibrationTargets Calibrator.numCols
         Calibrator.numRows flat_map map seq app].
    repeat constructor; simpl; lra.
Qed.

Lemma calibration_grid_witness :
  nth_error (Calibrator.calibrationTargets (Calibrator.new 1080 1920)) 7
  = Some ((INR 2 + 1) * 1080 / 6, (INR 1 + 1) * 1920 / 6).
Proof.
  assert (H1080 : 0 < 1080) by lra.
  assert (H1920 : 0 < 1920) by lra.
  apply (proj1 (proj2 (calibration_grid 1080 1920 H1080 H1920)) 1%nat 2%nat);
    lia.
Defined.

(** C9 as stated fails for a screen of width and height 0: all 25 targets
    are [(0, 0)], and none is strictly inside the empty rectangle. *)
Lemma calibration_grid_degenerate :
  ~ Forall (strictly_inside 0 0)
           (Calibrator.calibrationTargets (Calibrator.new 0 0)).
Proof.
  intros H. inversion H as [| p ps Hp _]; subst.
  destruct Hp as [[H0 H1] _]. lra.
Qed.

(** C6: finishing a calibration with no collected sample leaves the
    calibrator idle with no model, and every later [predictGaze] returns
    [null]; neither call raises. *)
Theorem finishCalibration_without_samples (c : Calibrator.t) :
  Calibrator.gazeData c = [] ->
  Calibrator.isCalibrating (Calibrator.finishCalibration c) = false
  /\ Calibrator.model (Calibrator.finishCalibration c) = None
  /\ forall landmarks,
       Calibrator.predictGaze (Calibrator.finishCalibration c) landmarks
       = None.
Proof.
  intros Hempty.
  unfold Calibrator.finishCalibration, Calibrator._trainModel,
    Calibrator.predictGaze.
  cbn. rewrite Hempty. cbn. repeat split.
Qed.

Lemma finishCalibration_without_samples_witness :
  Calibrator.model
    (Calibrator.finishCalibration
       (Calibrator.startCalibration (Calibrator.new 1080 1920))) = None
  /\ Calibrator.predictGaze
       (Calibrator.finishCalibration
          (Calibrator.startCalibration (Calibrator.new 1080 1920)))
       sample_landmarks = None.
Proof.
  destruct (finishCalibration_without_samples
              (Calibrator.startCalibration (Calibrator.new 1080 1920))
              eq_refl) as [_ [Hmodel Hpredict]].
  split; [exact Hmodel | apply Hpredict].
Defined.

Lemma clamp_inside (W v : R) : 0 <= W -> 0 <= Rmax 0 (Rmin W v) <= W.
Proof.
  intros HW. split.
  - apply Rmax_l.
  - apply Rmax_lub; [exact HW | apply Rmin_l].
Qed.

(** C7: with a model present, [predictGaze] returns a point, and on a
    screen of non-negative width and height that point lies in
    [[0, screenWidth] x [0, screenHeight]], whatever the landmarks. *)
Theorem predictGaze_clamped (c : Calibrator.t) (landmarks : Landmarks)
    (m : Model.t) :
  0 <= Calibrator.screenWidth c ->
  0 <= Calibrator.screenHeight c ->
  Calibrator.model c = Some m ->
  exists p,
    Calibrator.predictGaze c landmarks = Some p
    /\ inside_screen (Calibrator.screenWidth c) (Calibrator.screenHeight c) p.
Proof.
  intros HW HH Hm. unfold Calibrator.predictGaze. rewrite Hm.
  eexists. split; [reflexivity |].
  split; cbn [fst snd]; apply clamp_inside; assumption.
Qed.

Lemma predictGaze_clamped_witness :
  exists p,
    Calibrator.predictGaze
      (Calibrator.set_model (Calibrator.new 1080 1920)
                            (Some (Model.mk 5000 (-5000))))
      sample_landmarks = Some p
    /\ inside_screen 1080 1920 p.
Proof.
  apply (predictGaze_clamped
           (Calibrator.set_model (Calibrator.new 1080 1920)
                                 (Some (Model.mk 5000 (-5000))))
           sample_landmarks (Model.mk 5000 (-5000))).
  - simpl. lra.
  - simpl. lra.
  - reflexivity.
Defined.

(** ** Calibrator: the fit *)

Lemma fold_left_sum {A : Type} (f : A -> R) (xs : list A) (a : R) :
  fold_left (fun sum d => sum + f d) xs a
  = a + fold_right Rplus 0 (map f xs).
Proof.
  revert a. induction xs as [| x xs IH]; intros a; simpl.
  - lra.
  - rewrite IH. lra.
Qed.

Lemma trainModel_mean (c : Calibrator.t) :
  Calibrator.gazeData c <> [] ->
  Calibrator.model (Calibrator._trainModel c)
  = Some (Model.mk (mean (map offset_x (Calibrator.gazeData c)))
                   (mean (map offset_y (Calibrator.gazeData c)))).
Proof.
  intros Hne. unfold Calibrator._trainModel.
  destruct (Calibrator.gazeData c) as [| d ds] eqn:Hgd; [congruence |].
  cbn [Calibrator.set_model Calibrator.model].
  rewrite (fold_left_sum offset_x), (fold_left_sum offset_y).
  unfold mean. rewrite !length_map, !Rplus_0_l. reflexivity.
Qed.

Lemma biased_sum (ds : list CalibrationSample.t) :
  Forall biased ds ->
  fold_right Rplus 0 (map offset_x ds) = 5 * INR (length ds)
  /\ fold_right Rplus 0 (map offset_y ds) = 5 * INR (length ds).
Proof.
  induction 1 as [| d ds Hd _ [IHx IHy]].
  - simpl. split; lra.
  - cbn [map fold_right length]. rewrite IHx, IHy, S_INR.
    unfold offset_x, offset_y. rewrite Hd. cbn [fst snd]. split; lra.
Qed.

Lemma biased_mean (ds : list CalibrationSample.t) :
  ds <> [] -> Forall biased ds ->
  mean (map offset_x ds) = 5 /\ mean (map offset_y ds) = 5.
Proof.
  intros Hne Hb. destruct (biased_sum ds Hb) as [Hx Hy].
  assert (Hn : INR (length ds) <> 0).
  { apply not_0_INR. destruct ds; [congruence | discriminate]. }
  unfold mean. rewrite !length_map, Hx, Hy. split; field; exact Hn.
Qed.

Lemma trainModel_biased (c : Calibrator.t) :
  Calibrator.gazeData c <> [] ->
  Forall biased (Calibrator.gazeData c) ->
  Calibrator.model (Calibrator._trainModel c) = Some (Model.mk 5 5).
Proof.
  intros Hne Hb. rewrite (trainModel_mean c Hne).
  destruct (biased_mean _ Hne Hb) as [-> ->]. reflexivity.
Qed.

(** The fit writes the model and nothing else. *)
Lemma trainModel_frame (c : Calibrator.t) :
  Calibrator._trainModel c
  = Calibrator.set_model c (Calibrator.model (Calibrator._trainModel c)).
Proof.
  unfold Calibrator._trainModel.
  destruct (Calibrator.gazeData c); reflexivity.
Qed.

Lemma nth_error_thirty_each (targets : list Point) :
  forall i j,
    (j < 30)%nat ->
    nth_error (thirty_each targets) (i * 30 + j) = nth_error targets i.
Proof.
  unfold thirty_each.
  induction targets as [| a targets IH]; intros i j Hj.
  - cbn [flat_map]. rewrite !nth_error_nil. reflexivity.
  - cbn [flat_map]. destruct i as [| i].
    + cbn [Nat.mul Nat.add nth_error].
      rewrite nth_error_app1 by (rewrite repeat_length; exact Hj).
      apply nth_error_repeat. exact Hj.
    + rewrite nth_error_app2 by (rewrite repeat_length; lia).
      rewrite repeat_length.
      replace (S i * 30 + j - 30)%nat with (i * 30 + j)%nat by lia.
      cbn [nth_error]. apply IH. exact Hj.
Qed.

Lemma firstn_snoc {A : Type} (xs : list A) :
  forall n x,
    nth_error xs n = Some x -> firstn (S n) xs = firstn n xs ++ [x].
Proof.
  induction xs as [| y xs IH]; intros n x Hn.
  - rewrite nth_error_nil in Hn. discriminate.
  - destruct n as [| n].
    + cbn in Hn. injection Hn as ->. reflexivity.
    + cbn [nth_error] in Hn. cbn [firstn app]. f_equal.
      change (firstn (S n) xs = firstn n xs ++ [x]). apply IH. exact Hn.
Qed.

Lemma thirty_each_length (targets : list Point) :
  length (thirty_each targets) = (length targets * 30)%nat.
Proof.
  unfold thirty_each. induction targets as [| a targets IH].
  - reflexivity.
  - cbn [flat_map length]. rewrite length_app, repeat_length, IH. lia.
Qed.

Lemma scenario_A_start (W H : R) :
  scenario_A_state W H 0
    (Calibrator.startCalibration (Calibrator.new W H)).
Proof.
  constructor; try reflexivity.
  - constructor.
  - intros _. cbn. repeat split; lia.
  - intros Hk. lia.
Qed.

Lemma scenario_A_step (W H : R) (k : nat) (c : Calibrator.t)
    (landmarks : Landmarks) :
  scenario_A_state W H k c ->
  scenario_A_state W H (S k) (Calibrator.biased_sample c landmarks).
Proof.
  intros [HW HH Hgrid Htg Hst Hspp Hb Hcnt Hrun Hdone].
  destruct (Nat.lt_ge_cases k 750) as [Hk | Hk].
  - destruct (Hrun Hk) as [Hcal [Hidx Hcur]].
    assert (Hi : (Calibrator.currentCalibrationIndex c < 25)%nat) by lia.
    unfold Calibrator.biased_sample, Calibrator.getCurrentCalibrationPoint.
    destruct (nth_error (Calibrator.calibrationTargets c)
                (Calibrator.currentCalibrationIndex c)) as [target |] eqn:Hnth.
    2: { apply nth_error_None in Hnth. lia. }
    unfold Calibrator.addGazeSample. rewrite Hcal, Hnth.
    cbn. rewrite Hspp.
    assert (Hb' : Forall biased
              (Calibrator.gazeData c ++
               [CalibrationSample.mk (Calibrator._extractFeatures landmarks)
                  (fst target - 5, snd target - 5) target])).
    { apply Forall_app. split; [exact Hb |].
      constructor; [reflexivity | constructor]. }
    assert (Hlen : length
              (Calibrator.gazeData c ++
               [CalibrationSample.mk (Calibrator._extractFeatures landmarks)
                  (fst target - 5, snd target - 5) target])
              = Nat.min (S k) 750).
    { rewrite length_app, Hcnt. simpl. lia. }
    assert (Hst' : map CalibrationSample.target
              (Calibrator.gazeData c ++
               [CalibrationSample.mk (Calibrator._extractFeatures landmarks)
                  (fst target - 5, snd target - 5) target])
              = firstn (Nat.min (S k) 750)
                       (thirty_each (Calibrator.calibrationTargets c))).
    { rewrite map_app, Hst.
      replace (Nat.min k 750) with k by lia.
      replace (Nat.min (S k) 750) with (S k) by lia.
      symmetry. apply firstn_snoc.
      rewrite <- Hidx, nth_error_thirty_each by exact Hcur. exact Hnth. }
    destruct (Nat.leb_spec 30 (Calibrator.currentSamples c + 1))
      as [Hfull | Hmore].
    + unfold Calibrator.advance. cbn. rewrite Htg.
      destruct (Nat.leb_spec 25 (Calibrator.currentCalibrationIndex c + 1))
        as [Hlast | Hnext].
      * unfold Calibrator.finishCalibration.
        match goal with
        | |- scenario_A_state _ _ _ (Calibrator._trainModel ?c1) =>
            assert (Hm : Calibrator.model (Calibrator._trainModel c1)
                         = Some (Model.mk 5 5));
            [ apply trainModel_biased; simpl;
              [ destruct (Calibrator.gazeData c); discriminate | exact Hb' ]
            | rewrite (trainModel_frame c1), Hm ]
        end.
        constructor; simpl; try assumption; try (intros; lia).
        intros _. split; reflexivity.
      * constructor; simpl; try assumption; try (intros; lia).
        intros _. repeat split; solve [assumption | lia].
    + constructor; simpl; try assumption; try (intros; lia).
      intros _. repeat split; solve [assumption | lia].
  - destruct (Hdone Hk) as [Hcal Hmodel].
    assert (Hsame : Calibrator.biased_sample c landmarks = c).
    { unfold Calibrator.biased_sample.
      destruct (Calibrator.getCurrentCalibrationPoint c); [| reflexivity].
      unfold Calibrator.addGazeSample. rewrite Hcal. reflexivity. }
    rewrite Hsame.
    constructor; try assumption; try (intros; lia).
    + replace (Nat.min (S k) 750) with (Nat.min k 750) by lia. exact Hst.
    + intros _. split; assumption.
Qed.

Lemma scenario_A_frames (W H : R) (frames : list Landmarks) :
  forall k c,
    scenario_A_state W H k c ->
    scenario_A_state W H (k + length frames)
      (fold_left Calibrator.biased_sample frames c).
Proof.
  induction frames as [| l frames IH]; intros k c Hst; simpl.
  - rewrite Nat.add_0_r. exact Hst.
  - replace (k + S (length frames))%nat with (S k + length frames)%nat by lia.
    apply IH. apply scenario_A_step. exact Hst.
Qed.

(** C4: the fit stores the mean per-axis offset between target and
    observed gaze over all retained samples.  In scenario A (a calibration
    run of 25 x 30 = 750 frames, each reporting the current target moved by
    [(-5, -5)]) the run ends with 750 retained samples, 30 for each of
    the 25 targets in grid order, and the model [(5, 5)], and [predictGaze] on landmarks whose features 6 and 7 are
    [(bx, by)] returns [(bx + 5, by + 5)] clamped to the screen. *)
Theorem fit_is_mean_offset :
  (forall c,
     Calibrator.gazeData c <> [] ->
     Calibrator.model (Calibrator._trainModel c)
     = Some (Model.mk (mean (map offset_x (Calibrator.gazeData c)))
                      (mean (map offset_y (Calibrator.gazeData c)))))
  /\
  (forall W H frames,
     length frames = 750%nat ->
     length (Calibrator.gazeData (Calibrator.scenario_A W H frames))
     = 750%nat
     /\ map CalibrationSample.target
           (Calibrator.gazeData (Calibrator.scenario_A W H frames))
        = thirty_each (Calibrator.calibrationTargets (Calibrator.new W H))
     /\ Forall biased (Calibrator.gazeData (Calibrator.scenario_A W H frames))
     /\ Calibrator.isCalibrating (Calibrator.scenario_A W H frames) = false
     /\ Calibrator.model (Calibrator.scenario_A W H frames)
        = Some (Model.mk 5 5)
     /\ forall landmarks bx by_,
          nth 6 (Calibrator._extractFeatures landmarks) 0 = bx ->
          nth 7 (Calibrator._extractFeatures landmarks) 0 = by_ ->
          Calibrator.predictGaze (Calibrator.scenario_A W H frames) landmarks
          = Some (Rmax 0 (Rmin W (bx + 5)), Rmax 0 (Rmin H (by_ + 5)))).
Proof.
  split; [exact trainModel_mean |].
  intros W H frames Hlen.
  pose proof (scenario_A_frames W H frames 0 _ (scenario_A_start W H)) as Hst.
  fold (Calibrator.scenario_A W H frames) in Hst.
  rewrite Hlen in Hst. cbn [Nat.add] in Hst.
  destruct Hst as [HW HH Hgrid Htg Hst Hspp Hb Hcnt _ Hdone].
  destruct (Hdone (le_n _)) as [Hcal Hmodel].
  split; [exact Hcnt |].
  split.
  { rewrite Hst, Hgrid. apply firstn_all2.
    rewrite thirty_each_length. cbn. lia. }
  repeat split; try assumption.
  intros landmarks bx by_ Hbx Hby.
  unfold Calibrator.predictGaze. rewrite Hmodel, HW, HH, Hbx, Hby.
  reflexivity.
Qed.

Lemma fit_is_mean_offset_witness :
  Calibrator.model
    (Calibrator.scenario_A 1080 1920 (repeat sample_landmarks 750))
  = Some (Model.mk 5 5).
Proof.
  apply (proj2 fit_is_mean_offset 1080 1920 (repeat sample_landmarks 750)).
  apply repeat_length.
Defined.

(** ** Calibrator: progress of one calibration run *)

Lemma run_wf_start (W H : R) :
  run_wf (Calibrator.startCalibration (Calibrator.new W H)).
Proof.
  constructor; try reflexivity. intros _. simpl. lia.
Qed.

Lemma finishCalibration_idle (c : Calibrator.t) :
  Calibrator.isCalibrating (Calibrator.finishCalibration c) = false.
Proof.
  unfold Calibrator.finishCalibration. rewrite trainModel_frame. reflexivity.
Qed.

Lemma finishCalibration_wf (c : Calibrator.t) :
  length (Calibrator.calibrationTargets c) = 25%nat ->
  Calibrator.samplesPerPoint c = 30%nat ->
  run_wf (Calibrator.finishCalibration c).
Proof.
  intros Htg Hspp.
  constructor;
    try (unfold Calibrator.finishCalibration; rewrite trainModel_frame;
         simpl; assumption).
  rewrite finishCalibration_idle. discriminate.
Qed.

(** A call that finds the calibrator idle changes nothing. *)
Lemma do_call_idle (c : Calibrator.t) (k : Calibrator.call) :
  Calibrator.isCalibrating c = false -> Calibrator.do_call c k = c.
Proof.
  intros Hidle. destruct k as [l g |]; simpl.
  - unfold Calibrator.addGazeSample. rewrite Hidle. reflexivity.
  - unfold Calibrator.moveToNextCalibrationPoint. rewrite Hidle. reflexivity.
Qed.

(** A call during calibration either counts strictly more samples or is
    the call that runs [finishCalibration]. *)
Lemma do_call_running (c : Calibrator.t) (k : Calibrator.call) :
  run_wf c ->
  Calibrator.isCalibrating c = true ->
  run_wf (Calibrator.do_call c k)
  /\ ((Calibrator.isCalibrating (Calibrator.do_call c k) = true
       /\ (collected c < collected (Calibrator.do_call c k))%nat)
      \/ (Calibrator.isCalibrating (Calibrator.do_call c k) = false
          /\ exists c1, Calibrator.do_call c k
                        = Calibrator.finishCalibration c1)).
Proof.
  intros [Htg Hspp Hrun] Hcal. destruct (Hrun Hcal) as [Hidx Hcur].
  destruct k as [l g |]; simpl.
  - unfold Calibrator.addGazeSample. rewrite Hcal.
    destruct (nth_error (Calibrator.calibrationTargets c)
                (Calibrator.currentCalibrationIndex c)) as [target |] eqn:Hnth.
    2: { apply nth_error_None in Hnth. lia. }
    simpl. rewrite Hspp.
    destruct (Nat.leb_spec 30 (Calibrator.currentSamples c + 1))
      as [Hfull | Hmore].
    + unfold Calibrator.advance. simpl. rewrite Htg.
      destruct (Nat.leb_spec 25 (Calibrator.currentCalibrationIndex c + 1))
        as [Hlast | Hnext].
      * split; [apply finishCalibration_wf; assumption |].
        right. split; [apply finishCalibration_idle | eexists; reflexivity].
      * split.
        -- constructor; simpl; try assumption. intros _. lia.
        -- left. unfold collected. simpl. split; [assumption | lia].
    + split.
      * constructor; simpl; try assumption. intros _. lia.
      * left. unfold collected. simpl. split; [assumption | lia].
  - unfold Calibrator.moveToNextCalibrationPoint. rewrite Hcal, Htg.
    destruct (Nat.ltb_spec (Calibrator.currentCalibrationIndex c) 25)
      as [_ | Hge]; [| lia].
    simpl. unfold Calibrator.advance. simpl. rewrite Htg.
    destruct (Nat.leb_spec 25 (Calibrator.currentCalibrationIndex c + 1))
      as [Hlast | Hnext].
    + split; [apply finishCalibration_wf; assumption |].
      right. split; [apply finishCalibration_idle | eexists; reflexivity].
    + split.
      * constructor; simpl; try assumption. intros _. lia.
      * left. unfold collected. simpl. split; [assumption | lia].
Qed.

Lemma do_call_wf (c : Calibrator.t) (k : Calibrator.call) :
  run_wf c -> run_wf (Calibrator.do_call c k).
Proof.
  intros Hwf. destruct (Calibrator.isCalibrating c) eqn:Hcal.
  - apply do_call_running; assumption.
  - rewrite do_call_idle; assumption.
Qed.

Lemma run_wf_run (ks : list Calibrator.call) :
  forall c, run_wf c -> run_wf (Calibrator.run c ks).
Proof.
  induction ks as [| k ks IH]; intros c Hwf; simpl.
  - exact Hwf.
  - apply IH, do_call_wf, Hwf.
Qed.

Lemma INR_25 : INR 25 = 25.
Proof. rewrite INR_IZR_INZ. reflexivity. Qed.

Lemma INR_30 : INR 30 = 30.
Proof. rewrite INR_IZR_INZ. reflexivity. Qed.

Lemma INR_750 : INR 750 = 750.
Proof. rewrite INR_IZR_INZ. reflexivity. Qed.

Lemma progress_running (c : Calibrator.t) :
  run_wf c ->
  Calibrator.isCalibrating c = true ->
  Calibrator.getCalibrationProgress c = INR (collected c) / 750
  /\ (collected c < 750)%nat.
Proof.
  intros [Htg Hspp Hrun] Hcal. destruct (Hrun Hcal) as [Hidx Hcur].
  unfold Calibrator.getCalibrationProgress, collected.
  rewrite Hcal, Htg, Hspp. simpl negb. cbv iota.
  rewrite plus_INR, mult_INR, INR_25, INR_30.
  split; [f_equal; lra | lia].
Qed.

Lemma progress_idle (c : Calibrator.t) :
  Calibrator.isCalibrating c = false ->
  Calibrator.getCalibrationProgress c = 1.
Proof.
  intros Hidle. unfold Calibrator.getCalibrationProgress.
  rewrite Hidle. reflexivity.
Qed.

Lemma progress_running_bounds (c : Calibrator.t) :
  run_wf c ->
  Calibrator.isCalibrating c = true ->
  0 <= Calibrator.getCalibrationProgress c < 1.
Proof.
  intros Hwf Hcal. destruct (progress_running c Hwf Hcal) as [-> Hlt].
  pose proof (pos_INR (collected c)) as H0.
  apply lt_INR in Hlt. rewrite INR_750 in Hlt. lra.
Qed.

Lemma progress_monotone (c : Calibrator.t) (k : Calibrator.call) :
  run_wf c ->
  Calibrator.getCalibrationProgress c
  <= Calibrator.getCalibrationProgress (Calibrator.do_call c k).
Proof.
  intros Hwf. destruct (Calibrator.isCalibrating c) eqn:Hcal.
  - destruct (do_call_running c k Hwf Hcal)
      as [Hwf' [[Hcal' Hlt] | [Hidle _]]].
    + destruct (progress_running c Hwf Hcal) as [-> _].
      destruct (progress_running _ Hwf' Hcal') as [-> _].
      apply lt_INR in Hlt. lra.
    + rewrite (progress_idle _ Hidle).
      pose proof (progress_running_bounds c Hwf Hcal). lra.
  - rewrite do_call_idle by assumption. lra.
Qed.

(** C8: at any point [c] of a calibration run, [getCalibrationProgress()]
    is [(index * 30 + samples) / (25 * 30)] and below 1 while calibrating,
    and 1 when not; it lies in [[0, 1]]; no further call ([addGazeSample]
    or the forced advance) decreases it; it is 1 exactly when the run is
    no longer calibrating; and the call that stops the calibrating is one
    that ran [finishCalibration]. *)
Theorem calibration_progress (W H : R) (ks : list Calibrator.call) :
  (Calibrator.isCalibrating (calibration_run W H ks) = true ->
   Calibrator.getCalibrationProgress (calibration_run W H ks)
   = (INR (Calibrator.currentCalibrationIndex (calibration_run W H ks)) * 30
      + INR (Calibrator.currentSamples (calibration_run W H ks)))
     / (25 * 30)
   /\ Calibrator.getCalibrationProgress (calibration_run W H ks) < 1)
  /\ (Calibrator.isCalibrating (calibration_run W H ks) = false ->
      Calibrator.getCalibrationProgress (calibration_run W H ks) = 1)
  /\ 0 <= Calibrator.getCalibrationProgress (calibration_run W H ks) <= 1
  /\ (forall landmarks gazePoint,
        Calibrator.getCalibrationProgress (calibration_run W H ks)
        <= Calibrator.getCalibrationProgress
             (Calibrator.addGazeSample (calibration_run W H ks)
                                       landmarks gazePoint))
  /\ (forall k,
        Calibrator.getCalibrationProgress (calibration_run W H ks)
        <= Calibrator.getCalibrationProgress
             (Calibrator.do_call (calibration_run W H ks) k))
  /\ (Calibrator.getCalibrationProgress (calibration_run W H ks) = 1
      <-> Calibrator.isCalibrating (calibration_run W H ks) = false)
  /\ (forall k,
        Calibrator.isCalibrating (calibration_run W H ks) = true ->
        Calibrator.isCalibrating
          (Calibrator.do_call (calibration_run W H ks) k) = false ->
        exists c1,
          Calibrator.do_call (calibration_run W H ks) k
          = Calibrator.finishCalibration c1).
Proof.
  assert (Hwf : run_wf (calibration_run W H ks))
    by apply run_wf_run, run_wf_start.
  set (c := calibration_run W H ks) in *.
  assert (Hrunning : Calibrator.isCalibrating c = true ->
            Calibrator.getCalibrationProgress c
            = (INR (Calibrator.currentCalibrationIndex c) * 30
               + INR (Calibrator.currentSamples c)) / (25 * 30)
            /\ Calibrator.getCalibrationProgress c < 1).
  { intros Hcal. split; [| apply progress_running_bounds; assumption].
    destruct (progress_running c Hwf Hcal) as [-> _].
    unfold collected. rewrite (wf_spp c Hwf), plus_INR, mult_INR, INR_30.
    f_equal. lra. }
  split; [exact Hrunning |].
  split; [apply progress_idle |].
  split.
  { destruct (Calibrator.isCalibrating c) eqn:Hcal.
    - pose proof (progress_running_bounds c Hwf Hcal). lra.
    - rewrite (progress_idle c Hcal). lra. }
  split.
  { intros l g.
    exact (progress_monotone c (Calibrator.AddGazeSample l g) Hwf). }
  split; [intros k; apply progress_monotone; exact Hwf |].
  split.
  { split.
    - intros H1. destruct (Calibrator.isCalibrating c) eqn:Hcal;
        [| reflexivity].
      destruct (Hrunning eq_refl) as [_ Hlt]. lra.
    - apply progress_idle. }
  intros k Hcal Hidle.
  destruct (do_call_running c k Hwf Hcal) as [_ [[Hcal' _] | [_ Hfin]]].
  - congruence.
  - exact Hfin.
Qed.

Lemma calibration_progress_witness :
  Calibrator.getCalibrationProgress (calibration_run 1080 1920 [])
  = (INR 0 * 30 + INR 0) / (25 * 30).
Proof.
  apply (proj1 (calibration_progress 1080 1920 [])). reflexivity.
Defined.

(** ** Segmenter: what [endFixation] and the flush do *)

Lemma endFixation_frame (s : EyeFeatureExtractor.t) (p : Point) (ts : R) :
  EyeFeatureExtractor.fixationRadius (EyeFeatureExtractor.endFixation s p ts)
  = EyeFeatureExtractor.fixationRadius s
  /\ EyeFeatureExtractor.fixationDuration (EyeFeatureExtractor.endFixation s p ts)
     = EyeFeatureExtractor.fixationDuration s
  /\ EyeFeatureExtractor.saccadeThreshold (EyeFeatureExtractor.endFixation s p ts)
     = EyeFeatureExtractor.saccadeThreshold s
  /\ EyeFeatureExtractor.gazeHistory (EyeFeatureExtractor.endFixation s p ts)
     = EyeFeatureExtractor.gazeHistory s
  /\ EyeFeatureExtractor.saccades (EyeFeatureExtractor.endFixation s p ts)
     = EyeFeatureExtractor.saccades s
  /\ EyeFeatureExtractor.lastGazePoint (EyeFeatureExtractor.endFixation s p ts)
     = EyeFeatureExtractor.lastGazePoint s
  /\ EyeFeatureExtractor.lastGazeTimestamp (EyeFeatureExtractor.endFixation s p ts)
     = EyeFeatureExtractor.lastGazeTimestamp s
  /\ EyeFeatureExtractor.lastFixationStart (EyeFeatureExtractor.endFixation s p ts)
     = None
  /\ EyeFeatureExtractor.lastFixationPoint (EyeFeatureExtractor.endFixation s p ts)
     = None.
Proof.
  unfold EyeFeatureExtractor.endFixation.
  destruct (truthy_num (EyeFeatureExtractor.lastFixationStart s));
    [destruct (num_ge _ _) |]; simpl; repeat split.
Qed.

(** [endFixation] appends at most one event, and only one whose duration
    has reached the threshold. *)
Lemma endFixation_fixations (s : EyeFeatureExtractor.t) (p : Point) (ts : R) :
  EyeFeatureExtractor.fixations (EyeFeatureExtractor.endFixation s p ts)
  = EyeFeatureExtractor.fixations s
  \/ exists start,
       EyeFeatureExtractor.lastFixationStart s = Some start
       /\ start <> 0
       /\ ts - start >= EyeFeatureExtractor.fixationDuration s
       /\ EyeFeatureExtractor.fixations (EyeFeatureExtractor.endFixation s p ts)
          = EyeFeatureExtractor.fixations s
            ++ [FixationEvent.mk p (ts - start) start ts].
Proof.
  unfold EyeFeatureExtractor.endFixation.
  destruct (EyeFeatureExtractor.lastFixationStart s) as [start |] eqn:Hstart;
    simpl; [| left; reflexivity].
  destruct (truthy start) eqn:Htruthy; [| left; reflexivity].
  destruct (num_ge (ts - start) (EyeFeatureExtractor.fixationDuration s))
    eqn:Hge; [| left; reflexivity].
  right. exists start. repeat split.
  - apply truthy_true. exact Htruthy.
  - apply num_ge_true. exact Hge.
Qed.

(** A candidate shorter than the threshold is dropped. *)
Lemma endFixation_short (s : EyeFeatureExtractor.t) (p : Point) (ts : R) :
  (forall start,
     EyeFeatureExtractor.lastFixationStart s = Some start ->
     start <> 0 ->
     ts - start < EyeFeatureExtractor.fixationDuration s) ->
  EyeFeatureExtractor.fixations (EyeFeatureExtractor.endFixation s p ts)
  = EyeFeatureExtractor.fixations s.
Proof.
  intros Hshort.
  destruct (endFixation_fixations s p ts) as [H | [start [Hs [Hnz [Hge _]]]]].
  - exact H.
  - specialize (Hshort start Hs Hnz). lra.
Qed.

Lemma flush_frame (s : EyeFeatureExtractor.t) :
  EyeFeatureExtractor.fixationRadius (EyeFeatureExtractor.flush s)
  = EyeFeatureExtractor.fixationRadius s
  /\ EyeFeatureExtractor.fixationDuration (EyeFeatureExtractor.flush s)
     = EyeFeatureExtractor.fixationDuration s
  /\ EyeFeatureExtractor.saccadeThreshold (EyeFeatureExtractor.flush s)
     = EyeFeatureExtractor.saccadeThreshold s
  /\ EyeFeatureExtractor.gazeHistory (EyeFeatureExtractor.flush s)
     = EyeFeatureExtractor.gazeHistory s
  /\ EyeFeatureExtractor.saccades (EyeFeatureExtractor.flush s)
     = EyeFeatureExtractor.saccades s
  /\ EyeFeatureExtractor.lastGazePoint (EyeFeatureExtractor.flush s)
     = EyeFeatureExtractor.lastGazePoint s
  /\ EyeFeatureExtractor.lastGazeTimestamp (EyeFeatureExtractor.flush s)
     = EyeFeatureExtractor.lastGazeTimestamp s.
Proof.
  unfold EyeFeatureExtractor.flush.
  destruct (EyeFeatureExtractor.lastGazePoint s) as [p |] eqn:Hp;
    [| repeat split; assumption].
  destruct (truthy_num (EyeFeatureExtractor.lastFixationStart s)
            && truthy_num (EyeFeatureExtractor.lastGazeTimestamp s));
    [| repeat split; assumption].
  pose proof (endFixation_frame s p
                (to_number (EyeFeatureExtractor.lastGazeTimestamp s))) as H.
  rewrite Hp in H. tauto.
Qed.

(** The flush drops a candidate that is shorter than the threshold when
    measured up to the last timestamp. *)
Lemma flush_short (s : EyeFeatureExtractor.t) :
  (forall start ts,
     EyeFeatureExtractor.lastFixationStart s = Some start ->
     start <> 0 ->
     EyeFeatureExtractor.lastGazeTimestamp s = Some ts ->
     ts - start < EyeFeatureExtractor.fixationDuration s) ->
  EyeFeatureExtractor.fixations (EyeFeatureExtractor.flush s)
  = EyeFeatureExtractor.fixations s.
Proof.
  intros Hshort. unfold EyeFeatureExtractor.flush.
  destruct (EyeFeatureExtractor.lastGazePoint s) as [p |]; [| reflexivity].
  destruct (EyeFeatureExtractor.lastGazeTimestamp s) as [ts |] eqn:Hts;
    simpl; [| rewrite andb_false_r; reflexivity].
  destruct (truthy_num (EyeFeatureExtractor.lastFixationStart s) && truthy ts);
    [| reflexivity].
  apply endFixation_short. intros start Hs Hnz.
  apply (Hshort start ts Hs Hnz eq_refl).
Qed.

(** ** Segmenter: scenario B *)

Lemma distance_first_second : euclideanDistance (0, 0) (5, 5) <= 30.
Proof. apply euclideanDistance_le; simpl; lra. Qed.

Lemma distance_second_third : euclideanDistance (5, 5) (8, 8) <= 30.
Proof. apply euclideanDistance_le; simpl; lra. Qed.

(** The segmenter after the three samples: both event lists are empty and
    the open candidate started at the second or at the third sample. *)
Lemma scenario_B_samples (t0 : R) :
  exists start point,
    (start = t0 + 50 \/ start = t0 + 120)
    /\ EyeFeatureExtractor.run EyeFeatureExtractor.new
         [EyeFeatureExtractor.ProcessGaze (0, 0) t0;
          EyeFeatureExtractor.ProcessGaze (5, 5) (t0 + 50);
          EyeFeatureExtractor.ProcessGaze (8, 8) (t0 + 120)]
       = Some (EyeFeatureExtractor.mk 50 100 30
                 [GazeSample.mk (0, 0) t0;
                  GazeSample.mk (5, 5) (t0 + 50);
                  GazeSample.mk (8, 8) (t0 + 120)]
                 [] []
                 (Some (8, 8)) (Some (t0 + 120))
                 (Some start) (Some point)).
Proof.
  cbn [EyeFeatureExtractor.run EyeFeatureExtractor.do_call].
  assert (H1 : EyeFeatureExtractor.processGaze EyeFeatureExtractor.new (0, 0) t0
               = Some (EyeFeatureExtractor.mk 50 100 30
                         [GazeSample.mk (0, 0) t0] [] []
                         (Some (0, 0)) (Some t0) None None))
    by reflexivity.
  rewrite H1. clear H1.
  assert (H2 : EyeFeatureExtractor.processGaze
                 (EyeFeatureExtractor.mk 50 100 30
                    [GazeSample.mk (0, 0) t0] [] []
                    (Some (0, 0)) (Some t0) None None)
                 (5, 5) (t0 + 50)
               = Some (EyeFeatureExtractor.mk 50 100 30
                         [GazeSample.mk (0, 0) t0;
                          GazeSample.mk (5, 5) (t0 + 50)] [] []
                         (Some (5, 5)) (Some (t0 + 50))
                         (Some (t0 + 50)) (Some (5, 5)))).
  { unfold EyeFeatureExtractor.processGaze,
      EyeFeatureExtractor.processGaze_step.
    cbn [EyeFeatureExtractor.push_gazeHistory
         EyeFeatureExtractor.lastGazePoint
         EyeFeatureExtractor.saccadeThreshold].
    rewrite (proj2 (num_gt_false _ _) distance_first_second).
    reflexivity. }
  rewrite H2. clear H2.
  unfold EyeFeatureExtractor.processGaze,
    EyeFeatureExtractor.processGaze_step.
  cbn [EyeFeatureExtractor.push_gazeHistory
       EyeFeatureExtractor.lastGazePoint
       EyeFeatureExtractor.saccadeThreshold].
  rewrite (proj2 (num_gt_false _ _) distance_second_third).
  simpl.
  destruct (truthy (t0 + 50)) eqn:Htruthy; simpl.
  - assert (Hshort : num_ge (t0 + 120 - (t0 + 50)) 100 = false)
      by (apply num_ge_false; lra).
    rewrite Hshort.
    exists (t0 + 50), (5, 5). split; [left; reflexivity | reflexivity].
  - exists (t0 + 120), (8, 8). split; [right; reflexivity | reflexivity].
Qed.

(** The flush after the three samples finds a candidate shorter than the
    threshold: both event lists stay empty. *)
Lemma scenario_B_flushed (t0 : R) :
  exists s3,
    EyeFeatureExtractor.run EyeFeatureExtractor.new
      [EyeFeatureExtractor.ProcessGaze (0, 0) t0;
       EyeFeatureExtractor.ProcessGaze (5, 5) (t0 + 50);
       EyeFeatureExtractor.ProcessGaze (8, 8) (t0 + 120)] = Some s3
    /\ EyeFeatureExtractor.saccades (EyeFeatureExtractor.flush s3) = []
    /\ EyeFeatureExtractor.fixations (EyeFeatureExtractor.flush s3) = [].
Proof.
  destruct (scenario_B_samples t0) as [start [point [Hstart Hrun]]].
  eexists. split; [exact Hrun |]. split.
  - match goal with
    | |- context [EyeFeatureExtractor.flush ?s3] =>
        destruct (flush_frame s3) as [_ [_ [_ [_ [-> _]]]]]
    end.
    reflexivity.
  - rewrite flush_short; [reflexivity |].
    cbn [EyeFeatureExtractor.lastFixationStart
         EyeFeatureExtractor.lastGazeTimestamp
         EyeFeatureExtractor.fixationDuration].
    intros start' ts' Hs _ Hts. injection Hs as <-. injection Hts as <-.
    destruct Hstart; subst; lra.
Qed.

(** C1, as the code has it: in scenario B no saccade is emitted, and after
    the flush of [getMetrics()] no fixation exists either.  The candidate
    opens at the second sample, so what the flush measures is at most
    [t0 + 120 - (t0 + 50) = 70 < 100]. *)
Theorem scenario_B_no_event (t0 : R) :
  exists m s,
    EyeFeatureExtractor.scenario_B t0 = Some (m, s)
    /\ EyeFeatureExtractor.saccades s = []
    /\ EyeFeatureExtractor.fixations s = []
    /\ Metrics.fixationCount m = 0%nat.
Proof.
  destruct (scenario_B_flushed t0) as [s3 [Hrun [Hsac Hfix]]].
  unfold EyeFeatureExtractor.scenario_B. rewrite Hrun.
  unfold EyeFeatureExtractor.getMetrics.
  eexists. eexists. split; [reflexivity |].
  split; [exact Hsac |]. split; [exact Hfix |].
  unfold EyeFeatureExtractor.aggregate. cbn [Metrics.fixationCount].
  rewrite Hfix. reflexivity.
Qed.

(** C1 as stated fails at [t0 = 1000]: the run returns with an empty
    fixation list, so no single fixation spans 1000..1120. *)
Lemma scenario_B_one_fixation_fails :
  exists m s,
    EyeFeatureExtractor.scenario_B 1000 = Some (m, s)
    /\ EyeFeatureExtractor.fixations s = []
    /\ ~ (exists f,
            EyeFeatureExtractor.fixations s = [f]
            /\ FixationEvent.start f = 1000
            /\ FixationEvent.end_ f = 1000 + 120
            /\ FixationEvent.duration f = 120).
Proof.
  destruct (scenario_B_flushed 1000) as [s3 [Hrun [_ Hfix]]].
  unfold EyeFeatureExtractor.scenario_B. rewrite Hrun.
  unfold EyeFeatureExtractor.getMetrics.
  eexists. eexists. split; [reflexivity |]. split; [exact Hfix |].
  intros [f [Hone _]]. rewrite Hfix in Hone. discriminate.
Qed.

(** ** Segmenter: the event lists of any session *)

Lemma seg_inv_new : seg_inv EyeFeatureExtractor.new.
Proof.
  constructor; simpl; try reflexivity; try constructor. discriminate.
Qed.

Lemma seg_inv_reset (s : EyeFeatureExtractor.t) :
  seg_inv s -> seg_inv (EyeFeatureExtractor.reset s).
Proof.
  intros [Hd Ht _ _ _].
  constructor; simpl; try assumption; try constructor. discriminate.
Qed.

Lemma seg_inv_push_gazeHistory (s : EyeFeatureExtractor.t)
    (g : GazeSample.t) :
  seg_inv s -> seg_inv (EyeFeatureExtractor.push_gazeHistory s g).
Proof. intros [Hd Ht Hf Hs Hc]. constructor; simpl; assumption. Qed.

Lemma seg_inv_set_lastGaze (s : EyeFeatureExtractor.t)
    (p : option Point) (ts : option R) :
  seg_inv s -> seg_inv (EyeFeatureExtractor.set_lastGaze s p ts).
Proof. intros [Hd Ht Hf Hs Hc]. constructor; simpl; assumption. Qed.

Lemma seg_inv_push_saccades (s : EyeFeatureExtractor.t)
    (e : SaccadeEvent.t) :
  SaccadeEvent.distance e > 30 ->
  seg_inv s -> seg_inv (EyeFeatureExtractor.push_saccades s e).
Proof.
  intros He [Hd Ht Hf Hs Hc]. constructor; simpl; try assumption.
  apply Forall_app. split; [exact Hs | constructor; [exact He | constructor]].
Qed.

(** Writing both candidate fields, with a point whenever there is a
    start. *)
Lemma seg_inv_set_candidate (s : EyeFeatureExtractor.t)
    (start : option R) (p : option Point) :
  (start <> None -> p <> None) ->
  seg_inv s ->
  seg_inv (EyeFeatureExtractor.set_lastFixationPoint
             (EyeFeatureExtractor.set_lastFixationStart s start) p).
Proof.
  intros Hp [Hd Ht Hf Hs Hc]. constructor; simpl; try assumption.
  intros Htruthy. apply Hp. destruct start; [discriminate | discriminate].
Qed.

Lemma seg_inv_set_point (s : EyeFeatureExtractor.t) (p : Point) :
  seg_inv s -> seg_inv (EyeFeatureExtractor.set_lastFixationPoint s (Some p)).
Proof.
  intros [Hd Ht Hf Hs Hc]. constructor; simpl; try assumption.
  intros _. discriminate.
Qed.

Lemma seg_inv_endFixation (s : EyeFeatureExtractor.t) (p : Point) (ts : R) :
  seg_inv s -> seg_inv (EyeFeatureExtractor.endFixation s p ts).
Proof.
  intros [Hd Ht Hf Hs Hc].
  destruct (endFixation_frame s p ts)
    as [_ [Hd' [Ht' [_ [Hs' [_ [_ [Hstart' _]]]]]]]].
  constructor.
  - rewrite Hd'. exact Hd.
  - rewrite Ht'. exact Ht.
  - destruct (endFixation_fixations s p ts)
      as [-> | [start [_ [_ [Hge ->]]]]]; [exact Hf |].
    apply Forall_app. split; [exact Hf |].
    constructor; [simpl; lra | constructor].
  - rewrite Hs'. exact Hs.
  - rewrite Hstart'. discriminate.
Qed.

Lemma seg_inv_flush (s : EyeFeatureExtractor.t) :
  seg_inv s -> seg_inv (EyeFeatureExtractor.flush s).
Proof.
  intros Hinv. unfold EyeFeatureExtractor.flush.
  destruct (EyeFeatureExtractor.lastGazePoint s); [| exact Hinv].
  destruct (truthy_num (EyeFeatureExtractor.lastFixationStart s)
            && truthy_num (EyeFeatureExtractor.lastGazeTimestamp s));
    [apply seg_inv_endFixation |]; exact Hinv.
Qed.

(** [processGaze] returns (it does not raise) and keeps the invariant. *)
Lemma seg_inv_processGaze (s : EyeFeatureExtractor.t) (p : Point) (ts : R) :
  seg_inv s ->
  exists s', EyeFeatureExtractor.processGaze s p ts = Some s' /\ seg_inv s'.
Proof.
  intros Hinv.
  pose proof (seg_inv_push_gazeHistory s (GazeSample.mk p ts) Hinv) as Hinv0.
  unfold EyeFeatureExtractor.processGaze.
  set (s0 := EyeFeatureExtractor.push_gazeHistory s (GazeSample.mk p ts)) in *.
  destruct (EyeFeatureExtractor.lastGazePoint s0) as [lp |].
  2: { eexists. split; [reflexivity |].
       apply seg_inv_set_lastGaze. exact Hinv0. }
  unfold EyeFeatureExtractor.processGaze_step.
  destruct (num_gt (euclideanDistance lp p)
              (EyeFeatureExtractor.saccadeThreshold s0)) eqn:Hsac.
  - eexists. split; [reflexivity |].
    apply seg_inv_set_lastGaze, seg_inv_set_candidate; [congruence |].
    apply num_gt_true in Hsac.
    rewrite (inv_saccadeThreshold s0 Hinv0) in Hsac.
    match goal with
    | |- seg_inv (if _ then EyeFeatureExtractor.endFixation ?s1 _ _ else _) =>
        assert (Hinv1 : seg_inv s1)
          by (apply seg_inv_push_saccades; [exact Hsac | exact Hinv0]);
        destruct (truthy_num (EyeFeatureExtractor.lastFixationStart s1));
        [apply seg_inv_endFixation |]; exact Hinv1
    end.
  - destruct (truthy_num (EyeFeatureExtractor.lastFixationStart s0))
      eqn:Hopen; cbn [negb].
    + destruct (num_ge (ts - to_number (EyeFeatureExtractor.lastFixationStart s0))
                  (EyeFeatureExtractor.fixationDuration s0)).
      * destruct (EyeFeatureExtractor.lastFixationPoint s0) as [fp |] eqn:Hfp.
        2: { exfalso. exact (inv_candidate s0 Hinv0 Hopen Hfp). }
        destruct (num_le (euclideanDistance fp p)
                    (EyeFeatureExtractor.fixationRadius s0)).
        -- eexists. split; [reflexivity |].
           apply seg_inv_set_lastGaze, seg_inv_set_point. exact Hinv0.
        -- eexists. split; [reflexivity |].
           apply seg_inv_set_lastGaze, seg_inv_set_candidate;
             [discriminate |].
           apply seg_inv_endFixation. exact Hinv0.
      * eexists. split; [reflexivity |].
        apply seg_inv_set_lastGaze. exact Hinv0.
    + eexists. split; [reflexivity |].
      apply seg_inv_set_lastGaze, seg_inv_set_candidate;
        [discriminate | exact Hinv0].
Qed.

Lemma seg_inv_do_call (s : EyeFeatureExtractor.t)
    (c : EyeFeatureExtractor.call) :
  seg_inv s ->
  exists s', EyeFeatureExtractor.do_call s c = Some s' /\ seg_inv s'.
Proof.
  intros Hinv. destruct c as [p ts | p ts | |]; simpl.
  - apply seg_inv_processGaze. exact Hinv.
  - eexists. split; [reflexivity | apply seg_inv_endFixation; exact Hinv].
  - eexists. split; [reflexivity | apply seg_inv_flush; exact Hinv].
  - eexists. split; [reflexivity | apply seg_inv_reset; exact Hinv].
Qed.

Lemma seg_inv_run (cs : list EyeFeatureExtractor.call) :
  forall s,
    seg_inv s ->
    exists s', EyeFeatureExtractor.run s cs = Some s' /\ seg_inv s'.
Proof.
  induction cs as [| c cs IH]; intros s Hinv; simpl.
  - exists s. split; [reflexivity | exact Hinv].
  - destruct (seg_inv_do_call s c Hinv) as [s1 [-> Hinv1]].
    apply IH. exact Hinv1.
Qed.

(** C5: whatever calls a fresh segmenter receives ([processGaze],
    [endFixation], [getMetrics], [reset], in any order), every call
    returns, and every event in the lists satisfies its threshold: each
    fixation has [duration >= 100 = fixationDuration] and each saccade has
    [distance > 30 = saccadeThreshold]. *)
Theorem events_meet_thresholds (cs : list EyeFeatureExtractor.call) :
  exists s,
    EyeFeatureExtractor.run EyeFeatureExtractor.new cs = Some s
    /\ EyeFeatureExtractor.fixationDuration s = 100
    /\ EyeFeatureExtractor.saccadeThreshold s = 30
    /\ Forall (fun f => FixationEvent.duration f
                        >= EyeFeatureExtractor.fixationDuration s)
              (EyeFeatureExtractor.fixations s)
    /\ Forall (fun e => SaccadeEvent.distance e
                        > EyeFeatureExtractor.saccadeThreshold s)
              (EyeFeatureExtractor.saccades s).
Proof.
  destruct (seg_inv_run cs _ seg_inv_new) as [s [Hrun [Hd Ht Hf Hs _]]].
  exists s. rewrite Hd, Ht. repeat split; assumption.
Qed.

(** The thresholds are met by events that do occur: this session ends
    with one fixation and one saccade. *)
Example resting_then_jump_events :
  exists s,
    EyeFeatureExtractor.run EyeFeatureExtractor.new resting_then_jump = Some s
    /\ EyeFeatureExtractor.fixations s
       = [FixationEvent.mk (0, 0) (1200 - 1010) 1010 1200]
    /\ EyeFeatureExtractor.saccades s
       = [SaccadeEvent.mk (0, 0) (100, 0)
            (euclideanDistance (0, 0) (100, 0)) (1210 - 1200)].
Proof.
  assert (Hrest : num_gt (euclideanDistance (0, 0) (0, 0)) 30 = false)
    by (apply num_gt_false, euclideanDistance_le; simpl; lra).
  assert (Hnear : forall q, q = (0, 0) ->
            num_le (euclideanDistance (0, 0) q) 50 = true)
    by (intros q ->; apply num_le_true, euclideanDistance_le; simpl; lra).
  assert (Hjump : num_gt (euclideanDistance (0, 0) (100, 0)) 30 = true)
    by (apply num_gt_true, euclideanDistance_gt; simpl; lra).
  assert (Hopen : truthy 1010 = true) by (apply truthy_true; lra).
  assert (Hlong : num_ge (1200 - 1010) 100 = true)
    by (apply num_ge_true; lra).
  unfold resting_then_jump, EyeFeatureExtractor.run,
    EyeFeatureExtractor.do_call.
  assert (H1 : EyeFeatureExtractor.processGaze EyeFeatureExtractor.new
                 (0, 0) 1000
               = Some (EyeFeatureExtractor.mk 50 100 30
                         [GazeSample.mk (0, 0) 1000] [] []
                         (Some (0, 0)) (Some 1000) None None))
    by reflexivity.
  rewrite H1. clear H1.
  assert (H2 : EyeFeatureExtractor.processGaze
                 (EyeFeatureExtractor.mk 50 100 30
                    [GazeSample.mk (0, 0) 1000] [] []
                    (Some (0, 0)) (Some 1000) None None)
                 (0, 0) 1010
               = Some (EyeFeatureExtractor.mk 50 100 30
                         [GazeSample.mk (0, 0) 1000;
                          GazeSample.mk (0, 0) 1010] [] []
                         (Some (0, 0)) (Some 1010)
                         (Some 1010) (Some (0, 0)))).
  { unfold EyeFeatureExtractor.processGaze,
      EyeFeatureExtractor.processGaze_step.
    cbn [EyeFeatureExtractor.push_gazeHistory
         EyeFeatureExtractor.lastGazePoint
         EyeFeatureExtractor.saccadeThreshold].
    rewrite Hrest. reflexivity. }
  rewrite H2. clear H2.
  assert (H3 : EyeFeatureExtractor.processGaze
                 (EyeFeatureExtractor.mk 50 100 30
                    [GazeSample.mk (0, 0) 1000;
                     GazeSample.mk (0, 0) 1010] [] []
                    (Some (0, 0)) (Some 1010)
                    (Some 1010) (Some (0, 0)))
                 (0, 0) 1200
               = Some (EyeFeatureExtractor.mk 50 100 30
                         [GazeSample.mk (0, 0) 1000;
                          GazeSample.mk (0, 0) 1010;
                          GazeSample.mk (0, 0) 1200] [] []
                         (Some (0, 0)) (Some 1200)
                         (Some 1010) (Some ((0 + 0) / 2, (0 + 0) / 2)))).
  { unfold EyeFeatureExtractor.processGaze,
      EyeFeatureExtractor.processGaze_step.
    cbn [EyeFeatureExtractor.push_gazeHistory
         EyeFeatureExtractor.lastGazePoint
         EyeFeatureExtractor.saccadeThreshold].
    rewrite Hrest. simpl.
    rewrite Hopen, Hlong, (Hnear (0, 0) eq_refl). reflexivity. }
  rewrite H3. clear H3.
  unfold EyeFeatureExtractor.processGaze,
    EyeFeatureExtractor.processGaze_step.
  cbn [EyeFeatureExtractor.push_gazeHistory
       EyeFeatureExtractor.lastGazePoint
       EyeFeatureExtractor.saccadeThreshold].
  rewrite Hjump. simpl. rewrite Hopen.
  unfold EyeFeatureExtractor.endFixation. simpl. rewrite Hopen, Hlong.
  eexists. split; [reflexivity |]. split; reflexivity.
Qed.

(** ** Tracker: the segmenter as [processLandmarks] drives it *)

Lemma quiet_new : quiet EyeFeatureExtractor.new.
Proof. constructor; reflexivity. Qed.

Lemma quiet_reset (s : EyeFeatureExtractor.t) :
  quiet s -> quiet (EyeFeatureExtractor.reset s).
Proof. intros [Hd _ _]. constructor; simpl; try reflexivity. exact Hd. Qed.

(** From a quiet segmenter [processGaze] returns, records the sample, adds
    no fixation, and leaves a candidate open only if it starts at this
    very timestamp. *)
Lemma processGaze_quiet (s : EyeFeatureExtractor.t) (p : Point) (ts : R) :
  quiet s ->
  exists s',
    EyeFeatureExtractor.processGaze s p ts = Some s'
    /\ EyeFeatureExtractor.fixationDuration s' = 100
    /\ EyeFeatureExtractor.fixations s' = []
    /\ EyeFeatureExtractor.gazeHistory s'
       = EyeFeatureExtractor.gazeHistory s ++ [GazeSample.mk p ts]
    /\ EyeFeatureExtractor.lastGazePoint s' = Some p
    /\ EyeFeatureExtractor.lastGazeTimestamp s' = Some ts
    /\ (truthy_num (EyeFeatureExtractor.lastFixationStart s') = true ->
        EyeFeatureExtractor.lastFixationStart s' = Some ts).
Proof.
  intros [Hd Hf Hc].
  unfold EyeFeatureExtractor.processGaze,
    EyeFeatureExtractor.processGaze_step.
  cbn [EyeFeatureExtractor.push_gazeHistory
       EyeFeatureExtractor.lastGazePoint
       EyeFeatureExtractor.saccadeThreshold
       EyeFeatureExtractor.lastFixationStart
       EyeFeatureExtractor.push_saccades].
  destruct (EyeFeatureExtractor.lastGazePoint s) as [lp |].
  - destruct (num_gt (euclideanDistance lp p)
                (EyeFeatureExtractor.saccadeThreshold s)).
    + rewrite Hc. eexists. split; [reflexivity |]. simpl.
      repeat split; try assumption. discriminate.
    + rewrite Hc. cbn [negb]. eexists. split; [reflexivity |]. simpl.
      repeat split; assumption.
  - eexists. split; [reflexivity |]. simpl.
    repeat split; try assumption. rewrite Hc. discriminate.
Qed.

(** The flush of [getMetrics()] right after such a [processGaze]: the
    candidate, if any, has duration [ts - ts = 0] and is dropped. *)
Lemma flush_after_processGaze (s : EyeFeatureExtractor.t) (p : Point)
    (ts : R) :
  EyeFeatureExtractor.fixationDuration s = 100 ->
  EyeFeatureExtractor.fixations s = [] ->
  EyeFeatureExtractor.lastGazePoint s = Some p ->
  EyeFeatureExtractor.lastGazeTimestamp s = Some ts ->
  (truthy_num (EyeFeatureExtractor.lastFixationStart s) = true ->
   EyeFeatureExtractor.lastFixationStart s = Some ts) ->
  quiet (EyeFeatureExtractor.flush s).
Proof.
  intros Hd Hf Hp Hts Hstart.
  destruct (flush_frame s) as [_ [Hd' _]].
  constructor.
  - rewrite Hd'. exact Hd.
  - rewrite flush_short; [exact Hf |].
    intros start ts' Hs Hnz Hts'. rewrite Hd.
    rewrite Hts in Hts'. injection Hts' as <-.
    assert (Htruthy : truthy_num (EyeFeatureExtractor.lastFixationStart s)
                      = true)
      by (rewrite Hs; apply truthy_true; exact Hnz).
    rewrite (Hstart Htruthy) in Hs. injection Hs as <-. lra.
  - unfold EyeFeatureExtractor.flush. rewrite Hp, Hts.
    destruct (truthy_num (EyeFeatureExtractor.lastFixationStart s))
      eqn:Htruthy; cbn [andb].
    + rewrite (Hstart eq_refl) in Htruthy. cbn [truthy_num] in *.
      rewrite Htruthy.
      destruct (endFixation_frame s p (to_number (Some ts)))
        as [_ [_ [_ [_ [_ [_ [_ [-> _]]]]]]]].
      reflexivity.
    + exact Htruthy.
Qed.

Lemma flush_quiet (s : EyeFeatureExtractor.t) :
  quiet s -> EyeFeatureExtractor.flush s = s.
Proof.
  intros [_ _ Hc]. unfold EyeFeatureExtractor.flush. rewrite Hc.
  destruct (EyeFeatureExtractor.lastGazePoint s); reflexivity.
Qed.

Lemma aggregate_no_fixation (s : EyeFeatureExtractor.t) :
  EyeFeatureExtractor.fixations s = [] ->
  no_fixation_metrics (EyeFeatureExtractor.aggregate s).
Proof.
  intros Hf. unfold no_fixation_metrics, EyeFeatureExtractor.aggregate.
  simpl. rewrite Hf. simpl. repeat split.
Qed.

(** [getMetrics()] as [processLandmarks] calls it. *)
Lemma frame_result_quiet (e : EyeTracker.t) :
  quiet (EyeFeatureExtractor.flush (EyeTracker.featureExtractor e)) ->
  no_fixation_metrics (FrameResult.features (fst (EyeTracker.frame_result e)))
  /\ quiet (EyeTracker.featureExtractor (snd (EyeTracker.frame_result e)))
  /\ EyeFeatureExtractor.gazeHistory
       (EyeTracker.featureExtractor (snd (EyeTracker.frame_result e)))
     = EyeFeatureExtractor.gazeHistory (EyeTracker.featureExtractor e)
  /\ EyeTracker.calibrator (snd (EyeTracker.frame_result e))
     = EyeTracker.calibrator e
  /\ EyeTracker.gaze (snd (EyeTracker.frame_result e)) = EyeTracker.gaze e
  /\ FrameResult.gaze (fst (EyeTracker.frame_result e)) = EyeTracker.gaze e.
Proof.
  intros Hq. unfold EyeTracker.frame_result, EyeFeatureExtractor.getMetrics.
  simpl. repeat split; try (apply Hq).
  - apply aggregate_no_fixation, Hq.
  - apply aggregate_no_fixation, Hq.
  - apply aggregate_no_fixation, Hq.
  - apply (flush_frame (EyeTracker.featureExtractor e)).
Qed.

Lemma calibrate_frame_featureExtractor (e : EyeTracker.t)
    (landmarks : Landmarks) (rawGazePoint : Point) :
  EyeTracker.featureExtractor (EyeTracker.calibrate_frame e landmarks rawGazePoint)
  = EyeTracker.featureExtractor e.
Proof.
  unfold EyeTracker.calibrate_frame.
  destruct (EyeTracker.isCalibrating e); reflexivity.
Qed.

Lemma predicted_gaze_fed (e : EyeTracker.t) (landmarks : Landmarks)
    (rawGazePoint : Point) :
  EyeTracker.predicted_gaze e landmarks rawGazePoint
  = Some (fed_point (EyeTracker.calibrator e) landmarks rawGazePoint).
Proof.
  unfold EyeTracker.predicted_gaze, fed_point, Calibrator.predictGaze.
  destruct (Calibrator.model (EyeTracker.calibrator e)); reflexivity.
Qed.

(** A frame without both iris centres returns [null] and changes
    nothing. *)
Lemma processLandmarks_no_iris (e : EyeTracker.t) (landmarks : Landmarks)
    (ts : R) :
  landmark_at landmarks 468 = None \/ landmark_at landmarks 473 = None ->
  EyeTracker.processLandmarks e landmarks ts = Some (None, e).
Proof.
  intros [H | H]; unfold EyeTracker.processLandmarks; rewrite H;
    [| destruct (landmark_at landmarks 468)]; reflexivity.
Qed.

(** A frame with both iris centres, on a tracker whose segmenter is
    quiet: the call returns a result, the calibration block has run, and
    the segmenter has received one more gaze sample. *)
Lemma processLandmarks_frame (e : EyeTracker.t) (landmarks : Landmarks)
    (ts : R) (leftIris rightIris : Landmark.t) :
  quiet (EyeTracker.featureExtractor e) ->
  landmark_at landmarks 468 = Some leftIris ->
  landmark_at landmarks 473 = Some rightIris ->
  exists result e',
    EyeTracker.processLandmarks e landmarks ts = Some (Some result, e')
    /\ no_fixation_metrics (FrameResult.features result)
    /\ quiet (EyeTracker.featureExtractor e')
    /\ EyeTracker.calibrator e'
       = EyeTracker.calibrator
           (EyeTracker.calibrate_frame e landmarks
              (EyeTracker.raw_gaze_point e leftIris rightIris))
    /\ EyeTracker.gaze e'
       = fed_point (EyeTracker.calibrator e') landmarks
                   (EyeTracker.raw_gaze_point e leftIris rightIris)
    /\ FrameResult.gaze result = EyeTracker.gaze e'
    /\ EyeFeatureExtractor.gazeHistory (EyeTracker.featureExtractor e')
       = EyeFeatureExtractor.gazeHistory (EyeTracker.featureExtractor e)
         ++ [GazeSample.mk (EyeTracker.gaze e') ts].
Proof.
  intros Hq Hl Hr. unfold EyeTracker.processLandmarks. rewrite Hl, Hr.
  set (raw := EyeTracker.raw_gaze_point e leftIris rightIris).
  set (e1 := EyeTracker.calibrate_frame e landmarks raw).
  rewrite predicted_gaze_fed.
  set (g := fed_point (EyeTracker.calibrator e1) landmarks raw).
  assert (Hq1 : quiet (EyeTracker.featureExtractor (EyeTracker.set_gaze e1 g))).
  { simpl. unfold e1. rewrite calibrate_frame_featureExtractor. exact Hq. }
  destruct (processGaze_quiet _ g ts Hq1)
    as [s [Hpg [Hd [Hf [Hhist [Hp [Hts Hstart]]]]]]].
  simpl EyeTracker.gaze at 1. rewrite Hpg.
  set (e2 := EyeTracker.set_featureExtractor (EyeTracker.set_gaze e1 g) s).
  assert (Hflush : quiet (EyeFeatureExtractor.flush
                            (EyeTracker.featureExtractor e2)))
    by (apply (flush_after_processGaze s g ts); assumption).
  destruct (frame_result_quiet e2 Hflush)
    as [Hm [Hq' [Hhist' [Hcal' [Hgaze' Hres]]]]].
  destruct (EyeTracker.frame_result e2) as [result e3].
  cbn [fst snd] in *.
  exists result, e3. split; [reflexivity |].
  repeat split; try apply Hm; try apply Hq'.
  - rewrite Hcal'. reflexivity.
  - rewrite Hgaze', Hcal'. reflexivity.
  - rewrite Hres, Hgaze'. reflexivity.
  - rewrite Hhist', Hgaze'. simpl. rewrite Hhist. simpl.
    unfold e1. rewrite calibrate_frame_featureExtractor. reflexivity.
Qed.

(** Every call of the tracker returns, keeps the segmenter quiet, and a
    returned frame reports no fixation. *)
Lemma do_call_quiet (e : EyeTracker.t) (k : EyeTracker.call) :
  quiet (EyeTracker.featureExtractor e) ->
  exists r e',
    EyeTracker.do_call e k = Some (r, e')
    /\ quiet (EyeTracker.featureExtractor e')
    /\ (forall result, r = Some result ->
          no_fixation_metrics (FrameResult.features result)).
Proof.
  intros Hq. destruct k as [| | landmarks ts]; simpl.
  - eexists. eexists. split; [reflexivity |].
    split; [apply quiet_reset; exact Hq | discriminate].
  - eexists. eexists. split; [reflexivity |].
    split; [exact Hq | discriminate].
  - destruct (landmark_at landmarks 468) as [l |] eqn:Hl.
    2: { rewrite processLandmarks_no_iris by (left; exact Hl).
         eexists. eexists. split; [reflexivity |].
         split; [exact Hq | discriminate]. }
    destruct (landmark_at landmarks 473) as [r |] eqn:Hr.
    2: { rewrite processLandmarks_no_iris by (right; exact Hr).
         eexists. eexists. split; [reflexivity |].
         split; [exact Hq | discriminate]. }
    destruct (processLandmarks_frame e landmarks ts l r Hq Hl Hr)
      as [result [e' [Hrun [Hm [Hq' _]]]]].
    exists (Some result), e'. split; [exact Hrun |].
    split; [exact Hq' |].
    intros result' Heq. injection Heq as <-. exact Hm.
Qed.

Lemma run_quiet (ks : list EyeTracker.call) :
  forall e,
    quiet (EyeTracker.featureExtractor e) ->
    exists results e',
      EyeTracker.run e ks = Some (results, e')
      /\ quiet (EyeTracker.featureExtractor e')
      /\ Forall (fun result =>
                   no_fixation_metrics (FrameResult.features result))
                results.
Proof.
  induction ks as [| k ks IH]; intros e Hq; simpl.
  - exists [], e. split; [reflexivity |]. split; [exact Hq | constructor].
  - destruct (do_call_quiet e k Hq) as [r [e1 [-> [Hq1 Hr]]]].
    destruct (IH e1 Hq1) as [results [e2 [-> [Hq2 Hres]]]].
    eexists. eexists. split; [reflexivity |].
    split; [exact Hq2 |].
    destruct r as [result |]; [| exact Hres].
    constructor; [apply Hr; reflexivity | exact Hres].
Qed.

(** C2: in any session of a fresh tracker ([startCalibration],
    [moveToNextCalibrationPoint] and [processLandmarks] in any order, with
    any landmarks and timestamps) every call returns, no fixation is ever
    recorded, and every returned frame has [fixationCount = 0],
    [dwellTime = 0] and [refixationRatio = 0]. *)
Theorem tracker_never_reports_fixation (W H : R)
    (ks : list EyeTracker.call) :
  exists results e,
    EyeTracker.run (EyeTracker.new W H) ks = Some (results, e)
    /\ EyeFeatureExtractor.fixations (EyeTracker.featureExtractor e) = []
    /\ Forall (fun result =>
                 Metrics.fixationCount (FrameResult.features result) = 0%nat
                 /\ Metrics.dwellTime (FrameResult.features result) = 0
                 /\ Metrics.refixationRatio (FrameResult.features result) = 0)
              results.
Proof.
  destruct (run_quiet ks (EyeTracker.new W H) quiet_new)
    as [results [e [Hrun [Hq Hres]]]].
  exists results, e. split; [exact Hrun |].
  split; [apply Hq | exact Hres].
Qed.

(** C3, as the code has it: on a tracker reached by any session, a frame
    with both iris centres returns a result; the calibrator is the one
    left by the calibration block (which runs [addGazeSample] when the
    tracker is calibrating and is skipped otherwise); and, calibrating or
    not, the segmenter receives one gaze sample: the predicted point when
    the calibrator has a model, the raw screen point when it has none. *)
Theorem frame_feeds_segmenter (W H : R) (ks : list EyeTracker.call)
    (results : list FrameResult.t) (e : EyeTracker.t)
    (landmarks : Landmarks) (ts : R) (leftIris rightIris : Landmark.t) :
  EyeTracker.run (EyeTracker.new W H) ks = Some (results, e) ->
  landmark_at landmarks 468 = Some leftIris ->
  landmark_at landmarks 473 = Some rightIris ->
  exists result e',
    EyeTracker.processLandmarks e landmarks ts = Some (Some result, e')
    /\ EyeTracker.calibrator e'
       = (if EyeTracker.isCalibrating e
          then Calibrator.addGazeSample (EyeTracker.calibrator e) landmarks
                 (EyeTracker.raw_gaze_point e leftIris rightIris)
          else EyeTracker.calibrator e)
    /\ EyeTracker.gaze e'
       = fed_point (EyeTracker.calibrator e') landmarks
                   (EyeTracker.raw_gaze_point e leftIris rightIris)
    /\ EyeFeatureExtractor.gazeHistory (EyeTracker.featureExtractor e')
       = EyeFeatureExtractor.gazeHistory (EyeTracker.featureExtractor e)
         ++ [GazeSample.mk (EyeTracker.gaze e') ts].
Proof.
  intros Hrun Hl Hr.
  destruct (run_quiet ks (EyeTracker.new W H) quiet_new)
    as [results' [e0 [Hrun' [Hq _]]]].
  rewrite Hrun in Hrun'. injection Hrun' as _ <-.
  destruct (processLandmarks_frame e landmarks ts leftIris rightIris Hq Hl Hr)
    as [result [e' [Hframe [_ [_ [Hcal [Hgaze [_ Hhist]]]]]]]].
  exists result, e'. split; [exact Hframe |].
  split; [| split; assumption].
  rewrite Hcal. unfold EyeTracker.calibrate_frame.
  destruct (EyeTracker.isCalibrating e); reflexivity.
Qed.

Lemma frame_feeds_segmenter_witness :
  exists result e',
    EyeTracker.processLandmarks
      (EyeTracker.startCalibration (EyeTracker.new 1080 1920))
      sample_landmarks 1000 = Some (Some result, e')
    /\ EyeFeatureExtractor.gazeHistory (EyeTracker.featureExtractor e')
       = [GazeSample.mk (EyeTracker.gaze e') 1000].
Proof.
  destruct (frame_feeds_segmenter 1080 1920 [EyeTracker.StartCalibration] []
              (EyeTracker.startCalibration (EyeTracker.new 1080 1920))
              sample_landmarks 1000
              (Landmark.mk (INR 468 / 1000) (INR 468 / 500) 0)
              (Landmark.mk (INR 473 / 1000) (INR 473 / 500) 0)
              eq_refl eq_refl eq_refl)
    as [result [e' [Hframe [_ [_ Hhist]]]]].
  exists result, e'. split; [exact Hframe | exact Hhist].
Defined.

(** C3 as stated fails on the first frame after [startCalibration()]: the
    tracker is calibrating, and the frame changes the segmenter. *)
Lemma calibrating_frame_changes_segmenter :
  EyeTracker.isCalibrating
    (EyeTracker.startCalibration (EyeTracker.new 1080 1920)) = true
  /\ exists result e',
       EyeTracker.processLandmarks
         (EyeTracker.startCalibration (EyeTracker.new 1080 1920))
         sample_landmarks 1000 = Some (result, e')
       /\ EyeTracker.featureExtractor e'
          <> EyeTracker.featureExtractor
               (EyeTracker.startCalibration (EyeTracker.new 1080 1920)).
Proof.
  split; [reflexivity |].
  destruct (processLandmarks_frame
              (EyeTracker.startCalibration (EyeTracker.new 1080 1920))
              sample_landmarks 1000
              (Landmark.mk (INR 468 / 1000) (INR 468 / 500) 0)
              (Landmark.mk (INR 473 / 1000) (INR 473 / 500) 0)
              (quiet_reset _ quiet_new) eq_refl eq_refl)
    as [result [e' [Hframe [_ [_ [_ [_ [_ Hhist]]]]]]]].
  exists (Some result), e'. split; [exact Hframe |].
  intros Heq. rewrite Heq in Hhist. simpl in Hhist. discriminate.
Qed.

(** * Further properties *)

(** ** The helper functions *)

Lemma sum_of_squares_nonneg (a b : R) : 0 <= a ^ 2 + b ^ 2.
Proof. nra. Qed.

Lemma sum_of_squares_zero (a b : R) : a ^ 2 + b ^ 2 = 0 -> a = 0 /\ b = 0.
Proof. intros H. split; nra. Qed.

Lemma euclideanDistance_sym (p q : Point) :
  euclideanDistance p q = euclideanDistance q p.
Proof. unfold euclideanDistance. f_equal. ring. Qed.

Lemma euclideanDistance_self (p : Point) : euclideanDistance p p = 0.
Proof.
  unfold euclideanDistance.
  replace ((fst p - fst p) ^ 2 + (snd p - snd p) ^ 2) with 0 by ring.
  apply sqrt_0.
Qed.

Lemma euclideanDistance_triangle (p q r : Point) :
  euclideanDistance p r <= euclideanDistance p q + euclideanDistance q r.
Proof.
  unfold euclideanDistance.
  set (a := fst q - fst p). set (b := snd q - snd p).
  set (c := fst r - fst q). set (d := snd r - snd q).
  replace (fst r - fst p) with (a + c) by (unfold a, c; ring).
  replace (snd r - snd p) with (b + d) by (unfold b, d; ring).
  assert (Hab : 0 <= a ^ 2 + b ^ 2) by nra.
  assert (Hcd : 0 <= c ^ 2 + d ^ 2) by nra.
  pose proof (sqrt_pos (a ^ 2 + b ^ 2)) as HA.
  pose proof (sqrt_pos (c ^ 2 + d ^ 2)) as HC.
  pose proof (sqrt_sqrt _ Hab) as HA2.
  pose proof (sqrt_sqrt _ Hcd) as HC2.
  pose proof (sqrt_cauchy a b c d) as Hcs.
  unfold Rsqr in Hcs.
  replace (a * a + b * b) with (a ^ 2 + b ^ 2) in Hcs by ring.
  replace (c * c + d * d) with (c ^ 2 + d ^ 2) in Hcs by ring.
  set (A := sqrt (a ^ 2 + b ^ 2)) in *.
  set (C := sqrt (c ^ 2 + d ^ 2)) in *.
  rewrite <- (sqrt_square (A + C)) by lra.
  apply sqrt_le_1_alt. nra.
Qed.

(** X1: [euclideanDistance] is a metric on points: symmetric,
    non-negative, zero exactly between equal points, and it obeys the
    triangle inequality. *)
Theorem euclideanDistance_metric (p q r : Point) :
  euclideanDistance p q = euclideanDistance q p
  /\ 0 <= euclideanDistance p q
  /\ (euclideanDistance p q = 0 <-> p = q)
  /\ euclideanDistance p r <= euclideanDistance p q + euclideanDistance q r.
Proof.
  split; [apply euclideanDistance_sym |].
  split; [apply sqrt_pos |].
  split; [| apply euclideanDistance_triangle].
  split.
  - intros H0. unfold euclideanDistance in H0.
    apply sqrt_eq_0 in H0; [| apply sum_of_squares_nonneg].
    apply sum_of_squares_zero in H0. destruct H0 as [Hx Hy].
    destruct p as [px py], q as [qx qy]. cbn [fst snd] in *.
    f_equal; lra.
  - intros ->. apply euclideanDistance_self.
Qed.

Lemma reduce_sum_total {A : Type} (f : A -> R) (xs : list A) :
  reduce_sum f xs = total (map f xs).
Proof.
  unfold reduce_sum, total. rewrite fold_left_sum. lra.
Qed.

(** A sum of [n] numbers from [[lo, hi]] lies in [[n * lo, n * hi]]. *)
Lemma total_bounds (lo hi : R) (xs : list R) :
  Forall (fun x => lo <= x <= hi) xs ->
  lo * INR (length xs) <= total xs <= hi * INR (length xs).
Proof.
  unfold total. induction 1 as [| x xs Hx _ IH].
  - simpl. lra.
  - cbn [fold_right length]. rewrite S_INR. lra.
Qed.

(** The mean of a non-empty list of numbers from [[lo, hi]] lies in
    [[lo, hi]]. *)
Lemma mean_of_bounded (lo hi : R) (xs : list R) :
  xs <> [] ->
  Forall (fun x => lo <= x <= hi) xs ->
  lo <= total xs / INR (length xs) <= hi.
Proof.
  intros Hne Hb. pose proof (total_bounds lo hi xs Hb) as Ht.
  assert (Hn : 0 < INR (length xs)).
  { apply lt_0_INR. destruct xs; [congruence | simpl; lia]. }
  split.
  - apply (Rmult_le_reg_r (INR (length xs))); [exact Hn |].
    unfold Rdiv. rewrite Rmult_assoc, Rinv_l by lra. lra.
  - apply (Rmult_le_reg_r (INR (length xs))); [exact Hn |].
    unfold Rdiv. rewrite Rmult_assoc, Rinv_l by lra. lra.
Qed.

Lemma mean_of_bounded_map {A : Type} (f : A -> R) (lo hi : R)
    (xs : list A) :
  xs <> [] ->
  Forall (fun a => lo <= f a <= hi) xs ->
  lo <= total (map f xs) / INR (length xs) <= hi.
Proof.
  intros Hne Hb. rewrite <- (length_map f xs).
  apply mean_of_bounded.
  - destruct xs; [congruence | discriminate].
  - apply Forall_map. exact Hb.
Qed.

Lemma calculateCentroid_nonempty (points : list Point) :
  points <> [] ->
  calculateCentroid points
  = (reduce_sum fst points / INR (length points),
     reduce_sum snd points / INR (length points)).
Proof.
  intros Hne. destruct points; [congruence | reflexivity].
Qed.

(** X2: the centroid of a non-empty list of points lies in every
    axis-aligned box that contains all the points. *)
Theorem calculateCentroid_in_box (points : list Point)
    (x0 x1 y0 y1 : R) :
  points <> [] ->
  Forall (fun p => x0 <= fst p <= x1 /\ y0 <= snd p <= y1) points ->
  x0 <= fst (calculateCentroid points) <= x1
  /\ y0 <= snd (calculateCentroid points) <= y1.
Proof.
  intros Hne Hbox. rewrite (calculateCentroid_nonempty points Hne).
  cbn [fst snd]. rewrite !reduce_sum_total.
  split; apply mean_of_bounded_map; try exact Hne;
    eapply Forall_impl; try exact Hbox;
    cbv beta; intros a [Hx Hy]; assumption.
Qed.

Lemma calculateCentroid_in_box_witness :
  0 <= fst (calculateCentroid [(0, 0); (4, 2)]) <= 4
  /\ 0 <= snd (calculateCentroid [(0, 0); (4, 2)]) <= 2.
Proof.
  apply (calculateCentroid_in_box [(0, 0); (4, 2)] 0 4 0 2).
  - discriminate.
  - repeat constructor; simpl; lra.
Defined.

(** ** Segmenter: one call of [processGaze] *)

(** Reduce the field reads of an updated segmenter, leaving [endFixation]
    as it is. *)
Ltac seg_fields :=
  cbn [EyeFeatureExtractor.fixationRadius
       EyeFeatureExtractor.fixationDuration
       EyeFeatureExtractor.saccadeThreshold
       EyeFeatureExtractor.gazeHistory
       EyeFeatureExtractor.fixations
       EyeFeatureExtractor.saccades
       EyeFeatureExtractor.lastGazePoint
       EyeFeatureExtractor.lastGazeTimestamp
       EyeFeatureExtractor.lastFixationStart
       EyeFeatureExtractor.lastFixationPoint
       EyeFeatureExtractor.set_lastGaze
       EyeFeatureExtractor.set_lastFixationStart
       EyeFeatureExtractor.set_lastFixationPoint
       EyeFeatureExtractor.push_gazeHistory
       EyeFeatureExtractor.push_fixations
       EyeFeatureExtractor.push_saccades] in *.

(** What a returning [processGaze] has done: the thresholds are kept, the
    sample is recorded, a saccade is appended exactly when the previous
    point is farther than the threshold (and then no candidate is left
    open), and at most one fixation is appended, measured from the open
    candidate's start. *)
Lemma processGaze_effect (s s' : EyeFeatureExtractor.t) (p : Point)
    (ts : R) :
  EyeFeatureExtractor.processGaze s p ts = Some s' ->
  (EyeFeatureExtractor.fixationRadius s' = EyeFeatureExtractor.fixationRadius s
   /\ EyeFeatureExtractor.fixationDuration s'
      = EyeFeatureExtractor.fixationDuration s
   /\ EyeFeatureExtractor.saccadeThreshold s'
      = EyeFeatureExtractor.saccadeThreshold s)
  /\ EyeFeatureExtractor.gazeHistory s'
     = EyeFeatureExtractor.gazeHistory s ++ [GazeSample.mk p ts]
  /\ EyeFeatureExtractor.lastGazePoint s' = Some p
  /\ EyeFeatureExtractor.lastGazeTimestamp s' = Some ts
  /\ match EyeFeatureExtractor.lastGazePoint s with
     | Some lastPoint =>
         if num_gt (euclideanDistance lastPoint p)
                   (EyeFeatureExtractor.saccadeThreshold s)
         then EyeFeatureExtractor.saccades s'
              = EyeFeatureExtractor.saccades s
                ++ [SaccadeEvent.mk lastPoint p
                      (euclideanDistance lastPoint p)
                      (ts - to_number (EyeFeatureExtractor.lastGazeTimestamp s))]
              /\ EyeFeatureExtractor.lastFixationStart s' = None
              /\ EyeFeatureExtractor.lastFixationPoint s' = None
         else EyeFeatureExtractor.saccades s' = EyeFeatureExtractor.saccades s
     | None => EyeFeatureExtractor.saccades s' = EyeFeatureExtractor.saccades s
     end
  /\ (EyeFeatureExtractor.fixations s' = EyeFeatureExtractor.fixations s
      \/ exists point start finish,
           EyeFeatureExtractor.lastFixationStart s = Some start
           /\ start <> 0
           /\ finish - start >= EyeFeatureExtractor.fixationDuration s
           /\ EyeFeatureExtractor.fixations s'
              = EyeFeatureExtractor.fixations s
                ++ [FixationEvent.mk point (finish - start) start finish]).
Proof.
  intros Hrun.
  unfold EyeFeatureExtractor.processGaze,
    EyeFeatureExtractor.processGaze_step in Hrun.
  seg_fields.
  destruct (EyeFeatureExtractor.lastGazePoint s) as [lp |].
  2: { injection Hrun as <-. seg_fields. repeat split. left. reflexivity. }
  destruct (num_gt (euclideanDistance lp p)
              (EyeFeatureExtractor.saccadeThreshold s)).
  - destruct (truthy_num (EyeFeatureExtractor.lastFixationStart s)).
    + injection Hrun as <-. seg_fields.
      match goal with
      | |- context [EyeFeatureExtractor.endFixation ?s1 ?a ?b] =>
          destruct (endFixation_frame s1 a b)
            as [Hr [Hd [Ht [Hh [Hs _]]]]];
          pose proof (endFixation_fixations s1 a b) as Hf
      end.
      seg_fields.
      rewrite Hr, Hd, Ht, Hh, Hs. repeat split.
      destruct Hf as [-> | [start [Hstart [Hnz [Hge ->]]]]];
        [left; reflexivity |].
      right. exists lp, start,
        (to_number (EyeFeatureExtractor.lastGazeTimestamp s)).
      repeat split; assumption.
    + injection Hrun as <-. seg_fields. repeat split. left. reflexivity.
  - destruct (truthy_num (EyeFeatureExtractor.lastFixationStart s));
      cbn [negb] in Hrun.
    2: { injection Hrun as <-. seg_fields. repeat split. left. reflexivity. }
    destruct (num_ge (ts - to_number (EyeFeatureExtractor.lastFixationStart s))
                (EyeFeatureExtractor.fixationDuration s)).
    2: { injection Hrun as <-. seg_fields. repeat split. left. reflexivity. }
    destruct (EyeFeatureExtractor.lastFixationPoint s) as [fp |];
      [| discriminate].
    destruct (num_le (euclideanDistance fp p)
                (EyeFeatureExtractor.fixationRadius s)).
    + injection Hrun as <-. seg_fields. repeat split. left. reflexivity.
    + injection Hrun as <-. seg_fields.
      match goal with
      | |- context [EyeFeatureExtractor.endFixation ?s1 ?a ?b] =>
          destruct (endFixation_frame s1 a b)
            as [Hr [Hd [Ht [Hh [Hs _]]]]];
          pose proof (endFixation_fixations s1 a b) as Hf
      end.
      seg_fields.
      rewrite Hr, Hd, Ht, Hh, Hs. repeat split.
      destruct Hf as [-> | [start [Hstart [Hnz [Hge ->]]]]];
        [left; reflexivity |].
      right. exists fp, start, ts.
      repeat split; assumption.
Qed.

(** X3: a sample farther than [saccadeThreshold] from the previous point
    makes [processGaze] return with exactly one saccade appended (from the
    previous point to the new one, with that distance and the elapsed
    time) and with no fixation candidate left open; a sample that is not
    farther, or that has no previous point, leaves the saccade list as it
    was. *)
Theorem saccade_exactly_on_jump (s : EyeFeatureExtractor.t) (p : Point)
    (ts : R) :
  (forall lastPoint,
     EyeFeatureExtractor.lastGazePoint s = Some lastPoint ->
     euclideanDistance lastPoint p > EyeFeatureExtractor.saccadeThreshold s ->
     exists s',
       EyeFeatureExtractor.processGaze s p ts = Some s'
       /\ EyeFeatureExtractor.saccades s'
          = EyeFeatureExtractor.saccades s
            ++ [SaccadeEvent.mk lastPoint p (euclideanDistance lastPoint p)
                  (ts - to_number (EyeFeatureExtractor.lastGazeTimestamp s))]
       /\ EyeFeatureExtractor.lastFixationStart s' = None
       /\ EyeFeatureExtractor.lastFixationPoint s' = None)
  /\
  (forall s',
     EyeFeatureExtractor.processGaze s p ts = Some s' ->
     (forall lastPoint,
        EyeFeatureExtractor.lastGazePoint s = Some lastPoint ->
        euclideanDistance lastPoint p
        <= EyeFeatureExtractor.saccadeThreshold s) ->
     EyeFeatureExtractor.saccades s' = EyeFeatureExtractor.saccades s).
Proof.
  split.
  - intros lp Hlp Hfar. apply num_gt_true in Hfar.
    assert (Hret : exists s', EyeFeatureExtractor.processGaze s p ts = Some s').
    { unfold EyeFeatureExtractor.processGaze,
        EyeFeatureExtractor.processGaze_step.
      seg_fields. rewrite Hlp, Hfar. eexists. reflexivity. }
    destruct Hret as [s' Hrun]. exists s'. split; [exact Hrun |].
    destruct (processGaze_effect s s' p ts Hrun) as [_ [_ [_ [_ [Hsac _]]]]].
    rewrite Hlp, Hfar in Hsac. exact Hsac.
  - intros s' Hrun Hnear.
    destruct (processGaze_effect s s' p ts Hrun) as [_ [_ [_ [_ [Hsac _]]]]].
    destruct (EyeFeatureExtractor.lastGazePoint s) as [lp |];
      [| exact Hsac].
    specialize (Hnear lp eq_refl). apply num_gt_false in Hnear.
    rewrite Hnear in Hsac. exact Hsac.
Qed.

Lemma saccade_exactly_on_jump_witness :
  exists s',
    EyeFeatureExtractor.processGaze
      (EyeFeatureExtractor.mk 50 100 30 [GazeSample.mk (0, 0) 1000] [] []
         (Some (0, 0)) (Some 1000) None None)
      (40, 0) 1016 = Some s'
    /\ EyeFeatureExtractor.saccades s'
       = [SaccadeEvent.mk (0, 0) (40, 0) (euclideanDistance (0, 0) (40, 0))
            (1016 - 1000)].
Proof.
  destruct (proj1 (saccade_exactly_on_jump
                     (EyeFeatureExtractor.mk 50 100 30
                        [GazeSample.mk (0, 0) 1000] [] []
                        (Some (0, 0)) (Some 1000) None None)
                     (40, 0) 1016) (0, 0) eq_refl)
    as [s' [Hrun [Hsac _]]].
  - apply euclideanDistance_gt; simpl; lra.
  - exists s'. split; [exact Hrun | exact Hsac].
Defined.

(** ** Segmenter: [getMetrics] and [reset] *)

Lemma flush_flush (s : EyeFeatureExtractor.t) :
  EyeFeatureExtractor.flush (EyeFeatureExtractor.flush s)
  = EyeFeatureExtractor.flush s.
Proof.
  unfold EyeFeatureExtractor.flush at 2 3.
  destruct (EyeFeatureExtractor.lastGazePoint s) as [p |] eqn:Hp.
  - destruct (truthy_num (EyeFeatureExtractor.lastFixationStart s)
              && truthy_num (EyeFeatureExtractor.lastGazeTimestamp s))
      eqn:Htest.
    + unfold EyeFeatureExtractor.flush.
      destruct (endFixation_frame s p
                  (to_number (EyeFeatureExtractor.lastGazeTimestamp s)))
        as [_ [_ [_ [_ [_ [-> [_ [-> _]]]]]]]].
      rewrite Hp. reflexivity.
    + unfold EyeFeatureExtractor.flush. rewrite Hp, Htest. reflexivity.
  - unfold EyeFeatureExtractor.flush. rewrite Hp. reflexivity.
Qed.

(** X4: [getMetrics()] is idempotent: a second call right after the first
    returns the same metrics and leaves the segmenter as the first call
    left it. *)
Theorem getMetrics_idempotent (s : EyeFeatureExtractor.t) :
  EyeFeatureExtractor.getMetrics (snd (EyeFeatureExtractor.getMetrics s))
  = EyeFeatureExtractor.getMetrics s.
Proof.
  unfold EyeFeatureExtractor.getMetrics. cbn [snd].
  rewrite flush_flush. reflexivity.
Qed.

Lemma total_lower (c : R) (xs : list R) :
  Forall (fun x => x >= c) xs -> total xs >= c * INR (length xs).
Proof.
  unfold total. induction 1 as [| x xs Hx _ IH].
  - simpl. lra.
  - cbn [fold_right length]. rewrite S_INR. lra.
Qed.

Lemma total_strict_lower (c : R) (xs : list R) :
  xs <> [] ->
  Forall (fun x => x > c) xs -> total xs > c * INR (length xs).
Proof.
  unfold total. intros Hne Hall. induction Hall as [| x xs Hx Hxs IH].
  - congruence.
  - cbn [fold_right length]. rewrite S_INR.
    destruct xs as [| y ys].
    + simpl. lra.
    + assert (Hrest : fold_right Rplus 0 (y :: ys)
                      > c * INR (length (y :: ys)))
        by (apply IH; discriminate).
      lra.
Qed.

Lemma positive_count (n : nat) : (0 < n)%nat -> 1 <= INR n.
Proof.
  intros Hn. apply (le_INR 1 n). lia.
Qed.

(** X5: after any session of a fresh segmenter, [getMetrics()] reports a
    dwell time of at least [100 * fixationCount], a refixation ratio in
    [[0, 1)] (it is [0] without a fixation and [1 - 1/fixationCount]
    with one), and no distractor saccade. *)
Theorem fixation_metrics_bounds (cs : list EyeFeatureExtractor.call) :
  exists s,
    EyeFeatureExtractor.run EyeFeatureExtractor.new cs = Some s
    /\ Metrics.dwellTime (fst (EyeFeatureExtractor.getMetrics s))
       >= 100 * INR (Metrics.fixationCount
                       (fst (EyeFeatureExtractor.getMetrics s)))
    /\ 0 <= Metrics.refixationRatio (fst (EyeFeatureExtractor.getMetrics s))
       < 1
    /\ ((Metrics.fixationCount (fst (EyeFeatureExtractor.getMetrics s)) = 0%nat
         /\ Metrics.refixationRatio (fst (EyeFeatureExtractor.getMetrics s)) = 0)
        \/ Metrics.refixationRatio (fst (EyeFeatureExtractor.getMetrics s))
           = 1 - / INR (Metrics.fixationCount
                          (fst (EyeFeatureExtractor.getMetrics s))))
    /\ Metrics.distractorSaccades (fst (EyeFeatureExtractor.getMetrics s))
       = 0.
Proof.
  destruct (seg_inv_run cs _ seg_inv_new) as [s [Hrun Hinv]].
  exists s. split; [exact Hrun |].
  apply seg_inv_flush in Hinv. destruct Hinv as [_ _ Hf _ _].
  unfold EyeFeatureExtractor.getMetrics, EyeFeatureExtractor.aggregate.
  cbn [fst Metrics.dwellTime Metrics.fixationCount Metrics.refixationRatio
       Metrics.distractorSaccades].
  set (fs := EyeFeatureExtractor.fixations (EyeFeatureExtractor.flush s)) in *.
  split.
  { rewrite reduce_sum_total, <- (length_map FixationEvent.duration fs).
    apply total_lower, Forall_map. exact Hf. }
  destruct (Nat.ltb_spec 0 (length fs)) as [Hpos | Hzero].
  - pose proof (positive_count _ Hpos) as Hn.
    assert (Hinv : 0 < / INR (length fs) <= 1).
    { split; [apply Rinv_0_lt_compat; lra |].
      rewrite <- Rinv_1. apply Rinv_le_contravar; lra. }
    assert (Heq : (INR (length fs) - 1) / INR (length fs)
                  = 1 - / INR (length fs)) by (field; lra).
    rewrite Heq. split; [lra |]. split; [right; reflexivity | reflexivity].
  - split; [lra |]. split; [left; split; [lia | reflexivity] | reflexivity].
Qed.

(** X6: after any session of a fresh segmenter, the reported
    [saccadeLength] is [0] when no saccade was recorded and exceeds the
    threshold [30] when one was. *)
Theorem saccadeLength_bounds (cs : list EyeFeatureExtractor.call) :
  exists s,
    EyeFeatureExtractor.run EyeFeatureExtractor.new cs = Some s
    /\ ((EyeFeatureExtractor.saccades s = []
         /\ Metrics.saccadeLength (fst (EyeFeatureExtractor.getMetrics s)) = 0)
        \/ (EyeFeatureExtractor.saccades s <> []
            /\ Metrics.saccadeLength (fst (EyeFeatureExtractor.getMetrics s))
               > 30)).
Proof.
  destruct (seg_inv_run cs _ seg_inv_new) as [s [Hrun Hinv]].
  exists s. split; [exact Hrun |].
  destruct Hinv as [_ _ _ Hs _].
  unfold EyeFeatureExtractor.getMetrics, EyeFeatureExtractor.aggregate.
  cbn [fst Metrics.saccadeLength].
  destruct (flush_frame s) as [_ [_ [_ [_ [-> _]]]]].
  destruct (EyeFeatureExtractor.saccades s) as [| e es] eqn:Hsac.
  - left. split; reflexivity.
  - right. split; [discriminate |]. rewrite <- Hsac in *.
    assert (Hne : EyeFeatureExtractor.saccades s <> [])
      by (rewrite Hsac; discriminate).
    destruct (Nat.ltb_spec 0 (length (EyeFeatureExtractor.saccades s)))
      as [Hpos | Hzero].
    2: { rewrite Hsac in Hzero. simpl in Hzero. lia. }
    pose proof (positive_count _ Hpos) as Hn.
    rewrite reduce_sum_total.
    assert (Hsum : total (map SaccadeEvent.distance
                            (EyeFeatureExtractor.saccades s))
                   > 30 * INR (length (EyeFeatureExtractor.saccades s))).
    { rewrite <- (length_map SaccadeEvent.distance).
      apply total_strict_lower.
      - destruct (EyeFeatureExtractor.saccades s); [congruence | discriminate].
      - apply Forall_map. exact Hs. }
    apply Rlt_gt. apply (Rmult_lt_reg_r (INR (length (EyeFeatureExtractor.saccades s))));
      [lra |].
    unfold Rdiv. rewrite Rmult_assoc, Rinv_l by lra. lra.
Qed.

(** ** Segmenter: sessions *)

Lemma run_app (cs cs' : list EyeFeatureExtractor.call) :
  forall s,
    EyeFeatureExtractor.run s (cs ++ cs')
    = match EyeFeatureExtractor.run s cs with
      | Some s1 => EyeFeatureExtractor.run s1 cs'
      | None => None
      end.
Proof.
  induction cs as [| c cs IH]; intros s; simpl.
  - reflexivity.
  - destruct (EyeFeatureExtractor.do_call s c); [apply IH | reflexivity].
Qed.







Lemma consistent_after_endFixation (s : EyeFeatureExtractor.t) (p : Point)
    (ts : R) :
  Forall consistent_fixation (EyeFeatureExtractor.fixations s) ->
  Forall consistent_fixation
         (EyeFeatureExtractor.fixations (EyeFeatureExtractor.endFixation s p ts)).
Proof.
  intros Hall.
  destruct (endFixation_fixations s p ts)
    as [-> | [start [_ [Hnz [_ ->]]]]]; [exact Hall |].
  apply Forall_app. split; [exact Hall |].
  constructor; [| constructor]. split; [reflexivity | exact Hnz].
Qed.

Lemma consistent_after_call (s s' : EyeFeatureExtractor.t)
    (c : EyeFeatureExtractor.call) :
  EyeFeatureExtractor.do_call s c = Some s' ->
  Forall consistent_fixation (EyeFeatureExtractor.fixations s) ->
  Forall consistent_fixation (EyeFeatureExtractor.fixations s').
Proof.
  intros Hcall Hall. destruct c as [p ts | p ts | |]; simpl in Hcall.
  - destruct (processGaze_effect s s' p ts Hcall)
      as [_ [_ [_ [_ [_ [-> | [pt [start [fin [_ [Hnz [_ ->]]]]]]]]]]]];
      [exact Hall |].
    apply Forall_app. split; [exact Hall |].
    constructor; [| constructor]. split; [reflexivity | exact Hnz].
  - injection Hcall as <-. apply consistent_after_endFixation. exact Hall.
  - injection Hcall as <-. unfold EyeFeatureExtractor.getMetrics.
    cbn [snd]. unfold EyeFeatureExtractor.flush.
    destruct (EyeFeatureExtractor.lastGazePoint s); [| exact Hall].
    destruct (truthy_num (EyeFeatureExtractor.lastFixationStart s)
              && truthy_num (EyeFeatureExtractor.lastGazeTimestamp s));
      [apply consistent_after_endFixation |]; exact Hall.
  - injection Hcall as <-. constructor.
Qed.

(** X8: after any session of a fresh segmenter, every recorded fixation
    has [duration = end - start] and a non-zero [start]. *)
Theorem fixations_consistent (cs : list EyeFeatureExtractor.call) :
  exists s,
    EyeFeatureExtractor.run EyeFeatureExtractor.new cs = Some s
    /\ Forall consistent_fixation (EyeFeatureExtractor.fixations s).
Proof.
  destruct (seg_inv_run cs _ seg_inv_new) as [s [Hrun _]].
  exists s. split; [exact Hrun |].
  assert (Hgen : forall cs0 s0 s1,
            EyeFeatureExtractor.run s0 cs0 = Some s1 ->
            Forall consistent_fixation (EyeFeatureExtractor.fixations s0) ->
            Forall consistent_fixation (EyeFeatureExtractor.fixations s1)).
  { induction cs0 as [| c cs0 IH]; intros s0 s1 Hr Hall; simpl in Hr.
    - injection Hr as <-. exact Hall.
    - destruct (EyeFeatureExtractor.do_call s0 c) as [s2 |] eqn:Hc;
        [| discriminate].
      apply (IH s2 s1 Hr). apply (consistent_after_call s0 s2 c Hc Hall). }
  apply (Hgen cs _ _ Hrun). constructor.
Qed.

Lemma thresholds_after_call (s s' : EyeFeatureExtractor.t)
    (c : EyeFeatureExtractor.call) :
  EyeFeatureExtractor.do_call s c = Some s' ->
  EyeFeatureExtractor.fixationRadius s' = EyeFeatureExtractor.fixationRadius s
  /\ EyeFeatureExtractor.fixationDuration s'
     = EyeFeatureExtractor.fixationDuration s
  /\ EyeFeatureExtractor.saccadeThreshold s'
     = EyeFeatureExtractor.saccadeThreshold s.
Proof.
  intros Hcall. destruct c as [p ts | p ts | |]; simpl in Hcall.
  - apply (processGaze_effect s s' p ts Hcall).
  - injection Hcall as <-.
    destruct (endFixation_frame s p ts) as [Hr [Hd [Ht _]]]. tauto.
  - injection Hcall as <-. unfold EyeFeatureExtractor.getMetrics. cbn [snd].
    destruct (flush_frame s) as [Hr [Hd [Ht _]]]. tauto.
  - injection Hcall as <-. repeat split.
Qed.

Lemma thresholds_after_run (cs : list EyeFeatureExtractor.call) :
  forall s s',
    EyeFeatureExtractor.run s cs = Some s' ->
    EyeFeatureExtractor.fixationRadius s' = EyeFeatureExtractor.fixationRadius s
    /\ EyeFeatureExtractor.fixationDuration s'
       = EyeFeatureExtractor.fixationDuration s
    /\ EyeFeatureExtractor.saccadeThreshold s'
       = EyeFeatureExtractor.saccadeThreshold s.
Proof.
  induction cs as [| c cs IH]; intros s s' Hrun; simpl in Hrun.
  - injection Hrun as <-. repeat split.
  - destruct (EyeFeatureExtractor.do_call s c) as [s1 |] eqn:Hc;
      [| discriminate].
    destruct (thresholds_after_call s s1 c Hc) as [Hr [Hd Ht]].
    destruct (IH s1 s' Hrun) as [Hr' [Hd' Ht']].
    rewrite Hr', Hd', Ht'. tauto.
Qed.

(** X9: [reset()] forgets the past: a session that contains a [reset()]
    ends exactly as the session of the calls after it, started on a fresh
    segmenter. *)
Theorem reset_forgets (before after : list EyeFeatureExtractor.call) :
  EyeFeatureExtractor.run EyeFeatureExtractor.new
    (before ++ EyeFeatureExtractor.Reset :: after)
  = EyeFeatureExtractor.run EyeFeatureExtractor.new after.
Proof.
  rewrite run_app.
  destruct (seg_inv_run before _ seg_inv_new) as [s [Hrun _]].
  rewrite Hrun. cbn [EyeFeatureExtractor.run EyeFeatureExtractor.do_call].
  destruct (thresholds_after_run before _ _ Hrun) as [Hr [Hd Ht]].
  unfold EyeFeatureExtractor.reset. rewrite Hr, Hd, Ht. reflexivity.
Qed.

(** The segmenter after three samples with no jump between them, the
    second at a non-zero timestamp: no event yet, and the candidate opened
    at the second sample is still the open one. *)
Lemma three_samples_candidate (p0 p1 p2 : Point) (t0 t1 t2 : R) :
  euclideanDistance p0 p1 <= 30 ->
  euclideanDistance p1 p2 <= 30 ->
  t1 <> 0 ->
  exists representative,
    EyeFeatureExtractor.run EyeFeatureExtractor.new
      (feed [(p0, t0); (p1, t1); (p2, t2)])
    = Some (EyeFeatureExtractor.mk 50 100 30
              (history_of [(p0, t0); (p1, t1); (p2, t2)]) [] []
              (Some p2) (Some t2) (Some t1) (Some representative)).
Proof.
  intros H01 H12 Ht1.
  apply num_gt_false in H01. apply truthy_true in Ht1.
  assert (Hradius : num_le (euclideanDistance p1 p2) 50 = true)
    by (apply num_le_true; lra).
  apply num_gt_false in H12.
  cbn [feed history_of map fst snd EyeFeatureExtractor.run
       EyeFeatureExtractor.do_call].
  assert (H1 : EyeFeatureExtractor.processGaze EyeFeatureExtractor.new p0 t0
               = Some (EyeFeatureExtractor.mk 50 100 30
                         [GazeSample.mk p0 t0] [] []
                         (Some p0) (Some t0) None None))
    by reflexivity.
  rewrite H1. clear H1.
  assert (H2 : EyeFeatureExtractor.processGaze
                 (EyeFeatureExtractor.mk 50 100 30
                    [GazeSample.mk p0 t0] [] []
                    (Some p0) (Some t0) None None) p1 t1
               = Some (EyeFeatureExtractor.mk 50 100 30
                         [GazeSample.mk p0 t0; GazeSample.mk p1 t1] [] []
                         (Some p1) (Some t1) (Some t1) (Some p1))).
  { unfold EyeFeatureExtractor.processGaze,
      EyeFeatureExtractor.processGaze_step.
    seg_fields. rewrite H01. reflexivity. }
  rewrite H2. clear H2.
  unfold EyeFeatureExtractor.processGaze,
    EyeFeatureExtractor.processGaze_step.
  seg_fields. rewrite H12. cbn [truthy_num to_number app]. rewrite Ht1.
  cbn [negb].
  destruct (num_ge (t2 - t1) 100).
  - rewrite Hradius. eexists. reflexivity.
  - eexists. reflexivity.
Qed.

(** X10: three samples with no jump between them (consecutive distances
    at most 30), the last two at non-zero timestamps [t1] and [t2],
    followed by [getMetrics()]: the fixation is measured from the second
    sample.  When [t2 - t1 >= 100] exactly one fixation is recorded, at the
    last gaze point, from [t1] to [t2]; when [t2 - t1 < 100] none is.  In
    both cases no saccade is. *)
Theorem fixation_measured_from_second_sample (p0 p1 p2 : Point)
    (t0 t1 t2 : R) :
  euclideanDistance p0 p1 <= 30 ->
  euclideanDistance p1 p2 <= 30 ->
  t1 <> 0 ->
  t2 <> 0 ->
  exists s,
    EyeFeatureExtractor.run EyeFeatureExtractor.new
      (feed [(p0, t0); (p1, t1); (p2, t2)]) = Some s
    /\ EyeFeatureExtractor.saccades (snd (EyeFeatureExtractor.getMetrics s))
       = []
    /\ (t2 - t1 >= 100
        /\ EyeFeatureExtractor.fixations
             (snd (EyeFeatureExtractor.getMetrics s))
           = [FixationEvent.mk p2 (t2 - t1) t1 t2]
        /\ Metrics.fixationCount (fst (EyeFeatureExtractor.getMetrics s))
           = 1%nat
        \/ t2 - t1 < 100
           /\ EyeFeatureExtractor.fixations
                (snd (EyeFeatureExtractor.getMetrics s)) = []
           /\ Metrics.fixationCount (fst (EyeFeatureExtractor.getMetrics s))
              = 0%nat).
Proof.
  intros H01 H12 Ht1 Ht2.
  destruct (three_samples_candidate p0 p1 p2 t0 t1 t2 H01 H12 Ht1)
    as [representative Hrun].
  eexists. split; [exact Hrun |].
  apply truthy_true in Ht1. apply truthy_true in Ht2.
  unfold EyeFeatureExtractor.getMetrics, EyeFeatureExtractor.aggregate,
    EyeFeatureExtractor.flush, EyeFeatureExtractor.endFixation.
  seg_fields. cbn [truthy_num to_number fst snd]. rewrite Ht1, Ht2.
  cbn [andb].
  destruct (num_ge (t2 - t1) 100) eqn:Hlong; seg_fields;
    cbn [Metrics.fixationCount].
  - apply num_ge_true in Hlong. split; [reflexivity |].
    left. repeat split. exact Hlong.
  - apply num_ge_false in Hlong. split; [reflexivity |].
    right. repeat split. exact Hlong.
Qed.

Lemma fixation_measured_from_second_sample_witness :
  exists s,
    EyeFeatureExtractor.run EyeFeatureExtractor.new
      (feed [((0, 0), 1000); ((3, 4), 1050); ((3, 4), 1200)]) = Some s
    /\ EyeFeatureExtractor.saccades (snd (EyeFeatureExtractor.getMetrics s))
       = [].
Proof.
  destruct (fixation_measured_from_second_sample
              (0, 0) (3, 4) (3, 4) 1000 1050 1200)
    as [s [Hrun [Hsac _]]].
  - apply euclideanDistance_le; simpl; lra.
  - apply euclideanDistance_le; simpl; lra.
  - lra.
  - lra.
  - exists s. split; [exact Hrun | exact Hsac].
Defined.

(** ** Calibrator: any calibration run *)

Lemma trainModel_none_iff (c : Calibrator.t) :
  Calibrator.model (Calibrator._trainModel c) = None
  <-> Calibrator.gazeData c = [].
Proof.
  unfold Calibrator._trainModel.
  destruct (Calibrator.gazeData c); simpl; split;
    try reflexivity; discriminate.
Qed.

Lemma run_inv_start (W H : R) (c : Calibrator.t) :
  run_inv W H c -> run_inv W H (Calibrator.startCalibration c).
Proof.
  intros [HW HH Hp Hg Hspp _ _ _].
  constructor; simpl; try assumption.
  - constructor.
  - intros _. repeat split; lia.
  - discriminate.
Qed.

Lemma run_inv_new (W H : R) :
  run_inv W H (Calibrator.startCalibration (Calibrator.new W H)).
Proof.
  constructor; simpl; try reflexivity.
  - constructor.
  - intros _. repeat split; lia.
  - discriminate.
Qed.

(** [finishCalibration] on a calibrator that stands past the last
    target. *)
Lemma run_inv_finish (W H : R) (c : Calibrator.t) :
  Calibrator.screenWidth c = W ->
  Calibrator.screenHeight c = H ->
  Calibrator.calibrationPoints c = [] ->
  Calibrator.calibrationTargets c
  = Calibrator._generateCalibrationTargets W H ->
  Calibrator.samplesPerPoint c = 30%nat ->
  Forall (fun d => In (CalibrationSample.target d)
                      (Calibrator.calibrationTargets c))
         (Calibrator.gazeData c) ->
  Calibrator.currentCalibrationIndex c = 25%nat ->
  (length (Calibrator.gazeData c) <= 750)%nat ->
  run_inv W H (Calibrator.finishCalibration c).
Proof.
  intros HW HH Hp Hg Hspp Hin Hidx Hlen.
  pose proof (trainModel_none_iff (Calibrator.set_isCalibrating c false))
    as Hnone.
  unfold Calibrator.finishCalibration. rewrite trainModel_frame.
  set (m := Calibrator.model
              (Calibrator._trainModel (Calibrator.set_isCalibrating c false)))
    in *.
  constructor; simpl; try assumption.
  - discriminate.
  - intros _. repeat split; try assumption; apply Hnone.
Qed.

Lemma run_inv_do_call (W H : R) (c : Calibrator.t) (k : Calibrator.call) :
  run_inv W H c -> run_inv W H (Calibrator.do_call c k).
Proof.
  intros Hinv. destruct (Calibrator.isCalibrating c) eqn:Hcal.
  2: { rewrite do_call_idle by exact Hcal. exact Hinv. }
  destruct Hinv as [HW HH Hp Hg Hspp Hin Hrun Hidle].
  destruct (Hrun Hcal) as [Hidx [Hcur [Hmodel Hlen]]].
  assert (Htg : length (Calibrator.calibrationTargets c) = 25%nat)
    by (rewrite Hg; reflexivity).
  destruct k as [l g |]; simpl.
  - unfold Calibrator.addGazeSample. rewrite Hcal.
    destruct (nth_error (Calibrator.calibrationTargets c)
                (Calibrator.currentCalibrationIndex c)) as [target |] eqn:Hnth.
    2: { apply nth_error_None in Hnth. lia. }
    simpl. rewrite Hspp.
    assert (Hin' : Forall (fun d => In (CalibrationSample.target d)
                                       (Calibrator.calibrationTargets c))
                     (Calibrator.gazeData c
                      ++ [CalibrationSample.mk
                            (Calibrator._extractFeatures l) g target])).
    { apply Forall_app. split; [exact Hin |].
      constructor; [| constructor]. simpl.
      apply (nth_error_In _ _ Hnth). }
    assert (Hlen' : (length (Calibrator.gazeData c
                             ++ [CalibrationSample.mk
                                   (Calibrator._extractFeatures l) g target])
                     <= Calibrator.currentCalibrationIndex c * 30
                        + (Calibrator.currentSamples c + 1))%nat)
      by (rewrite length_app; simpl; lia).
    destruct (Nat.leb_spec 30 (Calibrator.currentSamples c + 1))
      as [Hfull | Hmore].
    + unfold Calibrator.advance. simpl. rewrite Htg.
      destruct (Nat.leb_spec 25 (Calibrator.currentCalibrationIndex c + 1))
        as [Hlast | Hnext].
      * apply run_inv_finish; simpl; try assumption; lia.
      * constructor; simpl; try assumption;
          try (intros Habs; congruence).
        intros _. repeat split; try assumption; lia.
    + constructor; simpl; try assumption;
        try (intros Habs; congruence).
      intros _. repeat split; try assumption; lia.
  - unfold Calibrator.moveToNextCalibrationPoint. rewrite Hcal, Htg.
    destruct (Nat.ltb_spec (Calibrator.currentCalibrationIndex c) 25)
      as [_ | Hge]; [| lia].
    simpl. unfold Calibrator.advance. simpl. rewrite Htg.
    destruct (Nat.leb_spec 25 (Calibrator.currentCalibrationIndex c + 1))
      as [Hlast | Hnext].
    + apply run_inv_finish; simpl; try assumption; lia.
    + constructor; simpl; try assumption;
        try (intros Habs; congruence).
      intros _. repeat split; try assumption; lia.
Qed.

Lemma run_inv_run (W H : R) (ks : list Calibrator.call) :
  forall c, run_inv W H c -> run_inv W H (Calibrator.run c ks).
Proof.
  induction ks as [| k ks IH]; intros c Hinv; simpl.
  - exact Hinv.
  - apply IH, run_inv_do_call, Hinv.
Qed.

(** X11: [startCalibration()] restarts from scratch: called at any point
    of a calibration run, it leaves the calibrator exactly as it was right
    after the first [startCalibration()]. *)
Theorem startCalibration_restarts (W H : R) (ks : list Calibrator.call) :
  Calibrator.startCalibration (calibration_run W H ks)
  = Calibrator.startCalibration (Calibrator.new W H).
Proof.
  destruct (run_inv_run W H ks _ (run_inv_new W H))
    as [HW HH Hp Hg Hspp _ _ _].
  fold (calibration_run W H ks) in HW, HH, Hp, Hg, Hspp.
  unfold Calibrator.startCalibration at 1.
  rewrite HW, HH, Hp, Hg, Hspp. reflexivity.
Qed.

(** X12: while a calibration run is calibrating there is no model, so
    [predictGaze] returns [null] for every frame, and there is a current
    target, taken from the grid. *)
Theorem calibrating_has_target_and_no_model (W H : R)
    (ks : list Calibrator.call) :
  Calibrator.isCalibrating (calibration_run W H ks) = true ->
  Calibrator.model (calibration_run W H ks) = None
  /\ (forall landmarks,
        Calibrator.predictGaze (calibration_run W H ks) landmarks = None)
  /\ exists target,
       Calibrator.getCurrentCalibrationPoint (calibration_run W H ks)
       = Some target
       /\ In target (Calibrator._generateCalibrationTargets W H).
Proof.
  intros Hcal.
  destruct (run_inv_run W H ks _ (run_inv_new W H))
    as [_ _ _ Hg _ _ Hrun _].
  fold (calibration_run W H ks) in Hg, Hrun.
  destruct (Hrun Hcal) as [Hidx [_ [Hmodel _]]].
  split; [exact Hmodel |]. split.
  - intros landmarks. unfold Calibrator.predictGaze. rewrite Hmodel.
    reflexivity.
  - unfold Calibrator.getCurrentCalibrationPoint.
    destruct (nth_error (Calibrator.calibrationTargets (calibration_run W H ks))
                (Calibrator.currentCalibrationIndex (calibration_run W H ks)))
      as [target |] eqn:Hnth.
    + exists target. split; [reflexivity |].
      rewrite <- Hg. apply (nth_error_In _ _ Hnth).
    + apply nth_error_None in Hnth. rewrite Hg in Hnth.
      change (length (Calibrator._generateCalibrationTargets W H))
        with 25%nat in Hnth.
      lia.
Qed.

Lemma calibrating_has_target_and_no_model_witness :
  Calibrator.model
    (calibration_run 1080 1920
       [Calibrator.AddGazeSample sample_landmarks (100, 100)]) = None.
Proof.
  apply (calibrating_has_target_and_no_model 1080 1920
           [Calibrator.AddGazeSample sample_landmarks (100, 100)]).
  reflexivity.
Defined.

(** X13: once a calibration run has stopped calibrating there is no
    current target, at most 750 samples are retained, each with a target
    of the grid, a model exists exactly when at least one sample was
    retained, and further [addGazeSample] or forced-advance calls change
    nothing. *)
Theorem finished_run (W H : R) (ks : list Calibrator.call) :
  Calibrator.isCalibrating (calibration_run W H ks) = false ->
  Calibrator.getCurrentCalibrationPoint (calibration_run W H ks) = None
  /\ (length (Calibrator.gazeData (calibration_run W H ks)) <= 750)%nat
  /\ Forall (fun d => In (CalibrationSample.target d)
                         (Calibrator._generateCalibrationTargets W H))
            (Calibrator.gazeData (calibration_run W H ks))
  /\ (Calibrator.model (calibration_run W H ks) = None
      <-> Calibrator.gazeData (calibration_run W H ks) = [])
  /\ forall k,
       Calibrator.do_call (calibration_run W H ks) k
       = calibration_run W H ks.
Proof.
  intros Hidle.
  destruct (run_inv_run W H ks _ (run_inv_new W H))
    as [_ _ _ Hg _ Hin _ Hstop].
  fold (calibration_run W H ks) in Hg, Hin, Hstop.
  destruct (Hstop Hidle) as [Hidx [Hlen Hmodel]].
  split.
  { unfold Calibrator.getCurrentCalibrationPoint.
    apply nth_error_None. rewrite Hg, Hidx. apply Nat.le_refl. }
  split; [exact Hlen |].
  split; [rewrite <- Hg; exact Hin |].
  split; [exact Hmodel |].
  intros k. apply do_call_idle. exact Hidle.
Qed.

Lemma finished_run_witness :
  Calibrator.getCurrentCalibrationPoint
    (calibration_run 1080 1920
       (repeat Calibrator.MoveToNextCalibrationPoint 25)) = None.
Proof.
  apply (finished_run 1080 1920
           (repeat Calibrator.MoveToNextCalibrationPoint 25)).
  reflexivity.
Defined.

(** ** Calibrator: a run of [addGazeSample] calls, a run of forced
    advances *)

Lemma combine_snoc {A B : Type} (xs : list A) :
  forall (ys : list B) (y : B),
    combine xs (ys ++ [y])
    = combine xs ys
      ++ match nth_error xs (length ys) with
         | Some x => [(x, y)]
         | None => []
         end.
Proof.
  induction xs as [| a xs IH]; intros ys y.
  - destruct ys; reflexivity.
  - destruct ys as [| b ys]; [destruct xs; reflexivity |].
    cbn [app combine length nth_error]. rewrite IH. reflexivity.
Qed.

Lemma retained_snoc (targets : list Point)
    (frames : list (Landmarks * Point)) (frame : Landmarks * Point) :
  retained targets (frames ++ [frame])
  = retained targets frames
    ++ match nth_error (thirty_each targets) (length frames) with
       | Some target => [sample_of target frame]
       | None => []
       end.
Proof.
  unfold retained. rewrite combine_snoc, map_app.
  destruct (nth_error (thirty_each targets) (length frames)); reflexivity.
Qed.

Lemma submit_state_start (W H : R) :
  submit_state W H [] (Calibrator.startCalibration (Calibrator.new W H)).
Proof.
  constructor; try reflexivity.
  - intros _. simpl. repeat split; lia.
  - simpl. lia.
Qed.

Lemma submit_state_step (W H : R) (frames : list (Landmarks * Point))
    (frame : Landmarks * Point) (c : Calibrator.t) :
  submit_state W H frames c ->
  submit_state W H (frames ++ [frame])
    (Calibrator.addGazeSample c (fst frame) (snd frame)).
Proof.
  intros [Hg Hspp Hret Hrun Hdone].
  assert (Htg : length (Calibrator.calibrationTargets c) = 25%nat)
    by (rewrite Hg; reflexivity).
  assert (Hlen : length (frames ++ [frame]) = S (length frames))
    by (rewrite length_app; simpl; lia).
  destruct (Nat.lt_ge_cases (length frames) 750) as [Hk | Hk].
  - destruct (Hrun Hk) as [Hcal [Hidx Hcur]].
    assert (Hi : (Calibrator.currentCalibrationIndex c < 25)%nat) by lia.
    unfold Calibrator.addGazeSample. rewrite Hcal.
    destruct (nth_error (Calibrator.calibrationTargets c)
                (Calibrator.currentCalibrationIndex c)) as [target |] eqn:Hnth.
    2: { apply nth_error_None in Hnth. lia. }
    assert (Hret' : Calibrator.gazeData c
                    ++ [CalibrationSample.mk
                          (Calibrator._extractFeatures (fst frame))
                          (snd frame) target]
                    = retained (Calibrator.calibrationTargets c)
                               (frames ++ [frame])).
    { rewrite retained_snoc, <- Hidx, nth_error_thirty_each by exact Hcur.
      rewrite Hnth, Hret. reflexivity. }
    simpl. rewrite Hspp.
    destruct (Nat.leb_spec 30 (Calibrator.currentSamples c + 1))
      as [Hfull | Hmore].
    + unfold Calibrator.advance. simpl. rewrite Htg.
      destruct (Nat.leb_spec 25 (Calibrator.currentCalibrationIndex c + 1))
        as [Hlast | Hnext].
      * unfold Calibrator.finishCalibration.
        match goal with
        | |- submit_state _ _ _ (Calibrator._trainModel ?c1) =>
            pose proof (trainModel_mean c1) as Hm;
            rewrite (trainModel_frame c1)
        end.
        simpl in Hm.
        constructor; simpl; try assumption; try (intros; lia).
        intros _. split; [reflexivity |]. apply Hm.
        destruct (Calibrator.gazeData c); discriminate.
      * constructor; simpl; try assumption; try (intros; lia).
        intros _. repeat split; solve [assumption | lia].
    + constructor; simpl; try assumption; try (intros; lia).
      intros _. repeat split; solve [assumption | lia].
  - destruct (Hdone Hk) as [Hcal Hmodel].
    unfold Calibrator.addGazeSample. rewrite Hcal. simpl.
    constructor; try assumption; try (intros; lia).
    + rewrite retained_snoc.
      assert (Hout : nth_error (thirty_each (Calibrator.calibrationTargets c))
                       (length frames) = None).
      { apply nth_error_None. rewrite thirty_each_length, Htg. simpl. lia. }
      rewrite Hout, app_nil_r. exact Hret.
    + intros _. split; assumption.
Qed.

Lemma submit_state_run (W H : R) (more : list (Landmarks * Point)) :
  forall frames c,
    submit_state W H frames c ->
    submit_state W H (frames ++ more) (Calibrator.run c (submit more)).
Proof.
  induction more as [| frame more IH]; intros frames c Hst.
  - rewrite app_nil_r. exact Hst.
  - replace (frames ++ frame :: more) with ((frames ++ [frame]) ++ more)
      by (rewrite <- app_assoc; reflexivity).
    cbn [submit map Calibrator.run fold_left Calibrator.do_call].
    apply (IH (frames ++ [frame])). apply submit_state_step. exact Hst.
Qed.

(** X14: a calibration run fed only by [addGazeSample] takes exactly 750
    frames.  The retained samples are the first 750 frames, frame [k]
    paired with target [k / 30]; with fewer than 750 frames the run is
    still calibrating and its progress is [frames / 750]; from the 750th
    frame on it has stopped, with progress 1 and the mean offsets of the
    retained samples as model. *)
Theorem run_of_samples (W H : R) (frames : list (Landmarks * Point)) :
  Calibrator.gazeData (calibration_run W H (submit frames))
  = retained (Calibrator._generateCalibrationTargets W H) frames
  /\ ((length frames < 750)%nat
      /\ Calibrator.isCalibrating (calibration_run W H (submit frames)) = true
      /\ Calibrator.getCalibrationProgress (calibration_run W H (submit frames))
         = INR (length frames) / 750
      \/ (750 <= length frames)%nat
         /\ Calibrator.isCalibrating (calibration_run W H (submit frames))
            = false
         /\ Calibrator.getCalibrationProgress
              (calibration_run W H (submit frames)) = 1
         /\ length (Calibrator.gazeData (calibration_run W H (submit frames)))
            = 750%nat
         /\ Calibrator.model (calibration_run W H (submit frames))
            = Some (Model.mk
                      (mean (map offset_x
                               (Calibrator.gazeData
                                  (calibration_run W H (submit frames)))))
                      (mean (map offset_y
                               (Calibrator.gazeData
                                  (calibration_run W H (submit frames))))))).
Proof.
  pose proof (submit_state_run W H frames [] _ (submit_state_start W H))
    as Hst.
  cbn [app] in Hst. fold (calibration_run W H (submit frames)) in Hst.
  pose proof (run_wf_run (submit frames) _ (run_wf_start W H)) as Hwf.
  fold (calibration_run W H (submit frames)) in Hwf.
  set (c := calibration_run W H (submit frames)) in *.
  destruct Hst as [Hg Hspp Hret Hrun Hdone].
  split; [rewrite Hret, Hg; reflexivity |].
  destruct (Nat.lt_ge_cases (length frames) 750) as [Hk | Hk].
  - left. destruct (Hrun Hk) as [Hcal [Hidx Hcur]].
    split; [exact Hk |]. split; [exact Hcal |].
    destruct (progress_running c Hwf Hcal) as [-> _].
    unfold collected. rewrite Hspp, Hidx. reflexivity.
  - right. destruct (Hdone Hk) as [Hcal Hmodel].
    split; [exact Hk |]. split; [exact Hcal |].
    split; [apply progress_idle; exact Hcal |].
    split; [| exact Hmodel].
    rewrite Hret. unfold retained.
    rewrite length_map, length_combine, thirty_each_length, Hg.
    change (length (Calibrator._generateCalibrationTargets W H))
      with 25%nat.
    lia.
Qed.

Lemma advance_state_start (W H : R) :
  advance_state 0 (Calibrator.startCalibration (Calibrator.new W H)).
Proof.
  constructor; try reflexivity.
  - intros _. repeat split.
  - intros Hn. lia.
Qed.

Lemma advance_state_step (n : nat) (c : Calibrator.t) :
  advance_state n c ->
  advance_state (S n) (Calibrator.moveToNextCalibrationPoint c).
Proof.
  intros [Htg Hempty Hmodel Hrun Hdone].
  destruct (Nat.lt_ge_cases n 25) as [Hn | Hn].
  - destruct (Hrun Hn) as [Hcal [Hidx Hcur]].
    unfold Calibrator.moveToNextCalibrationPoint. rewrite Hcal, Htg, Hidx.
    destruct (Nat.ltb_spec n 25) as [_ | Hge]; [| lia].
    simpl. unfold Calibrator.advance. simpl. rewrite Htg, Hidx.
    destruct (Nat.leb_spec 25 (n + 1)) as [Hlast | Hnext].
    + unfold Calibrator.finishCalibration, Calibrator._trainModel.
      simpl. rewrite Hempty. simpl.
      constructor; simpl; try assumption; try reflexivity;
        try (intros; lia); intros _; reflexivity.
    + constructor; simpl; try assumption; try (intros; lia).
      intros _. repeat split; solve [assumption | lia].
  - pose proof (Hdone Hn) as Hcal.
    unfold Calibrator.moveToNextCalibrationPoint. rewrite Hcal. simpl.
    constructor; try assumption; try (intros; lia).
    intros _. exact Hcal.
Qed.

Lemma advance_state_run (m : nat) :
  forall n c,
    advance_state n c ->
    advance_state (n + m)
      (Calibrator.run c (repeat Calibrator.MoveToNextCalibrationPoint m)).
Proof.
  induction m as [| m IH]; intros n c Hst.
  - rewrite Nat.add_0_r. exact Hst.
  - replace (n + S m)%nat with (S n + m)%nat by lia.
    cbn [repeat Calibrator.run fold_left Calibrator.do_call].
    apply IH, advance_state_step, Hst.
Qed.

(** X15: forcing the advance [n] times right after [startCalibration()]:
    for [n < 25] the run is calibrating at target [n] of the grid with no
    sample counted and progress [n / 25]; for [n >= 25] it has stopped,
    with no sample, no model and therefore no prediction. *)
Theorem run_of_forced_advances (W H : R) (n : nat) :
  Calibrator.gazeData
    (calibration_run W H (repeat Calibrator.MoveToNextCalibrationPoint n))
  = []
  /\ (forall landmarks,
        Calibrator.predictGaze
          (calibration_run W H
             (repeat Calibrator.MoveToNextCalibrationPoint n)) landmarks
        = None)
  /\ ((n < 25)%nat
      /\ Calibrator.isCalibrating
           (calibration_run W H
              (repeat Calibrator.MoveToNextCalibrationPoint n)) = true
      /\ Calibrator.getCurrentCalibrationPoint
           (calibration_run W H
              (repeat Calibrator.MoveToNextCalibrationPoint n))
         = nth_error (Calibrator._generateCalibrationTargets W H) n
      /\ Calibrator.getCalibrationProgress
           (calibration_run W H
              (repeat Calibrator.MoveToNextCalibrationPoint n))
         = INR n / 25
      \/ (25 <= n)%nat
         /\ Calibrator.isCalibrating
              (calibration_run W H
                 (repeat Calibrator.MoveToNextCalibrationPoint n)) = false
         /\ Calibrator.getCalibrationProgress
              (calibration_run W H
                 (repeat Calibrator.MoveToNextCalibrationPoint n)) = 1).
Proof.
  pose proof (advance_state_run n 0 _ (advance_state_start W H)) as Hst.
  cbn [Nat.add] in Hst.
  pose proof (run_inv_run W H
                (repeat Calibrator.MoveToNextCalibrationPoint n) _
                (run_inv_new W H)) as Hinv.
  pose proof (run_wf_run (repeat Calibrator.MoveToNextCalibrationPoint n) _
                (run_wf_start W H)) as Hwf.
  fold (calibration_run W H (repeat Calibrator.MoveToNextCalibrationPoint n))
    in Hst, Hinv, Hwf.
  set (c := calibration_run W H
              (repeat Calibrator.MoveToNextCalibrationPoint n)) in *.
  destruct Hst as [Htg Hempty Hmodel Hrun Hdone].
  split; [exact Hempty |].
  split.
  { intros landmarks. unfold Calibrator.predictGaze. rewrite Hmodel.
    reflexivity. }
  destruct (Nat.lt_ge_cases n 25) as [Hn | Hn].
  - left. destruct (Hrun Hn) as [Hcal [Hidx Hcur]].
    split; [exact Hn |]. split; [exact Hcal |]. split.
    + unfold Calibrator.getCurrentCalibrationPoint.
      rewrite (ri_grid W H c Hinv), Hidx. reflexivity.
    + destruct (progress_running c Hwf Hcal) as [-> _].
      unfold collected. rewrite Hidx, Hcur, (wf_spp c Hwf).
      rewrite Nat.add_0_r, mult_INR, INR_30. field.
  - right. split; [exact Hn |]. split; [exact (Hdone Hn) |].
    apply progress_idle. exact (Hdone Hn).
Qed.

(** ** Calibrator: what a prediction and a fit depend on *)

Lemma extractFeatures_missing (landmarks : Landmarks) :
  Exists (fun i => landmark_at landmarks i = None) required_landmarks ->
  Calibrator._extractFeatures landmarks = zero_features.
Proof.
  intros Habsent. unfold Calibrator._extractFeatures.
  unfold required_landmarks in Habsent.
  repeat (apply Exists_cons in Habsent; destruct Habsent as [-> | Habsent];
          [repeat match goal with
                  | |- context [match landmark_at landmarks ?i with _ => _ end] =>
                      destruct (landmark_at landmarks i)
                  end; reflexivity | ]).
  inversion Habsent.
Qed.

Lemma extractFeatures_base (landmarks : Landmarks) (leftIris : Landmark.t) :
  Forall (fun i => landmark_at landmarks i <> None) required_landmarks ->
  landmark_at landmarks 468 = Some leftIris ->
  nth 6 (Calibrator._extractFeatures landmarks) 0 = Landmark.x leftIris
  /\ nth 7 (Calibrator._extractFeatures landmarks) 0 = Landmark.y leftIris.
Proof.
  intros Hall Hiris. unfold required_landmarks in Hall.
  repeat match goal with
         | H : Forall _ (_ :: _) |- _ =>
             let Hhd := fresh "Hhd" in
             apply Forall_cons_iff in H; destruct H as [Hhd H]
         end.
  unfold Calibrator._extractFeatures. rewrite Hiris.
  destruct (landmark_at landmarks 33); [| congruence].
  destruct (landmark_at landmarks 133); [| congruence].
  destruct (landmark_at landmarks 362); [| congruence].
  destruct (landmark_at landmarks 263); [| congruence].
  destruct (landmark_at landmarks 473); [| congruence].
  split; reflexivity.
Qed.

Lemma clamp_inside_id (W v : R) : 0 <= v <= W -> Rmax 0 (Rmin W v) = v.
Proof.
  intros [H0 HW]. rewrite Rmin_right by exact HW.
  apply Rmax_right. exact H0.
Qed.

(** X16: what [predictGaze] is built from once a model exists.  With one
    of the six eye landmarks missing it ignores the landmarks: it is the
    fitted offset alone, clamped to the screen.  With all six present it is
    the left iris centre moved by the fitted offset and clamped, and
    whenever that moved point is on the screen it is returned unchanged. *)
Theorem predictGaze_of_landmarks (c : Calibrator.t) (m : Model.t)
    (landmarks : Landmarks) :
  Calibrator.model c = Some m ->
  (Exists (fun i => landmark_at landmarks i = None) required_landmarks ->
   Calibrator.predictGaze c landmarks
   = Some (Rmax 0 (Rmin (Calibrator.screenWidth c) (0 + Model.offsetX m)),
           Rmax 0 (Rmin (Calibrator.screenHeight c) (0 + Model.offsetY m))))
  /\
  (Forall (fun i => landmark_at landmarks i <> None) required_landmarks ->
   forall leftIris,
     landmark_at landmarks 468 = Some leftIris ->
     Calibrator.predictGaze c landmarks
     = Some (Rmax 0 (Rmin (Calibrator.screenWidth c)
                          (Landmark.x leftIris + Model.offsetX m)),
             Rmax 0 (Rmin (Calibrator.screenHeight c)
                          (Landmark.y leftIris + Model.offsetY m)))
     /\ (0 <= Landmark.x leftIris + Model.offsetX m
         <= Calibrator.screenWidth c ->
         0 <= Landmark.y leftIris + Model.offsetY m
         <= Calibrator.screenHeight c ->
         Calibrator.predictGaze c landmarks
         = Some (Landmark.x leftIris + Model.offsetX m,
                 Landmark.y leftIris + Model.offsetY m))).
Proof.
  intros Hm. split.
  - intros Hmissing. unfold Calibrator.predictGaze.
    rewrite Hm, (extractFeatures_missing landmarks Hmissing). reflexivity.
  - intros Hall leftIris Hiris.
    destruct (extractFeatures_base landmarks leftIris Hall Hiris) as [H6 H7].
    unfold Calibrator.predictGaze. rewrite Hm, H6, H7.
    split; [reflexivity |].
    intros Hx Hy. rewrite (clamp_inside_id _ _ Hx), (clamp_inside_id _ _ Hy).
    reflexivity.
Qed.

Lemma predictGaze_of_landmarks_witness :
  Calibrator.predictGaze
    (Calibrator.set_model (Calibrator.new 1080 1920)
                          (Some (Model.mk 500 700))) []
  = Some (Rmax 0 (Rmin 1080 (0 + 500)), Rmax 0 (Rmin 1920 (0 + 700))).
Proof.
  apply (proj1 (predictGaze_of_landmarks
                  (Calibrator.set_model (Calibrator.new 1080 1920)
                                        (Some (Model.mk 500 700)))
                  (Model.mk 500 700) [] eq_refl)).
  apply Exists_cons_hd. reflexivity.
Defined.

(** X17: finishing a calibration with at least one sample fits an offset
    that lies, on each axis, between the smallest and the largest offset
    (target minus observed gaze) among the samples. *)
Theorem fitted_offset_between_extremes (c : Calibrator.t)
    (x0 x1 y0 y1 : R) :
  Calibrator.gazeData c <> [] ->
  Forall (fun d => x0 <= offset_x d <= x1 /\ y0 <= offset_y d <= y1)
         (Calibrator.gazeData c) ->
  exists m,
    Calibrator.model (Calibrator.finishCalibration c) = Some m
    /\ x0 <= Model.offsetX m <= x1
    /\ y0 <= Model.offsetY m <= y1.
Proof.
  intros Hne Hall.
  unfold Calibrator.finishCalibration.
  rewrite trainModel_mean by exact Hne.
  cbn [Calibrator.set_isCalibrating Calibrator.gazeData].
  eexists. split; [reflexivity |].
  cbn [Model.offsetX Model.offsetY]. unfold mean.
  rewrite !length_map.
  split; apply (mean_of_bounded_map _ _ _ _ Hne);
    eapply Forall_impl; try exact Hall;
    cbv beta; intros d [Hx Hy]; assumption.
Qed.

Lemma fitted_offset_between_extremes_witness :
  exists m,
    Calibrator.model
      (Calibrator.finishCalibration
         (Calibrator.push_gazeData
            (Calibrator.push_gazeData (Calibrator.new 1080 1920)
               (CalibrationSample.mk zero_features (100, 100) (104, 108)))
            (CalibrationSample.mk zero_features (100, 100) (106, 102))))
    = Some m
    /\ 4 <= Model.offsetX m <= 6
    /\ 2 <= Model.offsetY m <= 8.
Proof.
  apply (fitted_offset_between_extremes
           (Calibrator.push_gazeData
              (Calibrator.push_gazeData (Calibrator.new 1080 1920)
                 (CalibrationSample.mk zero_features (100, 100) (104, 108)))
              (CalibrationSample.mk zero_features (100, 100) (106, 102)))
           4 6 2 8).
  - discriminate.
  - repeat constructor; unfold offset_x, offset_y; simpl; lra.
Defined.

(** ** Tracker: sessions *)

Lemma calibrator_screen_addGazeSample (c : Calibrator.t) (l : Landmarks)
    (g : Point) :
  Calibrator.screenWidth (Calibrator.addGazeSample c l g)
  = Calibrator.screenWidth c
  /\ Calibrator.screenHeight (Calibrator.addGazeSample c l g)
     = Calibrator.screenHeight c.
Proof.
  unfold Calibrator.addGazeSample.
  destruct (negb (Calibrator.isCalibrating c)); [split; reflexivity |].
  destruct (nth_error _ _); [| split; reflexivity].
  destruct (_ <=? _)%nat; [| split; reflexivity].
  unfold Calibrator.advance.
  destruct (_ <=? _)%nat; [| split; reflexivity].
  unfold Calibrator.finishCalibration. rewrite trainModel_frame.
  split; reflexivity.
Qed.

Lemma calibrator_screen_moveToNext (c : Calibrator.t) :
  Calibrator.screenWidth (Calibrator.moveToNextCalibrationPoint c)
  = Calibrator.screenWidth c
  /\ Calibrator.screenHeight (Calibrator.moveToNextCalibrationPoint c)
     = Calibrator.screenHeight c.
Proof.
  unfold Calibrator.moveToNextCalibrationPoint.
  destruct (_ && _); [| split; reflexivity].
  unfold Calibrator.advance.
  destruct (_ <=? _)%nat; [| split; reflexivity].
  unfold Calibrator.finishCalibration. rewrite trainModel_frame.
  split; reflexivity.
Qed.

(** An idle calibrator stays idle under either call. *)
Lemma calibrating_after_call (c : Calibrator.t) (k : Calibrator.call) :
  Calibrator.isCalibrating (Calibrator.do_call c k) = true ->
  Calibrator.isCalibrating c = true.
Proof.
  intros Hafter. destruct (Calibrator.isCalibrating c) eqn:Hcal;
    [reflexivity |].
  rewrite (do_call_idle c k Hcal) in Hafter. congruence.
Qed.

(** A frame with both iris centres on a tracker whose segmenter is quiet:
    the returned record and the tracker afterwards, field by field. *)
Lemma processLandmarks_shape (e : EyeTracker.t) (landmarks : Landmarks)
    (ts : R) (leftIris rightIris : Landmark.t) :
  quiet (EyeTracker.featureExtractor e) ->
  landmark_at landmarks 468 = Some leftIris ->
  landmark_at landmarks 473 = Some rightIris ->
  exists s metrics,
    quiet s
    /\ EyeTracker.processLandmarks e landmarks ts
       = Some
           (Some
              (FrameResult.mk
                 (fed_point
                    (EyeTracker.calibrator
                       (EyeTracker.calibrate_frame e landmarks
                          (EyeTracker.raw_gaze_point e leftIris rightIris)))
                    landmarks
                    (EyeTracker.raw_gaze_point e leftIris rightIris))
                 (EyeTracker.isCalibrating
                    (EyeTracker.calibrate_frame e landmarks
                       (EyeTracker.raw_gaze_point e leftIris rightIris)))
                 (EyeTracker.currentCalibPoint
                    (EyeTracker.calibrate_frame e landmarks
                       (EyeTracker.raw_gaze_point e leftIris rightIris)))
                 (EyeTracker.calibrationProgress
                    (EyeTracker.calibrate_frame e landmarks
                       (EyeTracker.raw_gaze_point e leftIris rightIris)))
                 metrics),
            EyeTracker.set_featureExtractor
              (EyeTracker.set_gaze
                 (EyeTracker.calibrate_frame e landmarks
                    (EyeTracker.raw_gaze_point e leftIris rightIris))
                 (fed_point
                    (EyeTracker.calibrator
                       (EyeTracker.calibrate_frame e landmarks
                          (EyeTracker.raw_gaze_point e leftIris rightIris)))
                    landmarks
                    (EyeTracker.raw_gaze_point e leftIris rightIris)))
              s).
Proof.
  intros Hq Hl Hr. unfold EyeTracker.processLandmarks. rewrite Hl, Hr.
  set (raw := EyeTracker.raw_gaze_point e leftIris rightIris).
  set (e1 := EyeTracker.calibrate_frame e landmarks raw).
  rewrite predicted_gaze_fed.
  set (g := fed_point (EyeTracker.calibrator e1) landmarks raw).
  assert (Hq1 : quiet (EyeTracker.featureExtractor (EyeTracker.set_gaze e1 g))).
  { simpl. unfold e1. rewrite calibrate_frame_featureExtractor. exact Hq. }
  destruct (processGaze_quiet _ g ts Hq1)
    as [s [Hpg [Hd [Hf [Hhist [Hp [Hts Hstart]]]]]]].
  simpl EyeTracker.gaze at 1. rewrite Hpg.
  exists (EyeFeatureExtractor.flush s),
         (EyeFeatureExtractor.aggregate (EyeFeatureExtractor.flush s)).
  split; [apply (flush_after_processGaze s g ts); assumption |].
  reflexivity.
Qed.

Lemma calibrate_frame_screen (e : EyeTracker.t) (landmarks : Landmarks)
    (raw : Point) :
  EyeTracker.screenWidth (EyeTracker.calibrate_frame e landmarks raw)
  = EyeTracker.screenWidth e
  /\ EyeTracker.screenHeight (EyeTracker.calibrate_frame e landmarks raw)
     = EyeTracker.screenHeight e
  /\ Calibrator.screenWidth
       (EyeTracker.calibrator (EyeTracker.calibrate_frame e landmarks raw))
     = Calibrator.screenWidth (EyeTracker.calibrator e)
  /\ Calibrator.screenHeight
       (EyeTracker.calibrator (EyeTracker.calibrate_frame e landmarks raw))
     = Calibrator.screenHeight (EyeTracker.calibrator e).
Proof.
  unfold EyeTracker.calibrate_frame.
  destruct (EyeTracker.isCalibrating e); [| repeat split].
  simpl.
  destruct (calibrator_screen_addGazeSample (EyeTracker.calibrator e)
              landmarks raw) as [-> ->].
  repeat split.
Qed.

(** Under the tracker invariant the calibration block amounts to one
    [addGazeSample] on the calibrator, and the tracker's flag afterwards
    is the calibrator's. *)
Lemma calibrate_frame_calibrator (W H : R) (e : EyeTracker.t)
    (landmarks : Landmarks) (raw : Point) :
  tracker_inv W H e ->
  EyeTracker.calibrator (EyeTracker.calibrate_frame e landmarks raw)
  = Calibrator.addGazeSample (EyeTracker.calibrator e) landmarks raw
  /\ (EyeTracker.isCalibrating e = true ->
      EyeTracker.isCalibrating (EyeTracker.calibrate_frame e landmarks raw)
      = Calibrator.isCalibrating
          (Calibrator.addGazeSample (EyeTracker.calibrator e) landmarks raw)
      /\ EyeTracker.calibrationProgress
           (EyeTracker.calibrate_frame e landmarks raw)
         = Calibrator.getCalibrationProgress
             (Calibrator.addGazeSample (EyeTracker.calibrator e)
                                       landmarks raw))
  /\ (EyeTracker.isCalibrating e = false ->
      EyeTracker.calibrate_frame e landmarks raw = e
      /\ Calibrator.isCalibrating (EyeTracker.calibrator e) = false).
Proof.
  intros Hinv. unfold EyeTracker.calibrate_frame.
  destruct (EyeTracker.isCalibrating e) eqn:Hflag.
  - simpl. split; [reflexivity |]. split; [| discriminate].
    intros _. split; [| reflexivity].
    destruct (Calibrator.isCalibrating
                (Calibrator.addGazeSample (EyeTracker.calibrator e)
                                          landmarks raw)); reflexivity.
  - assert (Hidle : Calibrator.isCalibrating (EyeTracker.calibrator e) = false).
    { destruct (Calibrator.isCalibrating (EyeTracker.calibrator e)) eqn:Hc;
        [| reflexivity].
      pose proof (ti_flag W H e Hinv Hc). congruence. }
    split.
    + symmetry.
      apply (do_call_idle _ (Calibrator.AddGazeSample landmarks raw) Hidle).
    + split; [discriminate |]. intros _. split; [reflexivity | exact Hidle].
Qed.

Lemma tracker_inv_new (W H : R) : tracker_inv W H (EyeTracker.new W H).
Proof.
  constructor; try reflexivity.
  - exact quiet_new.
  - simpl. discriminate.
Qed.

Lemma tracker_inv_frame (W H : R) (e : EyeTracker.t) (landmarks : Landmarks)
    (raw g : Point) (s : EyeFeatureExtractor.t) :
  tracker_inv W H e ->
  quiet s ->
  tracker_inv W H
    (EyeTracker.set_featureExtractor
       (EyeTracker.set_gaze (EyeTracker.calibrate_frame e landmarks raw) g) s).
Proof.
  intros Hinv Hq.
  destruct (calibrate_frame_screen e landmarks raw) as [HW [HH [HcW HcH]]].
  destruct (calibrate_frame_calibrator W H e landmarks raw Hinv)
    as [Hcal [Hon Hoff]].
  destruct Hinv as [HW0 HH0 HcW0 HcH0 _ Hflag].
  constructor; simpl; try congruence; try exact Hq.
  intros Hc. destruct (EyeTracker.isCalibrating e) eqn:Hf.
  - destruct (Hon eq_refl) as [-> _]. rewrite <- Hcal. exact Hc.
  - destruct (Hoff eq_refl) as [Hsame Hidle].
    rewrite Hsame in Hc. congruence.
Qed.

Lemma tracker_inv_do_call (W H : R) (e : EyeTracker.t) (k : EyeTracker.call) :
  tracker_inv W H e ->
  exists r e',
    EyeTracker.do_call e k = Some (r, e') /\ tracker_inv W H e'.
Proof.
  intros Hinv. destruct k as [| | landmarks ts]; simpl.
  - eexists. eexists. split; [reflexivity |].
    destruct Hinv as [HW HH HcW HcH Hq _].
    constructor; simpl; try assumption; try reflexivity.
    apply quiet_reset. exact Hq.
  - eexists. eexists. split; [reflexivity |].
    destruct (calibrator_screen_moveToNext (EyeTracker.calibrator e))
      as [HcW' HcH'].
    destruct Hinv as [HW HH HcW HcH Hq Hflag].
    constructor; simpl; try congruence; try exact Hq.
    intros Hc. apply Hflag.
    apply (calibrating_after_call _ Calibrator.MoveToNextCalibrationPoint Hc).
  - destruct (landmark_at landmarks 468) as [l |] eqn:Hl.
    2: { rewrite processLandmarks_no_iris by (left; exact Hl).
         eexists. eexists. split; [reflexivity | exact Hinv]. }
    destruct (landmark_at landmarks 473) as [r |] eqn:Hr.
    2: { rewrite processLandmarks_no_iris by (right; exact Hr).
         eexists. eexists. split; [reflexivity | exact Hinv]. }
    destruct (processLandmarks_shape e landmarks ts l r
                (ti_quiet W H e Hinv) Hl Hr) as [s [m [Hq Hrun]]].
    eexists. eexists. split; [exact Hrun |].
    apply tracker_inv_frame; assumption.
Qed.

Lemma tracker_inv_run (W H : R) (ks : list EyeTracker.call) :
  forall e,
    tracker_inv W H e ->
    exists results e',
      EyeTracker.run e ks = Some (results, e') /\ tracker_inv W H e'.
Proof.
  induction ks as [| k ks IH]; intros e Hinv; simpl.
  - exists [], e. split; [reflexivity | exact Hinv].
  - destruct (tracker_inv_do_call W H e k Hinv) as [r [e1 [-> Hinv1]]].
    destruct (IH e1 Hinv1) as [results [e2 [-> Hinv2]]].
    eexists. eexists. split; [reflexivity | exact Hinv2].
Qed.

Lemma raw_gaze_on_screen (W H : R) (leftIris rightIris : Landmark.t) :
  0 <= W -> 0 <= H ->
  normalized leftIris -> normalized rightIris ->
  inside_screen W H
    ((Landmark.x leftIris + Landmark.x rightIris) / 2 * W,
     (Landmark.y leftIris + Landmark.y rightIris) / 2 * H).
Proof.
  intros HW HH [[Hlx0 Hlx1] [Hly0 Hly1]] [[Hrx0 Hrx1] [Hry0 Hry1]].
  unfold inside_screen. cbn [fst snd]. repeat split; nra.
Qed.

(** X18: on a screen of non-negative width and height, a frame whose two
    iris centres are normalized (coordinates in [[0, 1]]) always yields a
    gaze point on the screen, at any point of any session, whether the
    tracker has a model or is still handing the raw point on. *)
Theorem frame_gaze_on_screen (W H : R) (ks : list EyeTracker.call)
    (results : list FrameResult.t) (e : EyeTracker.t)
    (landmarks : Landmarks) (ts : R) (leftIris rightIris : Landmark.t) :
  0 <= W -> 0 <= H ->
  EyeTracker.run (EyeTracker.new W H) ks = Some (results, e) ->
  landmark_at landmarks 468 = Some leftIris ->
  landmark_at landmarks 473 = Some rightIris ->
  normalized leftIris -> normalized rightIris ->
  exists result e',
    EyeTracker.processLandmarks e landmarks ts = Some (Some result, e')
    /\ inside_screen W H (FrameResult.gaze result)
    /\ EyeTracker.gaze e' = FrameResult.gaze result.
Proof.
  intros HW HH Hrun Hl Hr Hnl Hnr.
  destruct (tracker_inv_run W H ks _ (tracker_inv_new W H))
    as [results' [e0 [Hrun' Hinv]]].
  rewrite Hrun in Hrun'. injection Hrun' as _ <-.
  destruct (processLandmarks_shape e landmarks ts leftIris rightIris
              (ti_quiet W H e Hinv) Hl Hr) as [s [m [_ Hframe]]].
  eexists. eexists. split; [exact Hframe |].
  split; [| reflexivity].
  cbn [FrameResult.gaze].
  destruct (calibrate_frame_screen e landmarks
              (EyeTracker.raw_gaze_point e leftIris rightIris))
    as [_ [_ [HcW HcH]]].
  rewrite (ti_calibrator_width W H e Hinv) in HcW.
  rewrite (ti_calibrator_height W H e Hinv) in HcH.
  unfold fed_point, Calibrator.predictGaze.
  destruct (Calibrator.model _) as [model |].
  - rewrite HcW, HcH. split; cbn [fst snd]; apply clamp_inside; assumption.
  - unfold EyeTracker.raw_gaze_point.
    rewrite (ti_width W H e Hinv), (ti_height W H e Hinv).
    apply raw_gaze_on_screen; assumption.
Qed.

Lemma frame_gaze_on_screen_witness :
  exists result e',
    EyeTracker.processLandmarks (EyeTracker.new 1080 1920)
      sample_landmarks 1000 = Some (Some result, e')
    /\ inside_screen 1080 1920 (FrameResult.gaze result).
Proof.
  assert (H468 : INR 468 = 468) by (rewrite INR_IZR_INZ; reflexivity).
  assert (H473 : INR 473 = 473) by (rewrite INR_IZR_INZ; reflexivity).
  destruct (frame_gaze_on_screen 1080 1920 [] [] (EyeTracker.new 1080 1920)
              sample_landmarks 1000
              (Landmark.mk (INR 468 / 1000) (INR 468 / 500) 0)
              (Landmark.mk (INR 473 / 1000) (INR 473 / 500) 0))
    as [result [e' [Hframe [Hin _]]]].
  - lra.
  - lra.
  - reflexivity.
  - reflexivity.
  - reflexivity.
  - unfold normalized. cbn [Landmark.x Landmark.y]. rewrite H468. lra.
  - unfold normalized. cbn [Landmark.x Landmark.y]. rewrite H473. lra.
  - exists result, e'. split; [exact Hframe | exact Hin].
Defined.

(** X19: at any point of any session the tracker does not report idle
    while its calibrator is calibrating, and every frame with both iris
    centres leaves the tracker's flag, and the flag it returns, equal to
    the calibrator's. *)
Theorem frame_reports_calibrator_state (W H : R) (ks : list EyeTracker.call)
    (results : list FrameResult.t) (e : EyeTracker.t)
    (landmarks : Landmarks) (ts : R) (leftIris rightIris : Landmark.t) :
  EyeTracker.run (EyeTracker.new W H) ks = Some (results, e) ->
  landmark_at landmarks 468 = Some leftIris ->
  landmark_at landmarks 473 = Some rightIris ->
  (Calibrator.isCalibrating (EyeTracker.calibrator e) = false
   \/ EyeTracker.isCalibrating e = true)
  /\ exists result e',
       EyeTracker.processLandmarks e landmarks ts = Some (Some result, e')
       /\ FrameResult.isCalibrating result
          = Calibrator.isCalibrating (EyeTracker.calibrator e')
       /\ EyeTracker.isCalibrating e'
          = Calibrator.isCalibrating (EyeTracker.calibrator e').
Proof.
  intros Hrun Hl Hr.
  destruct (tracker_inv_run W H ks _ (tracker_inv_new W H))
    as [results' [e0 [Hrun' Hinv]]].
  rewrite Hrun in Hrun'. injection Hrun' as _ <-.
  split.
  { destruct (Calibrator.isCalibrating (EyeTracker.calibrator e)) eqn:Hc;
      [right; apply (ti_flag W H e Hinv Hc) | left; reflexivity]. }
  destruct (processLandmarks_shape e landmarks ts leftIris rightIris
              (ti_quiet W H e Hinv) Hl Hr) as [s [m [_ Hframe]]].
  eexists. eexists. split; [exact Hframe |].
  cbn [FrameResult.isCalibrating EyeTracker.set_featureExtractor
       EyeTracker.set_gaze EyeTracker.isCalibrating EyeTracker.calibrator].
  destruct (calibrate_frame_calibrator W H e landmarks
              (EyeTracker.raw_gaze_point e leftIris rightIris) Hinv)
    as [Hcal [Hon Hoff]].
  destruct (EyeTracker.isCalibrating e) eqn:Hflag.
  - destruct (Hon eq_refl) as [Hf _]. rewrite Hf, Hcal. split; reflexivity.
  - destruct (Hoff eq_refl) as [Hsame Hidle]. rewrite Hsame, Hflag, Hidle.
    split; reflexivity.
Qed.

Lemma frame_reports_calibrator_state_witness :
  exists result e',
    EyeTracker.processLandmarks
      (EyeTracker.startCalibration (EyeTracker.new 1080 1920))
      sample_landmarks 1000 = Some (Some result, e')
    /\ FrameResult.isCalibrating result
       = Calibrator.isCalibrating (EyeTracker.calibrator e').
Proof.
  destruct (frame_reports_calibrator_state 1080 1920
              [EyeTracker.StartCalibration] []
              (EyeTracker.startCalibration (EyeTracker.new 1080 1920))
              sample_landmarks 1000
              (Landmark.mk (INR 468 / 1000) (INR 468 / 500) 0)
              (Landmark.mk (INR 473 / 1000) (INR 473 / 500) 0)
              eq_refl eq_refl eq_refl)
    as [_ [result [e' [Hframe [Hres _]]]]].
  exists result, e'. split; [exact Hframe | exact Hres].
Defined.

(** The tracker after [n] forced advances: only the calibrator and the
    two mirrored fields move. *)
Lemma tracker_forced_advances (n : nat) :
  forall e,
    exists e',
      EyeTracker.run e (repeat EyeTracker.MoveToNextCalibrationPoint n)
      = Some ([], e')
      /\ EyeTracker.calibrator e'
         = Calibrator.run (EyeTracker.calibrator e)
             (repeat Calibrator.MoveToNextCalibrationPoint n)
      /\ EyeTracker.isCalibrating e' = EyeTracker.isCalibrating e
      /\ EyeTracker.featureExtractor e' = EyeTracker.featureExtractor e
      /\ ((0 < n)%nat ->
          EyeTracker.isCalibrating e = true ->
          EyeTracker.currentCalibPoint e'
          = Calibrator.getCurrentCalibrationPoint (EyeTracker.calibrator e')
          /\ EyeTracker.calibrationProgress e'
             = Calibrator.getCalibrationProgress (EyeTracker.calibrator e')).
Proof.
  induction n as [| n IH]; intros e.
  - exists e. do 4 (split; [reflexivity |]). intros Hn. lia.
  - destruct (IH (EyeTracker.moveToNextCalibrationPoint e))
      as [e' [Hrun [Hcal [Hflag [Hfe Hmirror]]]]].
    exists e'.
    cbn [repeat EyeTracker.run EyeTracker.do_call]. rewrite Hrun.
    split; [reflexivity |].
    split; [rewrite Hcal; reflexivity |].
    split; [rewrite Hflag; reflexivity |].
    split; [rewrite Hfe; reflexivity |].
    intros _ Hon. destruct n as [| n].
    + cbn [repeat EyeTracker.run] in Hrun. injection Hrun as <-.
      cbn [EyeTracker.moveToNextCalibrationPoint EyeTracker.currentCalibPoint
           EyeTracker.calibrationProgress EyeTracker.calibrator].
      rewrite Hon. split; reflexivity.
    + apply Hmirror; [lia |].
      cbn [EyeTracker.moveToNextCalibrationPoint EyeTracker.isCalibrating].
      exact Hon.
Qed.

Lemma addGazeSample_idle (c : Calibrator.t) (landmarks : Landmarks)
    (g : Point) :
  Calibrator.isCalibrating c = false ->
  Calibrator.addGazeSample c landmarks g = c.
Proof.
  intros Hidle.
  exact (do_call_idle c (Calibrator.AddGazeSample landmarks g) Hidle).
Qed.

(** X20: forcing the advance past the last target ([n >= 25] calls of the
    tracker's [moveToNextCalibrationPoint()] after [startCalibration()])
    finishes the calibrator but not the tracker: the tracker still reports
    calibrating, with no current target and progress 1, and it is the next
    frame with both iris centres that reports idle. *)
Theorem forced_finish_is_seen_by_next_frame (W H : R) (n : nat)
    (landmarks : Landmarks) (ts : R) (leftIris rightIris : Landmark.t) :
  (25 <= n)%nat ->
  landmark_at landmarks 468 = Some leftIris ->
  landmark_at landmarks 473 = Some rightIris ->
  exists e,
    EyeTracker.run (EyeTracker.new W H)
      (EyeTracker.StartCalibration
       :: repeat EyeTracker.MoveToNextCalibrationPoint n) = Some ([], e)
    /\ Calibrator.isCalibrating (EyeTracker.calibrator e) = false
    /\ EyeTracker.isCalibrating e = true
    /\ EyeTracker.currentCalibPoint e = None
    /\ EyeTracker.calibrationProgress e = 1
    /\ exists result e',
         EyeTracker.processLandmarks e landmarks ts = Some (Some result, e')
         /\ FrameResult.isCalibrating result = false
         /\ EyeTracker.isCalibrating e' = false.
Proof.
  intros Hn Hl Hr.
  destruct (tracker_forced_advances n
              (EyeTracker.startCalibration (EyeTracker.new W H)))
    as [e [Hrun [Hcal [Hflag [Hfe Hmirror]]]]].
  destruct (Hmirror ltac:(lia) eq_refl) as [Hpoint Hprogress].
  change (EyeTracker.calibrator
            (EyeTracker.startCalibration (EyeTracker.new W H)))
    with (Calibrator.startCalibration (Calibrator.new W H)) in Hcal.
  fold (calibration_run W H (repeat Calibrator.MoveToNextCalibrationPoint n))
    in Hcal.
  pose proof (advance_state_run n 0 _ (advance_state_start W H)) as Hst.
  cbn [Nat.add] in Hst.
  fold (calibration_run W H (repeat Calibrator.MoveToNextCalibrationPoint n))
    in Hst.
  pose proof (run_inv_run W H
                (repeat Calibrator.MoveToNextCalibrationPoint n) _
                (run_inv_new W H)) as Hinv.
  fold (calibration_run W H (repeat Calibrator.MoveToNextCalibrationPoint n))
    in Hinv.
  rewrite <- Hcal in Hst, Hinv.
  pose proof (as_done n _ Hst Hn) as Hidle.
  destruct (ri_idle W H _ Hinv Hidle) as [Hidx _].
  exists e. cbn [EyeTracker.run EyeTracker.do_call]. rewrite Hrun.
  split; [reflexivity |].
  split; [exact Hidle |].
  split; [rewrite Hflag; reflexivity |].
  split.
  { rewrite Hpoint. unfold Calibrator.getCurrentCalibrationPoint.
    apply nth_error_None. rewrite (ri_grid W H _ Hinv), Hidx.
    apply Nat.le_refl. }
  split; [rewrite Hprogress; apply progress_idle; exact Hidle |].
  assert (Hq : quiet (EyeTracker.featureExtractor e))
    by (rewrite Hfe; apply quiet_reset, quiet_new).
  destruct (processLandmarks_shape e landmarks ts leftIris rightIris Hq Hl Hr)
    as [s [m [_ Hframe]]].
  eexists. eexists. split; [exact Hframe |].
  cbn [FrameResult.isCalibrating EyeTracker.set_featureExtractor
       EyeTracker.set_gaze EyeTracker.isCalibrating].
  assert (Hoff : EyeTracker.isCalibrating
                   (EyeTracker.calibrate_frame e landmarks
                      (EyeTracker.raw_gaze_point e leftIris rightIris))
                 = false).
  { unfold EyeTracker.calibrate_frame. rewrite Hflag.
    cbn [EyeTracker.startCalibration EyeTracker.isCalibrating].
    rewrite (addGazeSample_idle _ landmarks
               (EyeTracker.raw_gaze_point e leftIris rightIris) Hidle).
    rewrite Hidle. reflexivity. }
  rewrite Hoff. split; reflexivity.
Qed.

Lemma forced_finish_is_seen_by_next_frame_witness :
  exists e,
    EyeTracker.run (EyeTracker.new 1080 1920)
      (EyeTracker.StartCalibration
       :: repeat EyeTracker.MoveToNextCalibrationPoint 25) = Some ([], e)
    /\ Calibrator.isCalibrating (EyeTracker.calibrator e) = false
    /\ EyeTracker.isCalibrating e = true.
Proof.
  destruct (forced_finish_is_seen_by_next_frame 1080 1920 25
              sample_landmarks 1000
              (Landmark.mk (INR 468 / 1000) (INR 468 / 500) 0)
              (Landmark.mk (INR 473 / 1000) (INR 473 / 500) 0)
              (le_n 25) eq_refl eq_refl)
    as [e [Hrun [Hidle [Hflag _]]]].
  exists e. split; [exact Hrun |]. split; assumption.
Defined.

Lemma observed_gaze_raw (W H : R) (e : EyeTracker.t) (landmarks : Landmarks)
    (leftIris rightIris : Landmark.t) :
  EyeTracker.screenWidth e = W ->
  EyeTracker.screenHeight e = H ->
  landmark_at landmarks 468 = Some leftIris ->
  landmark_at landmarks 473 = Some rightIris ->
  EyeTracker.raw_gaze_point e leftIris rightIris
  = observed_gaze W H landmarks.
Proof.
  intros HW HH Hl Hr. unfold EyeTracker.raw_gaze_point, observed_gaze.
  rewrite Hl, Hr, HW, HH. reflexivity.
Qed.

Lemma synced_frame (W H : R) (e : EyeTracker.t) (landmarks : Landmarks)
    (raw g : Point) (s : EyeFeatureExtractor.t) :
  tracker_inv W H e ->
  synced e ->
  synced (EyeTracker.set_featureExtractor
            (EyeTracker.set_gaze (EyeTracker.calibrate_frame e landmarks raw) g)
            s).
Proof.
  intros Hinv [Hflag Hprogress].
  destruct (calibrate_frame_calibrator W H e landmarks raw Hinv)
    as [Hcal [Hon Hoff]].
  constructor; simpl.
  - destruct (EyeTracker.isCalibrating e) eqn:Hf.
    + destruct (Hon eq_refl) as [-> _]. rewrite Hcal. reflexivity.
    + destruct (Hoff eq_refl) as [-> _]. rewrite Hf. exact Hflag.
  - destruct (EyeTracker.isCalibrating e) eqn:Hf.
    + destruct (Hon eq_refl) as [_ ->]. rewrite Hcal. reflexivity.
    + destruct (Hoff eq_refl) as [-> _]. rewrite Hf. discriminate.
Qed.

(** A session of frames, each with both iris centres: every frame returns
    a result and hands one sample to the calibrator. *)
Lemma frames_run (W H : R) (frames : list (Landmarks * R)) :
  forall e,
    tracker_inv W H e ->
    synced e ->
    Forall has_irises (map fst frames) ->
    exists results e',
      EyeTracker.run e (frames_calls frames) = Some (results, e')
      /\ tracker_inv W H e'
      /\ synced e'
      /\ length results = length frames
      /\ EyeTracker.calibrator e'
         = Calibrator.run (EyeTracker.calibrator e)
                          (submit (observed W H frames)).
Proof.
  induction frames as [| [landmarks ts] frames IH]; intros e Hinv Hsync Hall.
  - exists [], e. split; [reflexivity |].
    split; [exact Hinv |]. split; [exact Hsync |]. split; reflexivity.
  - cbn [map fst] in Hall. apply Forall_cons_iff in Hall.
    destruct Hall as [[Hl Hr] Hall].
    destruct (landmark_at landmarks 468) as [l |] eqn:Hl'; [| congruence].
    destruct (landmark_at landmarks 473) as [r |] eqn:Hr'; [| congruence].
    destruct (processLandmarks_shape e landmarks ts l r
                (ti_quiet W H e Hinv) Hl' Hr') as [s [m [Hq Hframe]]].
    rewrite (observed_gaze_raw W H e landmarks l r
               (ti_width W H e Hinv) (ti_height W H e Hinv) Hl' Hr')
      in Hframe.
    match type of Hframe with
    | _ = Some (_, ?e1) =>
        assert (Hinv1 : tracker_inv W H e1)
          by (apply tracker_inv_frame; assumption);
        assert (Hsync1 : synced e1)
          by (apply (synced_frame W H); assumption);
        destruct (IH e1 Hinv1 Hsync1 Hall)
          as [results [e' [Hrun [Hinv' [Hsync' [Hlen Hcal]]]]]]
    end.
    eexists. exists e'.
    cbn [frames_calls map fst snd EyeTracker.run EyeTracker.do_call].
    rewrite Hframe. fold (frames_calls frames). rewrite Hrun.
    split; [reflexivity |].
    split; [exact Hinv' |]. split; [exact Hsync' |].
    split; [cbn [length]; rewrite Hlen; reflexivity |].
    rewrite Hcal.
    cbn [EyeTracker.set_featureExtractor EyeTracker.set_gaze
         EyeTracker.calibrator observed submit map fst snd
         Calibrator.run fold_left Calibrator.do_call].
    destruct (calibrate_frame_calibrator W H e landmarks
                (observed_gaze W H landmarks) Hinv) as [-> _].
    reflexivity.
Qed.

(** X21: calibrating through the tracker.  After [startCalibration()], a
    session of frames that all carry both iris centres returns one result
    per frame and feeds the calibrator one sample per frame, the raw
    screen point of that frame.  With fewer than 750 frames the tracker is
    still calibrating and reports progress [frames / 750]; from the 750th
    frame on it is idle and its calibrator has a model. *)
Theorem calibration_through_frames (W H : R)
    (frames : list (Landmarks * R)) :
  Forall has_irises (map fst frames) ->
  exists results e,
    EyeTracker.run (EyeTracker.new W H)
      (EyeTracker.StartCalibration :: frames_calls frames)
    = Some (results, e)
    /\ length results = length frames
    /\ EyeTracker.calibrator e
       = calibration_run W H (submit (observed W H frames))
    /\ ((length frames < 750)%nat
        /\ EyeTracker.isCalibrating e = true
        /\ EyeTracker.calibrationProgress e = INR (length frames) / 750
        \/ (750 <= length frames)%nat
           /\ EyeTracker.isCalibrating e = false
           /\ Calibrator.model (EyeTracker.calibrator e) <> None).
Proof.
  intros Hall.
  assert (Hinv0 : tracker_inv W H
                    (EyeTracker.startCalibration (EyeTracker.new W H))).
  { destruct (tracker_inv_do_call W H _ EyeTracker.StartCalibration
                (tracker_inv_new W H)) as [r [e1 [Hcall Hinv1]]].
    cbn [EyeTracker.do_call] in Hcall. injection Hcall as _ <-. exact Hinv1. }
  assert (Hsync0 : synced (EyeTracker.startCalibration (EyeTracker.new W H)))
    by (constructor; reflexivity).
  destruct (frames_run W H frames _ Hinv0 Hsync0 Hall)
    as [results [e [Hrun [Hinv [Hsync [Hlen Hcal]]]]]].
  exists results, e.
  cbn [EyeTracker.run EyeTracker.do_call]. rewrite Hrun.
  split; [reflexivity |]. split; [exact Hlen |].
  change (EyeTracker.calibrator
            (EyeTracker.startCalibration (EyeTracker.new W H)))
    with (Calibrator.startCalibration (Calibrator.new W H)) in Hcal.
  fold (calibration_run W H (submit (observed W H frames))) in Hcal.
  split; [exact Hcal |].
  pose proof (submit_state_run W H (observed W H frames) [] _
                (submit_state_start W H)) as Hst.
  cbn [app] in Hst.
  fold (calibration_run W H (submit (observed W H frames))) in Hst.
  pose proof (run_wf_run (submit (observed W H frames)) _ (run_wf_start W H))
    as Hwf.
  fold (calibration_run W H (submit (observed W H frames))) in Hwf.
  rewrite <- Hcal in Hst, Hwf.
  assert (Hobs : length (observed W H frames) = length frames)
    by (unfold observed; apply length_map).
  destruct Hst as [_ Hspp _ Hrunning Hdone]. rewrite Hobs in Hrunning, Hdone.
  destruct Hsync as [Hflag Hprogress].
  destruct (Nat.lt_ge_cases (length frames) 750) as [Hk | Hk].
  - left. destruct (Hrunning Hk) as [Hc [Hidx Hcur]].
    split; [exact Hk |].
    split; [rewrite Hflag; exact Hc |].
    rewrite Hprogress by (rewrite Hflag; exact Hc).
    destruct (progress_running _ Hwf Hc) as [-> _].
    unfold collected. rewrite Hspp, Hidx. reflexivity.
  - right. destruct (Hdone Hk) as [Hc Hmodel].
    split; [exact Hk |].
    split; [rewrite Hflag; exact Hc |].
    rewrite Hmodel. discriminate.
Qed.

Lemma calibration_through_frames_witness :
  exists results e,
    EyeTracker.run (EyeTracker.new 1080 1920)
      (EyeTracker.StartCalibration
       :: frames_calls [(sample_landmarks, 1000); (sample_landmarks, 1016)])
    = Some (results, e)
    /\ length results = 2%nat.
Proof.
  destruct (calibration_through_frames 1080 1920
              [(sample_landmarks, 1000); (sample_landmarks, 1016)])
    as [results [e [Hrun [Hlen _]]]].
  - repeat constructor; discriminate.
  - exists results, e. split; [exact Hrun | exact Hlen].
Defined.

Lemma tracker_run_app (ks ks' : list EyeTracker.call) :
  forall e,
    EyeTracker.run e (ks ++ ks')
    = match EyeTracker.run e ks with
      | Some (results, e1) =>
          match EyeTracker.run e1 ks' with
          | Some (results', e2) => Some (results ++ results', e2)
          | None => None
          end
      | None => None
      end.
Proof.
  induction ks as [| k ks IH]; intros e; cbn [app EyeTracker.run].
  - destruct (EyeTracker.run e ks') as [[results' e2] |]; reflexivity.
  - destruct (EyeTracker.do_call e k) as [[r e1] |]; [| reflexivity].
    rewrite IH.
    destruct (EyeTracker.run e1 ks) as [[results e2] |]; [| reflexivity].
    destruct (EyeTracker.run e2 ks') as [[results' e3] |]; [| reflexivity].
    destruct r; reflexivity.
Qed.

(** The timestamps a session of frames adds to the gaze history. *)
Lemma frames_history (frames : list (Landmarks * R)) :
  forall e results e',
    quiet (EyeTracker.featureExtractor e) ->
    Forall has_irises (map fst frames) ->
    EyeTracker.run e (frames_calls frames) = Some (results, e') ->
    map GazeSample.timestamp
        (EyeFeatureExtractor.gazeHistory (EyeTracker.featureExtractor e'))
    = map GazeSample.timestamp
          (EyeFeatureExtractor.gazeHistory (EyeTracker.featureExtractor e))
      ++ map snd frames.
Proof.
  induction frames as [| [landmarks ts] frames IH];
    intros e results e' Hq Hall Hrun.
  - cbn [frames_calls map EyeTracker.run] in Hrun. injection Hrun as _ <-.
    cbn [map]. rewrite app_nil_r. reflexivity.
  - cbn [map fst] in Hall. apply Forall_cons_iff in Hall.
    destruct Hall as [[Hl Hr] Hall].
    destruct (landmark_at landmarks 468) as [l |] eqn:Hl'; [| congruence].
    destruct (landmark_at landmarks 473) as [r |] eqn:Hr'; [| congruence].
    destruct (processLandmarks_frame e landmarks ts l r Hq Hl' Hr')
      as [result [e1 [Hframe [_ [Hq1 [_ [_ [_ Hhist]]]]]]]].
    cbn [frames_calls map fst snd EyeTracker.run EyeTracker.do_call] in Hrun.
    rewrite Hframe in Hrun. fold (frames_calls frames) in Hrun.
    destruct (EyeTracker.run e1 (frames_calls frames))
      as [[results1 e2] |] eqn:Hrest; [| discriminate].
    injection Hrun as _ <-.
    rewrite (IH e1 results1 e2 Hq1 Hall Hrest), Hhist, map_app.
    cbn [map GazeSample.timestamp snd]. rewrite <- app_assoc. reflexivity.
Qed.

(** X22: [startCalibration()] discards the gaze recorded before it:
    whatever the session so far, after [startCalibration()] and a list of
    frames that carry both iris centres, the segmenter's gaze history
    holds exactly those frames' timestamps, in order. *)
Theorem startCalibration_discards_history (W H : R)
    (before : list EyeTracker.call) (frames : list (Landmarks * R)) :
  Forall has_irises (map fst frames) ->
  exists results e,
    EyeTracker.run (EyeTracker.new W H)
      (before ++ EyeTracker.StartCalibration :: frames_calls frames)
    = Some (results, e)
    /\ map GazeSample.timestamp
           (EyeFeatureExtractor.gazeHistory (EyeTracker.featureExtractor e))
       = map snd frames.
Proof.
  intros Hall.
  destruct (tracker_inv_run W H before _ (tracker_inv_new W H))
    as [results0 [e0 [Hrun0 Hinv0]]].
  assert (Hq1 : quiet (EyeTracker.featureExtractor
                         (EyeTracker.startCalibration e0)))
    by (apply quiet_reset, (ti_quiet W H e0 Hinv0)).
  destruct (run_quiet (frames_calls frames) _ Hq1)
    as [results1 [e [Hrun1 _]]].
  exists (results0 ++ results1), e.
  rewrite tracker_run_app, Hrun0.
  cbn [EyeTracker.run EyeTracker.do_call]. rewrite Hrun1.
  split; [reflexivity |].
  rewrite (frames_history frames _ _ _ Hq1 Hall Hrun1). reflexivity.
Qed.

Lemma startCalibration_discards_history_witness :
  exists results e,
    EyeTracker.run (EyeTracker.new 1080 1920)
      ([EyeTracker.ProcessLandmarks sample_landmarks 900]
       ++ EyeTracker.StartCalibration
          :: frames_calls [(sample_landmarks, 1000); (sample_landmarks, 1016)])
    = Some (results, e)
    /\ map GazeSample.timestamp
           (EyeFeatureExtractor.gazeHistory (EyeTracker.featureExtractor e))
       = [1000; 1016].
Proof.
  apply (startCalibration_discards_history 1080 1920
           [EyeTracker.ProcessLandmarks sample_landmarks 900]
           [(sample_landmarks, 1000); (sample_landmarks, 1016)]).
  repeat constructor; discriminate.
Defined.
